(** * db_viewer: the data-access layer of the in-browser SQLite viewer

    A shallow embedding of [ClientDatabaseManager] (lib/client-database.ts),
    of the row identifier types (lib/database-types.ts) and of the query
    assembly of [fetchTableData] (components/DataTableViewer.tsx), followed by
    the properties of the data-access layer that the specification states.

    The embedded SQL engine (sql.js) and the IndexedDB object store are
    collaborators of the program: they appear as records of operations, and
    every statement the program hands to a database is recorded in the order
    it is handed over. *)

From Stdlib Require Import ZArith List String Ascii Bool Lia DecimalString.
Import ListNotations.

Local Open Scope Z_scope.
Local Open Scope list_scope.
Local Open Scope string_scope.

(** ** JavaScript values *)

(** The double-quote character, the delimiter of a quoted SQL identifier. *)
Definition dquote : ascii := ascii_of_nat 34.
(** The single-quote character, the delimiter of an SQL string literal. *)
Definition squote : ascii := ascii_of_nat 39.

Definition str1 (c : ascii) : string := String c EmptyString.

(** [s.replace(/c/g, by)] for a one-character pattern. *)
Fixpoint replaceAll (c : ascii) (by_ : string) (s : string) : string :=
  match s with
  | EmptyString => EmptyString
  | String a rest =>
      if Ascii.eqb a c then by_ ++ replaceAll c by_ rest
      else String a (replaceAll c by_ rest)
  end.

(** [xs.join(sep)] on an array of strings. *)
Definition join (sep : string) (xs : list string) : string := String.concat sep xs.

(** Decimal rendering of an integer number, as a template literal prints it. *)
Definition numberToString (n : Z) : string := NilZero.string_of_int (Z.to_int n).

(** A value of type [unknown].  Numbers are the integers the program counts
    and pages with; a value of any other kind is carried with the text
    [String(value)] gives for it. *)
Inductive JsValue : Type :=
| JUndefined
| JNull
| JNumber (n : Z)
| JString (s : string)
| JBoolean (b : bool)
| JUint8Array (bytes : list Byte.byte)
| JArrayBuffer (bytes : list Byte.byte)
| JOther (repr : string).

(** [SqlValue] of sql.js: [number | string | Uint8Array | null]. *)
Inductive SqlValue : Type :=
| SqlNull
| SqlNumber (n : Z)
| SqlString (s : string)
| SqlBlob (bytes : list Byte.byte).

(** A plain object, as the list of its own enumerable properties in the order
    [Object.keys], [Object.values] and [Object.entries] enumerate them. *)
Definition JsObject : Type := list (string * JsValue).

Definition Object_keys (o : JsObject) : list string := map fst o.
Definition Object_values (o : JsObject) : list JsValue := map snd o.
Definition Object_entries (o : JsObject) : list (string * JsValue) := o.

(** Property read [o.key]: [undefined] when the object has no such property. *)
Fixpoint getProp (o : JsObject) (key : string) : JsValue :=
  match o with
  | [] => JUndefined
  | (k, v) :: rest => if String.eqb k key then v else getProp rest key
  end.

(** Truthiness of a value, as [if (v)] and [v || d] test it. *)
Definition truthy (v : JsValue) : bool :=
  match v with
  | JUndefined | JNull => false
  | JNumber n => negb (n =? 0)%Z
  | JString s => negb (String.eqb s "")
  | JBoolean b => b
  | _ => true
  end.

(** A property declared [x?: T | null]. *)
Inductive Nullable (A : Type) : Type :=
| Undefined
| Null
| Present (a : A).
Arguments Undefined {A}.
Arguments Null {A}.
Arguments Present {A} a.

(** ** lib/database-types.ts *)

Definition INTERNAL_ROWID_COLUMN : string := "__rowid__".

Record RowIdentifier : Type := {
  rowid : Nullable Z;
  primaryKeyValues : option JsObject
}.

Definition RowValueMap : Type := JsObject.

(** ** lib/client-database.ts: pure helpers *)

Definition quoteIdentifier (identifier : string) : string :=
  str1 dquote ++ replaceAll dquote (str1 dquote ++ str1 dquote) identifier ++ str1 dquote.

Definition normalizeValue (value : JsValue) : SqlValue :=
  match value with
  | JNull | JUndefined => SqlNull
  | JNumber n => SqlNumber n
  | JString s => SqlString s
  | JBoolean b => SqlNumber (if b then 1 else 0)
  | JUint8Array bytes => SqlBlob bytes
  | JArrayBuffer bytes => SqlBlob bytes
  | JOther repr => SqlString repr
  end.

Record WhereClause : Type := {
  clause : string;
  params : list SqlValue
}.

(** The argument is [None] when the caller passes [null] or [undefined] for
    the identifier, which the first guard of the function answers. *)
Definition buildWhereClause (identifier : option RowIdentifier) : WhereClause :=
  match identifier with
  | None => {| clause := ""; params := [] |}
  | Some ident =>
      match rowid ident with
      | Present n =>
          {| clause := "rowid = ?"; params := [normalizeValue (JNumber n)] |}
      | _ =>
          match primaryKeyValues ident with
          | Some pk =>
              if (0 <? Z.of_nat (List.length (Object_keys pk)))%Z
              then
                let parts :=
                  map (fun '(col, _) => quoteIdentifier col ++ " = ?") (Object_entries pk) in
                let params := map normalizeValue (Object_values pk) in
                {| clause := join " AND " parts; params := params |}
              else {| clause := ""; params := [] |}
          | None => {| clause := ""; params := [] |}
          end
      end
  end.

(** ** The collaborators: the SQL engine and the blob store *)

(** What a prepared statement yields when it is stepped: its result rows, as
    [getAsObject] presents each of them, and then either the end of the
    result set or an error raised by the engine. *)
Record Cursor : Type := {
  cur_rows : list JsObject;
  cur_failure : option string
}.

(** A [Database] of sql.js.  [exec] and [run] return the message of the error
    they raise, if any, and the state they leave behind; a statement that is
    prepared for reading is evaluated against the state without altering it.
    A value the engine throws need not be an [Error] object:
    [instanceofError e] tells whether the value thrown with the text [e] is
    one, and [e] is then its [message]. *)
Class Engine : Type := {
  DB : Type;
  db_exec : string -> DB -> option string * DB;
  db_run : string -> option (list SqlValue) -> DB -> option string * DB;
  db_compile : string -> DB -> option string;
  db_eval : string -> list SqlValue -> DB -> Cursor;
  db_export : DB -> string + list Byte.byte;
  instanceofError : string -> bool
}.

(** lib/indexeddb-storage.ts *)
Record StoredDatabaseInfo : Type := {
  stored_id : string;
  stored_name : string;
  stored_size : Z;
  stored_uploadedAt : string;
  stored_buffer : list Byte.byte
}.

(** The object store behind [indexedDBStorage]; [put] may be rejected. *)
Class BlobStore : Type := {
  IDB : Type;
  idb_put : StoredDatabaseInfo -> IDB -> option string * IDB
}.

(** ** lib/client-database.ts: data *)

Record ColumnInfo : Type := {
  cid : JsValue;
  name : JsValue;
  type : JsValue;
  notnull : JsValue;
  dflt_value : JsValue;
  pk : JsValue
}.

Record QueryResult : Type := {
  columns : list string;
  rows : list (list JsValue);
  rowCount : JsValue;
  totalCount : option JsValue;
  limit : option Z;
  offset : option Z
}.

Record DatabaseInfo : Type := {
  id : string;
  info_name : string;
  size : Z;
  uploadedAt : string
}.

(** [Database] and [DatabaseInfo] objects are shared between the table of
    loaded databases and the current selection; they are held by reference. *)
Definition DbRef : Type := nat.
Definition InfoRef : Type := nat.

Record DbEntry : Type := {
  entry_db : option DbRef;
  entry_info : InfoRef
}.

Record ClientDatabaseManager : Type := {
  currentDatabase : option DbRef;
  currentDatabaseInfo : option InfoRef;
  databases : list (string * DbEntry);
  allowLargeFiles : bool;
  maxQueryResultRows : Z;
  useMemoryOptimizations : bool
}.

Definition MAX_SAFE_INTEGER : Z := 2 ^ 53 - 1.

(** The field initialisers of the class. *)
Definition newManager : ClientDatabaseManager := {|
  currentDatabase := None;
  currentDatabaseInfo := None;
  databases := [];
  allowLargeFiles := false;
  maxQueryResultRows := 1000;
  useMemoryOptimizations := true
|}.

(** [Math.max(100, maxRows)], for a whole number of rows [maxRows]. *)
Definition setMaxQueryResultRows (this : ClientDatabaseManager) (maxRows : Z)
  : ClientDatabaseManager :=
  {| currentDatabase := currentDatabase this;
     currentDatabaseInfo := currentDatabaseInfo this;
     databases := databases this;
     allowLargeFiles := allowLargeFiles this;
     maxQueryResultRows := Z.max 100 maxRows;
     useMemoryOptimizations := useMemoryOptimizations this |}.

Definition getMaxQueryResultRows (this : ClientDatabaseManager) : Z :=
  maxQueryResultRows this.

Definition setMemoryOptimizations (this : ClientDatabaseManager) (enabled : bool)
  : ClientDatabaseManager :=
  {| currentDatabase := currentDatabase this;
     currentDatabaseInfo := currentDatabaseInfo this;
     databases := databases this;
     allowLargeFiles := allowLargeFiles this;
     maxQueryResultRows := maxQueryResultRows this;
     useMemoryOptimizations := enabled |}.

Definition getMemoryOptimizations (this : ClientDatabaseManager) : bool :=
  useMemoryOptimizations this.

(** [Map.prototype.get] on the table of loaded databases. *)
Fixpoint Map_get {V : Type} (m : list (string * V)) (key : string) : option V :=
  match m with
  | [] => None
  | (k, v) :: rest => if String.eqb k key then Some v else Map_get rest key
  end.

(** ** Results and exceptions *)

Inductive Outcome (A : Type) : Type :=
| Returned (a : A)
| Thrown (message : string).
Arguments Returned {A} a.
Arguments Thrown {A} message.

(** An optional string argument is used when it is present and not empty. *)
Definition givenId (databaseId : option string) : option string :=
  match databaseId with
  | Some s => if String.eqb s "" then None else Some s
  | None => None
  end.

Definition getDatabase (this : ClientDatabaseManager) (databaseId : option string)
  : Outcome DbRef :=
  match givenId databaseId with
  | Some dbId =>
      match Map_get (databases this) dbId with
      | None => Thrown ("Database with ID " ++ dbId ++ " not found")
      | Some dbEntry =>
          match entry_db dbEntry with
          | None => Thrown "Database not loaded in memory"
          | Some db => Returned db
          end
      end
  | None =>
      match currentDatabase this with
      | None => Thrown "No database selected"
      | Some db => Returned db
      end
  end.

Definition getDatabaseInfo (this : ClientDatabaseManager) (databaseId : option string)
  : Outcome InfoRef :=
  match givenId databaseId with
  | Some dbId =>
      match Map_get (databases this) dbId with
      | None => Thrown ("Database with ID " ++ dbId ++ " not found")
      | Some entry => Returned (entry_info entry)
      end
  | None =>
      match currentDatabaseInfo this with
      | None => Thrown "No database selected"
      | Some info => Returned info
      end
  end.

(** ** Prepared statements *)

(** A [Statement] of sql.js: the database and text it was prepared from, the
    row it stands on, and what it has yet to yield. *)
Record Statement : Type := {
  st_db : DbRef;
  st_sql : string;
  st_current : option JsObject;
  st_pending : list JsObject;
  st_failure : option string
}.

Definition openStatement (db : DbRef) (sql : string) (c : Cursor) : Statement :=
  {| st_db := db; st_sql := sql; st_current := None;
     st_pending := cur_rows c; st_failure := cur_failure c |}.

Definition moveTo (st : Statement) (current : option JsObject)
  (pending : list JsObject) : Statement :=
  {| st_db := st_db st; st_sql := st_sql st; st_current := current;
     st_pending := pending; st_failure := st_failure st |}.

(** The outcome of a step that finds no further row. *)
Definition endOfRows (st : Statement) : Outcome bool :=
  match st_failure st with
  | Some e => Thrown e
  | None => Returned false
  end.

(** [stmt.step()]: moves to the next row and answers whether there is one.
    Past the end of the rows the answer stays [false]; the program takes such
    a step only to decide whether to write a warning to the console.
    [stmt.free()] releases the statement and has no counterpart here. *)
Definition step (st : Statement) : Outcome bool * Statement :=
  match st_pending st with
  | r :: rest => (Returned true, moveTo st (Some r) rest)
  | [] => (endOfRows st, moveTo st None [])
  end.

(** [stmt.getAsObject()]: the row the statement stands on. *)
Definition getAsObject (st : Statement) : JsObject :=
  match st_current st with
  | Some r => r
  | None => []
  end.

(** [while (stmt.step()) { acc.push(f(stmt.getAsObject())) }], by recursion
    on the rows the statement has yet to yield. *)
Fixpoint whileStep {A : Type} (f : JsObject -> A) (st : Statement)
  (pending : list JsObject) (acc : list A) : Outcome (list A) * Statement :=
  match pending with
  | [] =>
      (match endOfRows st with
       | Thrown e => Thrown e
       | Returned _ => Returned acc
       end,
       moveTo st None [])
  | r :: rest => whileStep f st rest (acc ++ [f r])%list
  end.

(** [while (stmt.step() && rowCount < maxRows) { rows.push(...); rowCount++ }]
    of [executeQuery]: the step is taken before the count is compared, so the
    row on which the loop stops has been stepped onto but is not collected. *)
Fixpoint whileStepBelow (maxRows : Z) (st : Statement) (pending : list JsObject)
  (rowCount : Z) (rows : list (list JsValue))
  : Outcome (Z * list (list JsValue)) * Statement :=
  match pending with
  | [] =>
      (match endOfRows st with
       | Thrown e => Thrown e
       | Returned _ => Returned (rowCount, rows)
       end,
       moveTo st None [])
  | r :: rest =>
      if (rowCount <? maxRows)%Z
      then whileStepBelow maxRows st rest (rowCount + 1)
             (rows ++ [Object_values r])%list
      else (Returned (rowCount, rows), moveTo st (Some r) rest)
  end.

(** ** The state the program runs in *)

(** A call made on a [Database] object. *)
Inductive EngineCall : Type :=
| CExec (sql : string)
| CRun (sql : string) (values : option (list SqlValue))
| CPrepare (sql : string)
| CBind (values : list SqlValue)
| CExport.

Definition update {A : Type} (heap : nat -> A) (ref : nat) (a : A) : nat -> A :=
  fun r => if Nat.eqb r ref then a else heap r.

Section DataAccess.

Context {E : Engine} {B : BlobStore}.

Record World : Type := {
  w_db : DbRef -> DB;
  w_info : InfoRef -> DatabaseInfo;
  w_idb : IDB;
  w_calls : list (DbRef * EngineCall)
}.

Definition logCall (w : World) (db : DbRef) (c : EngineCall) : World :=
  {| w_db := w_db w; w_info := w_info w; w_idb := w_idb w;
     w_calls := (w_calls w ++ [(db, c)])%list |}.

Definition setDb (w : World) (db : DbRef) (d : DB) : World :=
  {| w_db := update (w_db w) db d; w_info := w_info w; w_idb := w_idb w;
     w_calls := w_calls w |}.

Definition setInfo (w : World) (info : InfoRef) (i : DatabaseInfo) : World :=
  {| w_db := w_db w; w_info := update (w_info w) info i; w_idb := w_idb w;
     w_calls := w_calls w |}.

Definition setIdb (w : World) (s : IDB) : World :=
  {| w_db := w_db w; w_info := w_info w; w_idb := s; w_calls := w_calls w |}.

(** A computation that may throw and may act on the world. *)
Definition M (A : Type) : Type := World -> Outcome A * World.

Definition ret {A : Type} (a : A) : M A := fun w => (Returned a, w).

Definition throw {A : Type} (message : string) : M A := fun w => (Thrown message, w).

Definition lift {A : Type} (o : Outcome A) : M A := fun w => (o, w).

Definition andThen {A C : Type} (m : M A) (k : A -> M C) : M C :=
  fun w =>
    match m w with
    | (Returned a, w') => k a w'
    | (Thrown e, w') => (Thrown e, w')
    end.

(** [try { m } catch (error) { handler(error) }] *)
Definition tryCatch {A : Type} (m : M A) (handler : string -> M A) : M A :=
  fun w =>
    match m w with
    | (Returned a, w') => (Returned a, w')
    | (Thrown e, w') => handler e w'
    end.

Notation "x <- m ;; k" := (andThen m (fun x => k))
  (at level 61, m at next level, right associativity).
Notation "m ;;; k" := (andThen m (fun _ => k))
  (at level 61, right associativity).

(** A step of a statement held in a local variable. *)
Definition viaOutcome {A : Type} (r : Outcome A * Statement) : M (A * Statement) :=
  lift (match fst r with
        | Returned a => Returned (a, snd r)
        | Thrown e => Thrown e
        end).

(** *** Calls on the engine *)

Definition answer (err : option string) : Outcome unit :=
  match err with
  | Some e => Thrown e
  | None => Returned tt
  end.

(** [db.exec(sql)] *)
Definition exec (db : DbRef) (sql : string) : M unit :=
  fun w =>
    let r := db_exec sql (w_db w db) in
    (answer (fst r), setDb (logCall w db (CExec sql)) db (snd r)).

(** [db.run(sql, params)] *)
Definition run (db : DbRef) (sql : string) (values : option (list SqlValue)) : M unit :=
  fun w =>
    let r := db_run sql values (w_db w db) in
    (answer (fst r), setDb (logCall w db (CRun sql values)) db (snd r)).

(** [db.prepare(sql)] *)
Definition prepare (db : DbRef) (sql : string) : M Statement :=
  fun w =>
    (match db_compile sql (w_db w db) with
     | Some e => Thrown e
     | None => Returned (openStatement db sql (db_eval sql [] (w_db w db)))
     end,
     logCall w db (CPrepare sql)).

(** [stmt.bind(values)]: the statement starts over with the values bound; a
    value the engine refuses shows as the failure of the first step. *)
Definition bindValues (st : Statement) (values : list SqlValue) : M Statement :=
  fun w =>
    (Returned (openStatement (st_db st) (st_sql st)
                 (db_eval (st_sql st) values (w_db w (st_db st)))),
     logCall w (st_db st) (CBind values)).

(** [db.export()] *)
Definition export (db : DbRef) : M (list Byte.byte) :=
  fun w =>
    (match db_export (w_db w db) with
     | inl e => Thrown e
     | inr buffer => Returned buffer
     end,
     logCall w db CExport).

(** [indexedDBStorage.storeDatabase(info)] *)
Definition storeDatabase (info : StoredDatabaseInfo) : M unit :=
  fun w =>
    let r := idb_put info (w_idb w) in
    (match fst r with
     | Some e => Thrown ("Failed to store database: " ++ e)
     | None => Returned tt
     end,
     setIdb w (snd r)).

(** *** The manager's operations

    Messages written to the console are not part of the model. *)

Definition readInfo (info : InfoRef) : M DatabaseInfo :=
  fun w => (Returned (w_info w info), w).

(** [info.size = n] *)
Definition writeSize (info : InfoRef) (n : Z) : M unit :=
  fun w =>
    let i := w_info w info in
    (Returned tt,
     setInfo w info {| id := id i; info_name := info_name i; size := n;
                       uploadedAt := uploadedAt i |}).

Definition persistDatabaseChanges (info : InfoRef) (db : DbRef) : M unit :=
  buffer <- export db ;;
  i <- readInfo info ;;
  let storedInfo :=
    {| stored_id := id i; stored_name := info_name i;
       stored_size := Z.of_nat (List.length buffer);
       stored_uploadedAt := uploadedAt i; stored_buffer := buffer |} in
  storeDatabase storedInfo ;;;
  writeSize info (Z.of_nat (List.length buffer)).

Definition columnOfRow (row : JsObject) : ColumnInfo :=
  {| cid := getProp row "cid";
     name := getProp row "name";
     type := getProp row "type";
     notnull := getProp row "notnull";
     dflt_value := getProp row "dflt_value";
     pk := getProp row "pk" |}.

Definition getTableColumns (this : ClientDatabaseManager) (tableName : string)
  (databaseId : option string) : M (list ColumnInfo) :=
  db <- lift (getDatabase this databaseId) ;;
  tryCatch
    (stmt <- prepare db ("PRAGMA table_info(" ++ quoteIdentifier tableName ++ ")") ;;
     r <- viaOutcome (whileStep columnOfRow stmt (st_pending stmt) []) ;;
     ret (fst r))
    (fun _ => throw ("Failed to retrieve columns for table " ++ tableName)).

Definition orDefault (d : Z) (arg : option Z) : Z :=
  match arg with
  | Some n => n
  | None => d
  end.

Definition getTableData (this : ClientDatabaseManager) (tableName : string)
  (limitArg offsetArg : option Z) (databaseId : option string) : M QueryResult :=
  let limit0 := orDefault 100 limitArg in
  let offset := orDefault 0 offsetArg in
  db <- lift (getDatabase this databaseId) ;;
  let limit :=
    if useMemoryOptimizations this
    then Z.min limit0 (maxQueryResultRows this)
    else limit0 in
  tryCatch
    (totalRows <-
       (if negb (useMemoryOptimizations this) || (limit <=? 1000)%Z
        then
          countStmt <- prepare db ("SELECT COUNT(*) as count FROM "
                                   ++ quoteIdentifier tableName) ;;
          stepped <- viaOutcome (step countStmt) ;;
          let countResult := getAsObject (snd stepped) in
          ret (getProp countResult "count")
        else ret (JNumber (-1))) ;;
     dataStmt <- prepare db ("SELECT rowid as " ++ quoteIdentifier INTERNAL_ROWID_COLUMN
                             ++ ", * FROM " ++ quoteIdentifier tableName
                             ++ " LIMIT ? OFFSET ?") ;;
     dataStmt <- bindValues dataStmt [SqlNumber limit; SqlNumber offset] ;;
     first <- viaOutcome (step dataStmt) ;;
     content <-
       (if fst first
        then
          let firstRow := getAsObject (snd first) in
          remaining <- viaOutcome (whileStep Object_values (snd first)
                                     (st_pending (snd first)) [Object_values firstRow]) ;;
          ret (Object_keys firstRow, fst remaining)
        else ret ([], [])) ;;
     ret {| columns := fst content;
            rows := snd content;
            rowCount := totalRows;
            totalCount := Some totalRows;
            limit := Some limit;
            offset := Some offset |})
    (fun _ => throw ("Failed to retrieve data from table " ++ tableName)).

(** The ceiling [executeQuery] reads twice: when it collects rows and when it
    reports the total. *)
Definition queryCeiling (this : ClientDatabaseManager) : Z :=
  if useMemoryOptimizations this then maxQueryResultRows this else MAX_SAFE_INTEGER.

Definition executeQuery (this : ClientDatabaseManager) (query : string)
  (databaseId : option string) : M QueryResult :=
  db <- lift (getDatabase this databaseId) ;;
  tryCatch
    (stmt <- prepare db query ;;
     first <- viaOutcome (step stmt) ;;
     collected <-
       (if fst first
        then
          let firstRow := getAsObject (snd first) in
          let maxRows := queryCeiling this in
          looped <- viaOutcome (whileStepBelow maxRows (snd first)
                                  (st_pending (snd first)) 1 [Object_values firstRow]) ;;
          let rowCount := fst (fst looped) in
          (if (rowCount >=? maxRows)%Z
           then viaOutcome (step (snd looped)) ;;; ret tt
           else ret tt) ;;;
          ret (Object_keys firstRow, snd (fst looped), rowCount)
        else ret ([], [], 0%Z)) ;;
     let columns := fst (fst collected) in
     let rows := snd (fst collected) in
     let rowCount := snd collected in
     ret {| columns := columns;
            rows := rows;
            rowCount := JNumber (Z.of_nat (List.length rows));
            totalCount :=
              Some (if (rowCount >=? queryCeiling this)%Z
                    then JNumber (-1)
                    else JNumber (Z.of_nat (List.length rows)));
            limit := None;
            offset := None |})
    (fun error =>
       throw ("SQL Error: "
              ++ (if instanceofError error then error else "Unknown error"))).

(** [Object.entries(values).filter(([key]) => key !== INTERNAL_ROWID_COLUMN)] *)
Definition usableEntries (values : RowValueMap) : list (string * JsValue) :=
  filter (fun '(key, _) => negb (String.eqb key INTERNAL_ROWID_COLUMN))
    (Object_entries values).

(** [try { db.exec('ROLLBACK;'); } catch {}] followed by [throw error] *)
Definition rollbackAndRethrow (db : DbRef) (error : string) : M unit :=
  tryCatch (exec db "ROLLBACK;") (fun _ => ret tt) ;;;
  throw error.

Definition insertRow (this : ClientDatabaseManager) (tableName : string)
  (values : RowValueMap) (databaseId : option string) : M unit :=
  db <- lift (getDatabase this databaseId) ;;
  info <- lift (getDatabaseInfo this databaseId) ;;
  let entries := usableEntries values in
  exec db "BEGIN TRANSACTION;" ;;;
  tryCatch
    ((if Nat.eqb (List.length entries) 0
      then run db ("INSERT INTO " ++ quoteIdentifier tableName ++ " DEFAULT VALUES") None
      else
        let columnsSql := join ", " (map (fun '(col, _) => quoteIdentifier col) entries) in
        let placeholders := join ", " (map (fun _ => "?") entries) in
        let params := map (fun '(_, value) => normalizeValue value) entries in
        run db ("INSERT INTO " ++ quoteIdentifier tableName ++ " (" ++ columnsSql
                ++ ") VALUES (" ++ placeholders ++ ")") (Some params)) ;;;
     exec db "COMMIT;" ;;;
     persistDatabaseChanges info db)
    (rollbackAndRethrow db).

Definition updateRow (this : ClientDatabaseManager) (tableName : string)
  (identifier : option RowIdentifier) (values : RowValueMap)
  (databaseId : option string) : M unit :=
  db <- lift (getDatabase this databaseId) ;;
  info <- lift (getDatabaseInfo this databaseId) ;;
  let entries := usableEntries values in
  if Nat.eqb (List.length entries) 0
  then ret tt
  else
    let setClause := join ", " (map (fun '(col, _) => quoteIdentifier col ++ " = ?") entries) in
    let setParams := map (fun '(_, value) => normalizeValue value) entries in
    let where_ := buildWhereClause identifier in
    if String.eqb (clause where_) ""
    then throw "Unable to determine row identifier for update"
    else
      exec db "BEGIN TRANSACTION;" ;;;
      tryCatch
        (run db ("UPDATE " ++ quoteIdentifier tableName ++ " SET " ++ setClause
                 ++ " WHERE " ++ clause where_)
           (Some (setParams ++ params where_)%list) ;;;
         exec db "COMMIT;" ;;;
         persistDatabaseChanges info db)
        (rollbackAndRethrow db).

Definition deleteRow (this : ClientDatabaseManager) (tableName : string)
  (identifier : option RowIdentifier) (databaseId : option string) : M unit :=
  db <- lift (getDatabase this databaseId) ;;
  info <- lift (getDatabaseInfo this databaseId) ;;
  let where_ := buildWhereClause identifier in
  if String.eqb (clause where_) ""
  then throw "Unable to determine row identifier for deletion"
  else
    exec db "BEGIN TRANSACTION;" ;;;
    tryCatch
      (run db ("DELETE FROM " ++ quoteIdentifier tableName ++ " WHERE " ++ clause where_)
         (Some (params where_)) ;;;
       exec db "COMMIT;" ;;;
       persistDatabaseChanges info db)
      (rollbackAndRethrow db).

(** ** components/DataTableViewer.tsx: the browse request *)

Inductive SortDirection : Type := asc | desc.

Inductive FilterOperator : Type :=
| equals | in_ | gt | gte | lt | lte | between | not_null | is_null.

(** An element of [ColumnFilter.values]: [string | number | null]. *)
Inductive FilterValue : Type :=
| FNull
| FNumber (n : Z)
| FString (s : string).

Record ColumnFilter : Type := {
  columnName : string;
  operator : FilterOperator;
  values : list FilterValue;
  rangeStart : option Z;
  rangeEnd : option Z
}.

(** The part of the component state a browse request reads. *)
Record ViewerState : Type := {
  itemsPerPage : Z;
  sortColumn : option string;
  sortDirection : option SortDirection
}.

(** How a template literal prints an element that may be missing. *)
Definition showValue (v : option FilterValue) : string :=
  match v with
  | None => "undefined"
  | Some FNull => "null"
  | Some (FNumber n) => numberToString n
  | Some (FString s) => s
  end.

Definition showNumber (n : option Z) : string :=
  match n with
  | None => "undefined"
  | Some k => numberToString k
  end.

(** [s.replace(/'/g, "''")] *)
Definition escapeQuotes (s : string) : string :=
  replaceAll squote (str1 squote ++ str1 squote) s.

(** A string value becomes a quoted literal, any other value is printed. *)
Definition literalOf (v : option FilterValue) : string :=
  match v with
  | Some (FString s) => str1 squote ++ escapeQuotes s ++ str1 squote
  | _ => showValue v
  end.

Definition isNullValue (v : FilterValue) : bool :=
  match v with
  | FNull => true
  | _ => false
  end.

Definition toUpperCase (d : SortDirection) : string :=
  match d with
  | asc => "ASC"
  | desc => "DESC"
  end.

(** The [switch] over the operator of one filter. *)
Definition filterCondition (filter : ColumnFilter) : string :=
  let colName := quoteIdentifier (columnName filter) in
  let first := nth_error (values filter) 0 in
  match operator filter with
  | equals =>
      match first with
      | Some FNull => colName ++ " IS NULL"
      | _ => colName ++ " = " ++ literalOf first
      end
  | in_ =>
      if (0 <? Z.of_nat (List.length (values filter)))%Z
      then
        let nullValues := List.filter isNullValue (values filter) in
        let nonNullValues := List.filter (fun v => negb (isNullValue v)) (values filter) in
        let inList :=
          if (0 <? Z.of_nat (List.length nonNullValues))%Z
          then [colName ++ " IN ("
                ++ join ", " (map (fun v => literalOf (Some v)) nonNullValues) ++ ")"]
          else [] in
        let isNull :=
          if (0 <? Z.of_nat (List.length nullValues))%Z
          then [colName ++ " IS NULL"]
          else [] in
        let conditions := (inList ++ isNull)%list in
        if (1 <? Z.of_nat (List.length conditions))%Z
        then "(" ++ join " OR " conditions ++ ")"
        else nth 0 conditions ""
      else ""
  | gt => colName ++ " > " ++ showValue first
  | gte => colName ++ " >= " ++ showValue first
  | lt => colName ++ " < " ++ showValue first
  | lte => colName ++ " <= " ++ showValue first
  | between =>
      colName ++ " BETWEEN " ++ showNumber (rangeStart filter)
      ++ " AND " ++ showNumber (rangeEnd filter)
  | is_null => colName ++ " IS NULL"
  | not_null => colName ++ " IS NOT NULL"
  end.

(** The conditions the loop over the filters pushes: the empty ones are
    left out. *)
Definition filterConditions (filters : list ColumnFilter) : list string :=
  filter (fun c => negb (String.eqb c "")) (map filterCondition filters).

(** [quoteIdentifier(col.name)]: [replace] exists on strings only. *)
Definition quoteColumnName (v : JsValue) : Outcome string :=
  match v with
  | JString s => Returned (quoteIdentifier s)
  | _ => Thrown "identifier.replace is not a function"
  end.

(** [columns.map(col => ...)] with a callback that may throw. *)
Fixpoint mapOutcome {A C : Type} (f : A -> Outcome C) (xs : list A) : Outcome (list C) :=
  match xs with
  | [] => Returned []
  | x :: rest =>
      match f x with
      | Thrown e => Thrown e
      | Returned y =>
          match mapOutcome f rest with
          | Thrown e => Thrown e
          | Returned ys => Returned (y :: ys)
          end
      end
  end.

Definition searchCondition (escapedSearch : string) (col : ColumnInfo) : Outcome string :=
  match quoteColumnName (name col) with
  | Returned q => Returned (q ++ " LIKE " ++ str1 squote ++ "%" ++ escapedSearch ++ "%" ++ str1 squote)
  | Thrown e => Thrown e
  end.

Definition whereSuffix (whereConditions : list string) : string :=
  if (0 <? Z.of_nat (List.length whereConditions))%Z
  then " WHERE " ++ join " AND " whereConditions
  else "".

Definition orderSuffix (ui : ViewerState) : string :=
  match sortColumn ui, sortDirection ui with
  | Some col, Some dir =>
      if String.eqb col "" then ""
      else " ORDER BY " ++ quoteIdentifier col ++ " " ++ toUpperCase dir
  | _, _ => ""
  end.

(** [sortColumn && sortDirection] *)
Definition sortRequested (ui : ViewerState) : bool :=
  match sortColumn ui, sortDirection ui with
  | Some col, Some _ => negb (String.eqb col "")
  | _, _ => false
  end.

(** The text of the data query and of the count query, once the conditions
    are known. *)
Definition browseQuery (ui : ViewerState) (table : string) (page : Z)
  (whereConditions : list string) : string :=
  "SELECT rowid as " ++ quoteIdentifier INTERNAL_ROWID_COLUMN ++ ", * FROM "
  ++ quoteIdentifier table
  ++ whereSuffix whereConditions
  ++ orderSuffix ui
  ++ " LIMIT " ++ numberToString (itemsPerPage ui)
  ++ " OFFSET " ++ numberToString ((page - 1) * itemsPerPage ui).

Definition countQuery (table : string) (whereConditions : list string) : string :=
  "SELECT COUNT(*) as count FROM " ++ quoteIdentifier table ++ whereSuffix whereConditions.

(** [v || 0] *)
Definition orZero (v : JsValue) : JsValue :=
  if truthy v then v else JNumber 0.

(** [countResult.rows[0]?.[0]] *)
Definition firstCell (r : QueryResult) : JsValue :=
  match rows r with
  | [] => JUndefined
  | row :: _ => nth 0 row JUndefined
  end.

(** The built-in conversion [Number(v)], read as an integer; it is only used
    under [|| 0], where a result that is not a number counts as 0. *)
Variable NumberOf : JsValue -> Z.

(** The outcome is the result handed to [setData], or [None] when an error
    was caught and only written to the console. *)
Definition fetchTableData (this : ClientDatabaseManager) (ui : ViewerState)
  (table : string) (page : Z) (search : string) (filters : list ColumnFilter)
  : M (option QueryResult) :=
  tryCatch
    (let offset := ((page - 1) * itemsPerPage ui)%Z in
     if negb (String.eqb search "") || sortRequested ui
        || (0 <? Z.of_nat (List.length filters))%Z
     then
       searchConditions <-
         (if negb (String.eqb search "")
          then
            let escapedSearch := escapeQuotes search in
            columns <- getTableColumns this table None ;;
            conditions <- lift (mapOutcome (searchCondition escapedSearch) columns) ;;
            ret ["(" ++ join " OR " conditions ++ ")"]
          else ret []) ;;
       let whereConditions := (searchConditions ++ filterConditions filters)%list in
       result <- executeQuery this (browseQuery ui table page whereConditions) None ;;
       countResult <- executeQuery this (countQuery table whereConditions) None ;;
       let totalCount := orZero (firstCell countResult) in
       ret (Some {| columns := columns result;
                    rows := rows result;
                    rowCount := rowCount result;
                    totalCount := Some (orZero (JNumber (NumberOf totalCount)));
                    limit := Some (itemsPerPage ui);
                    offset := Some offset |})
     else
       result <- getTableData this table (Some (itemsPerPage ui)) (Some offset) None ;;
       ret (Some result))
    (fun _ => ret None).

End DataAccess.

(** ** Vocabulary of the properties *)

(** The native row id an identifier carries, if it carries one. *)
Definition nativeRowId (identifier : option RowIdentifier) : option Z :=
  match identifier with
  | Some ident =>
      match rowid ident with
      | Present n => Some n
      | _ => None
      end
  | None => None
  end.

(** The primary-key values an identifier carries, in the order of the key. *)
Definition keyValues (identifier : option RowIdentifier) : list (string * JsValue) :=
  match identifier with
  | Some ident =>
      match primaryKeyValues ident with
      | Some pk => pk
      | None => []
      end
  | None => []
  end.

(** The statement each mutator hands to [db.run]. *)
Definition insertStatement (tableName : string) (values : RowValueMap)
  : string * option (list SqlValue) :=
  let entries := usableEntries values in
  if Nat.eqb (List.length entries) 0
  then ("INSERT INTO " ++ quoteIdentifier tableName ++ " DEFAULT VALUES", None)
  else ("INSERT INTO " ++ quoteIdentifier tableName ++ " ("
        ++ join ", " (map (fun '(col, _) => quoteIdentifier col) entries)
        ++ ") VALUES (" ++ join ", " (map (fun _ => "?") entries) ++ ")",
        Some (map (fun '(_, value) => normalizeValue value) entries)).

Definition updateStatement (tableName : string) (identifier : option RowIdentifier)
  (values : RowValueMap) : string * option (list SqlValue) :=
  let entries := usableEntries values in
  let where_ := buildWhereClause identifier in
  ("UPDATE " ++ quoteIdentifier tableName ++ " SET "
   ++ join ", " (map (fun '(col, _) => quoteIdentifier col ++ " = ?") entries)
   ++ " WHERE " ++ clause where_,
   Some (map (fun '(_, value) => normalizeValue value) entries ++ params where_)%list).

Definition deleteStatement (tableName : string) (identifier : option RowIdentifier)
  : string * option (list SqlValue) :=
  let where_ := buildWhereClause identifier in
  ("DELETE FROM " ++ quoteIdentifier tableName ++ " WHERE " ++ clause where_,
   Some (params where_)).

(** The calls a mutation makes when its statement fails. *)
Definition failedMutationCalls (db : DbRef) (statement : string * option (list SqlValue))
  : list (DbRef * EngineCall) :=
  [(db, CExec "BEGIN TRANSACTION;");
   (db, CRun (fst statement) (snd statement));
   (db, CExec "ROLLBACK;")].

(** The values a sequence of calls binds to statement parameters. *)
Definition boundValuesOf (c : EngineCall) : list SqlValue :=
  match c with
  | CRun _ (Some values) => values
  | CBind values => values
  | _ => []
  end.

Definition boundValues (calls : list (DbRef * EngineCall)) : list SqlValue :=
  flat_map (fun c => boundValuesOf (snd c)) calls.

(** The introspection query of [getTableColumns]. *)
Definition tableInfoQuery (tableName : string) : string :=
  "PRAGMA table_info(" ++ quoteIdentifier tableName ++ ")".

(** The count query of [getTableData] and the value the engine answers it
    with. *)
Definition tableCountQuery (tableName : string) : string :=
  "SELECT COUNT(*) as count FROM " ++ quoteIdentifier tableName.

Definition tableDataQuery (tableName : string) : string :=
  "SELECT rowid as " ++ quoteIdentifier INTERNAL_ROWID_COLUMN ++ ", * FROM "
  ++ quoteIdentifier tableName ++ " LIMIT ? OFFSET ?".

Definition countAnswer {E : Engine} (d : DB) (tableName : string) : JsValue :=
  getProp (hd [] (cur_rows (db_eval (tableCountQuery tableName) [] d))) "count".

(** A query the engine accepts and answers with the given rows. *)
Definition yields {E : Engine} (d : DB) (sql : string) (values : list SqlValue)
  (result : list JsObject) : Prop :=
  db_compile sql d = None /\
  db_eval sql values d = {| cur_rows := result; cur_failure := None |}.

(** The search condition of a browse request over columns of the given
    names. *)
Definition searchClause (search : string) (names : list string) : string :=
  "(" ++ join " OR "
           (map (fun n => quoteIdentifier n ++ " LIKE " ++ str1 squote ++ "%"
                          ++ escapeQuotes search ++ "%" ++ str1 squote) names)
  ++ ")".

(** What [executeQuery] returns for a query the engine answers with
    [result], under a ceiling of at least one row. *)
Definition queryResultOf (ceiling : Z) (result : list JsObject) : QueryResult :=
  {| columns := match result with
                | [] => []
                | firstRow :: _ => Object_keys firstRow
                end;
     rows := map Object_values (firstn (Z.to_nat ceiling) result);
     rowCount := JNumber (Z.of_nat (List.length (firstn (Z.to_nat ceiling) result)));
     totalCount := Some (if (ceiling <=? Z.of_nat (List.length result))%Z
                         then JNumber (-1)
                         else JNumber (Z.of_nat (List.length result)));
     limit := None;
     offset := None |}.

(** A computation that does not act on the world. *)
Definition keeps {E : Engine} {B : BlobStore} {A : Type} (m : M A) : Prop :=
  forall w, snd (m w) = w.

(** A mutation whose statement failed with [e]: the error is raised again,
    the engine saw BEGIN, the statement and ROLLBACK, a re-read of the
    database observes what it observed before the call, and nothing was
    persisted. *)
Definition rolledBack {E : Engine} {B : BlobStore} {Image : Type}
  (image : DB -> Image) (db : DbRef) (statement : string * option (list SqlValue))
  (e : string) (w : World) (result : Outcome unit * World) : Prop :=
  fst result = Thrown e /\
  w_calls (snd result) = (w_calls w ++ failedMutationCalls db statement)%list /\
  image (w_db (snd result) db) = image (w_db w db) /\
  (forall r, r <> db -> w_db (snd result) r = w_db w r) /\
  w_info (snd result) = w_info w /\
  w_idb (snd result) = w_idb w.

(** What the mutators rely on from the engine's transactions: [image] is what
    a re-read of the tables observes, [savepoint] the image an open
    transaction will restore.  BEGIN records the image; a statement that
    fails leaves the transaction open, or the engine has rolled it back by
    itself; ROLLBACK restores the recorded image, and has no effect when no
    transaction is open. *)
Record Transactional {E : Engine} {Image : Type}
  (image : DB -> Image) (savepoint : DB -> option Image) : Prop := {
  begin_records : forall d d',
    db_exec "BEGIN TRANSACTION;" d = (None, d') -> savepoint d' = Some (image d);
  failed_run_keeps : forall sql values d e d',
    db_run sql values d = (Some e, d') ->
    savepoint d' = savepoint d \/
    (savepoint d' = None /\ savepoint d = Some (image d'));
  rollback_restores : forall d s,
    savepoint d = Some s -> image (snd (db_exec "ROLLBACK;" d)) = s;
  rollback_idle : forall d,
    savepoint d = None -> image (snd (db_exec "ROLLBACK;" d)) = image d
}.

(** ** A sample engine

    One table with the columns [id] and [name] and snapshot transactions,
    used to run the operations on concrete inputs. *)
Module Sample.

Record Store : Type := {
  table : list JsObject;
  snapshot : option (list JsObject)
}.

Definition exec (sql : string) (d : Store) : option string * Store :=
  if String.eqb sql "BEGIN TRANSACTION;" then
    match snapshot d with
    | None => (None, {| table := table d; snapshot := Some (table d) |})
    | Some _ => (Some "cannot start a transaction within a transaction", d)
    end
  else if String.eqb sql "COMMIT;" then
    match snapshot d with
    | Some _ => (None, {| table := table d; snapshot := None |})
    | None => (Some "cannot commit - no transaction is active", d)
    end
  else if String.eqb sql "ROLLBACK;" then
    match snapshot d with
    | Some s => (None, {| table := s; snapshot := None |})
    | None => (Some "cannot rollback - no transaction is active", d)
    end
  else (None, d).

Definition isNull (v : SqlValue) : bool :=
  match v with
  | SqlNull => true
  | _ => false
  end.

Definition cell (v : SqlValue) : JsValue :=
  match v with
  | SqlNull => JNull
  | SqlNumber n => JNumber n
  | SqlString s => JString s
  | SqlBlob bytes => JUint8Array bytes
  end.

(** Every statement with values adds a row made of them, and is refused when
    one of them is NULL. *)
Definition run (sql : string) (values : option (list SqlValue)) (d : Store)
  : option string * Store :=
  match values with
  | Some vs =>
      if existsb isNull vs
      then (Some "NOT NULL constraint failed", d)
      else (None, {| table := (table d ++ [combine ["id"; "name"] (map cell vs)])%list;
                     snapshot := snapshot d |})
  | None =>
      (None, {| table := (table d ++ [[("id", JNull); ("name", JNull)]])%list;
                snapshot := snapshot d |})
  end.

Definition columnRow (i : Z) (n : string) : JsObject :=
  [("cid", JNumber i); ("name", JString n); ("type", JString "TEXT");
   ("notnull", JNumber 0); ("dflt_value", JNull); ("pk", JNumber 0)].

Definition eval (sql : string) (values : list SqlValue) (d : Store) : Cursor :=
  if String.prefix "PRAGMA table_info" sql then
    {| cur_rows := [columnRow 0 "id"; columnRow 1 "name"]; cur_failure := None |}
  else if String.prefix "SELECT COUNT(*)" sql then
    {| cur_rows := [[("count", JNumber (Z.of_nat (List.length (table d))))]];
       cur_failure := None |}
  else
    match values with
    | [SqlNumber l; SqlNumber o] =>
        {| cur_rows := firstn (Z.to_nat l) (skipn (Z.to_nat o) (table d));
           cur_failure := None |}
    | _ => {| cur_rows := table d; cur_failure := None |}
    end.

Definition engine : Engine := {|
  DB := Store;
  db_exec := exec;
  db_run := run;
  db_compile := fun _ _ => None;
  db_eval := eval;
  db_export := fun _ => inr [];
  instanceofError := fun _ => true
|}.

Definition blobStore : BlobStore := {|
  IDB := list StoredDatabaseInfo;
  idb_put := fun info s => (None, (s ++ [info])%list)
|}.

Definition manager : ClientDatabaseManager := {|
  currentDatabase := Some 0%nat;
  currentDatabaseInfo := Some 0%nat;
  databases := [("1_sample.db", {| entry_db := Some 0%nat; entry_info := 0%nat |})];
  allowLargeFiles := false;
  maxQueryResultRows := 1000;
  useMemoryOptimizations := true
|}.

Definition world (content : list JsObject) : @World engine blobStore :=
  @Build_World engine blobStore
    (fun _ => {| table := content; snapshot := None |})
    (fun _ => {| id := "1_sample.db"; info_name := "sample.db"; size := 0;
                 uploadedAt := "2024-01-01T00:00:00.000Z" |})
    []
    [].

Definition person (i : Z) (n : string) : JsObject :=
  [("id", JNumber i); ("name", JString n)].

Definition twoRows : list JsObject := [person 1 "a"; person 2 "b"].

(** A table of [n] rows. *)
Definition manyRows (n : nat) : list JsObject :=
  map (fun i => person (Z.of_nat i) "x") (seq 1 n).

(** [Number(v)] on the values the sample engine answers a count with. *)
Definition numberOf (v : JsValue) : Z :=
  match v with
  | JNumber n => n
  | _ => 0
  end.

(** An identifier with neither a row id nor key values. *)
Definition noIdentifier : option RowIdentifier :=
  Some {| rowid := Undefined; primaryKeyValues := None |}.

Definition firstRowId : option RowIdentifier :=
  Some {| rowid := Present 1; primaryKeyValues := None |}.

Definition compositeKey : option RowIdentifier :=
  Some {| rowid := Null;
          primaryKeyValues := Some [("id", JNumber 1); ("name", JString "a")] |}.

Definition plainView : ViewerState :=
  {| itemsPerPage := 50; sortColumn := None; sortDirection := None |}.

End Sample.

(** ** Proof steps *)

(** Case analysis on the innermost scrutinee first. *)
Ltac split_innermost :=
  match goal with
  | |- context [match ?x with _ => _ end] =>
      lazymatch x with
      | context [match _ with _ => _ end] => fail
      | _ => destruct x eqn:?
      end
  end.

Ltac split_matches :=
  repeat (split_innermost;
          cbn [fst snd logCall w_db w_calls w_info w_idb
               st_db st_sql st_current st_pending st_failure moveTo] in * ).

(** ** lib/client-database.ts: the remaining operations *)

Definition newline : ascii := ascii_of_nat 10.

Record TableInfo : Type := {
  table_name : JsValue;
  table_sql : JsValue
}.

Definition tableOfRow (row : JsObject) : TableInfo :=
  {| table_name := getProp row "name"; table_sql := getProp row "sql" |}.

(** The text of the statement of [getTables], line by line. *)
Definition tablesQuery : string :=
  str1 newline
  ++ "        SELECT name, sql " ++ str1 newline
  ++ "        FROM sqlite_master " ++ str1 newline
  ++ "        WHERE type='table' " ++ str1 newline
  ++ "        AND name NOT LIKE 'sqlite_%'" ++ str1 newline
  ++ "        ORDER BY name" ++ str1 newline
  ++ "      ".

Definition getTables {E : Engine} {B : BlobStore} (this : ClientDatabaseManager)
  (databaseId : option string) : M (list TableInfo) :=
  andThen (lift (getDatabase this databaseId)) (fun db =>
  tryCatch
    (andThen (prepare db tablesQuery) (fun stmt =>
     andThen (viaOutcome (whileStep tableOfRow stmt (st_pending stmt) [])) (fun r =>
     ret (fst r))))
    (fun _ => throw "Failed to retrieve tables from database")).

Definition setAllowLargeFiles (this : ClientDatabaseManager) (allow : bool)
  : ClientDatabaseManager :=
  {| currentDatabase := currentDatabase this;
     currentDatabaseInfo := currentDatabaseInfo this;
     databases := databases this;
     allowLargeFiles := allow;
     maxQueryResultRows := maxQueryResultRows this;
     useMemoryOptimizations := useMemoryOptimizations this |}.

Definition getAllowLargeFiles (this : ClientDatabaseManager) : bool :=
  allowLargeFiles this.

(** *** The selection of the current database *)

(** The browser's local storage, as far as the manager uses it: the item
    [lastSelectedDatabase].  Every access throws when the storage is not
    available, and the manager catches what it throws. *)
Record LocalStorage : Type := {
  ls_available : bool;
  ls_lastSelectedDatabase : option string
}.

(** The manager with the private field that only the selection writes, and
    the local storage the selection is saved to. *)
Record Session : Type := {
  manager : ClientDatabaseManager;
  lastSelectedDatabaseId : option string;
  localStorage : LocalStorage
}.

Definition saveLastSelectedDatabase (ls : LocalStorage) (databaseId : option string)
  : LocalStorage :=
  if ls_available ls
  then match givenId databaseId with
       | Some dbId => {| ls_available := true; ls_lastSelectedDatabase := Some dbId |}
       | None => {| ls_available := true; ls_lastSelectedDatabase := None |}
       end
  else ls.

Definition select (this : ClientDatabaseManager) (db : option DbRef) (info : option InfoRef)
  : ClientDatabaseManager :=
  {| currentDatabase := db;
     currentDatabaseInfo := info;
     databases := databases this;
     allowLargeFiles := allowLargeFiles this;
     maxQueryResultRows := maxQueryResultRows this;
     useMemoryOptimizations := useMemoryOptimizations this |}.

Definition setCurrentDatabase (s : Session) (databaseId : string) : Outcome Session :=
  match Map_get (databases (manager s)) databaseId with
  | None => Thrown ("Database with ID " ++ databaseId ++ " not found")
  | Some dbEntry =>
      Returned
        {| manager := select (manager s) (entry_db dbEntry) (Some (entry_info dbEntry));
           lastSelectedDatabaseId := Some databaseId;
           localStorage := saveLastSelectedDatabase (localStorage s) (Some databaseId) |}
  end.

(** [Map.prototype.has] *)
Definition Map_has {V : Type} (m : list (string * V)) (key : string) : bool :=
  match Map_get m key with
  | Some _ => true
  | None => false
  end.

Definition restoreLastSelectedDatabase (s : Session) : Session :=
  if ls_available (localStorage s)
  then
    match givenId (ls_lastSelectedDatabase (localStorage s)) with
    | Some lastSelected =>
        if Map_has (databases (manager s)) lastSelected
        then match setCurrentDatabase s lastSelected with
             | Returned s' => s'
             | Thrown _ => s
             end
        else s
    | None => s
    end
  else s.

(** [Map.prototype.delete] *)
Definition Map_delete {V : Type} (m : list (string * V)) (key : string) : list (string * V) :=
  filter (fun kv => negb (String.eqb (fst kv) key)) m.

Definition forget (this : ClientDatabaseManager) (databaseId : string)
  : ClientDatabaseManager :=
  {| currentDatabase := currentDatabase this;
     currentDatabaseInfo := currentDatabaseInfo this;
     databases := Map_delete (databases this) databaseId;
     allowLargeFiles := allowLargeFiles this;
     maxQueryResultRows := maxQueryResultRows this;
     useMemoryOptimizations := useMemoryOptimizations this |}.

Section Selection.

Context {E : Engine} {B : BlobStore}.

(** [Database.close] of sql.js and [deleteDatabase] of the blob store. *)
Variable db_close : DB -> DB.
Variable idb_delete : string -> IDB -> option string * IDB.

(** [this.currentDatabaseInfo?.id || null] *)
Definition getCurrentDatabaseId (this : ClientDatabaseManager) (w : World) : option string :=
  match currentDatabaseInfo this with
  | Some info => givenId (Some (id (w_info w info)))
  | None => None
  end.

Definition getCurrentDatabaseInfo (this : ClientDatabaseManager) (w : World)
  : option DatabaseInfo :=
  match currentDatabaseInfo this with
  | Some info => Some (w_info w info)
  | None => None
  end.

(** [Array.from(this.databases.values()).map(entry => entry.info)] *)
Definition getDatabases (this : ClientDatabaseManager) (w : World) : list DatabaseInfo :=
  map (fun kv => w_info w (entry_info (snd kv))) (databases this).

(** [entry.db?.close()] *)
Definition closeDatabase (db : option DbRef) : M unit :=
  fun w =>
    match db with
    | Some ref => (Returned tt, setDb w ref (db_close (w_db w ref)))
    | None => (Returned tt, w)
    end.

(** [indexedDBStorage.deleteDatabase(id)] *)
Definition deleteStored (databaseId : string) : M unit :=
  fun w =>
    let r := idb_delete databaseId (w_idb w) in
    (match fst r with
     | Some e => Thrown ("Failed to delete database: " ++ e)
     | None => Returned tt
     end,
     setIdb w (snd r)).

Definition removeDatabase (s : Session) (databaseId : string) : M Session :=
  match Map_get (databases (manager s)) databaseId with
  | None => ret s
  | Some entry =>
      andThen (closeDatabase (entry_db entry)) (fun _ =>
      let this := forget (manager s) databaseId in
      andThen (tryCatch (deleteStored databaseId) (fun _ => ret tt)) (fun _ =>
      fun w =>
        match currentDatabaseInfo this with
        | Some info =>
            if String.eqb (id (w_info w info)) databaseId
            then (Returned {| manager := select this None None;
                              lastSelectedDatabaseId := None;
                              localStorage := saveLastSelectedDatabase (localStorage s) None |},
                  w)
            else (Returned {| manager := this;
                              lastSelectedDatabaseId := lastSelectedDatabaseId s;
                              localStorage := localStorage s |}, w)
        | None =>
            (Returned {| manager := this;
                         lastSelectedDatabaseId := lastSelectedDatabaseId s;
                         localStorage := localStorage s |}, w)
        end))
  end.

End Selection.

(** ** components/DataTableViewer.tsx: the filter dialog *)

(** The state of the dialog a filter is composed in.  The selected values
    are a [Set], listed here in insertion order. *)
Record FilterDialog : Type := {
  filteringColumn : option string;
  tempFilterOperator : FilterOperator;
  tempFilterValues : list FilterValue;
  tempRangeStart : string;
  tempRangeEnd : string
}.

(** What [applyFilter] does to the component: nothing, an alert, or a new
    list of active filters with which the first page is fetched again. *)
Inductive FilterChange : Type :=
| Ignored
| Alerted (message : string)
| Applied (updatedFilters : list ColumnFilter).

Definition isComparison (op : FilterOperator) : bool :=
  match op with
  | gt | gte | lt | lte => true
  | _ => false
  end.

Definition isNullCheck (op : FilterOperator) : bool :=
  match op with
  | is_null | not_null => true
  | _ => false
  end.

Definition isBetween (op : FilterOperator) : bool :=
  match op with
  | between => true
  | _ => false
  end.

Definition isIn (op : FilterOperator) : bool :=
  match op with
  | in_ => true
  | _ => false
  end.

(** [activeFilters.filter(f => f.columnName !== column)] *)
Definition withoutColumn (activeFilters : list ColumnFilter) (column : string)
  : list ColumnFilter :=
  filter (fun f => negb (String.eqb (columnName f) column)) activeFilters.

Section FilterDialogs.

(** [parseFloat]: [None] stands for NaN. *)
Variable parseFloat : string -> option Z.

(** The filter the dialog describes, once its numbers are read. *)
Definition composeFilter (d : FilterDialog) (column : string) : Outcome ColumnFilter :=
  let op := tempFilterOperator d in
  if isBetween op then
    match parseFloat (tempRangeStart d), parseFloat (tempRangeEnd d) with
    | Some start, Some end_ =>
        Returned {| columnName := column; operator := op; values := tempFilterValues d;
                    rangeStart := Some start; rangeEnd := Some end_ |}
    | _, _ => Thrown "Please enter valid numbers for range"
    end
  else if isComparison op then
    match parseFloat (tempRangeStart d) with
    | Some value =>
        Returned {| columnName := column; operator := op; values := [FNumber value];
                    rangeStart := None; rangeEnd := None |}
    | None => Thrown "Please enter a valid number"
    end
  else
    Returned {| columnName := column; operator := op; values := tempFilterValues d;
                rangeStart := None; rangeEnd := None |}.

(** The state changes of [applyFilter]; the messages are those of its
    alerts. *)
Definition applyFilter (d : FilterDialog) (activeFilters : list ColumnFilter)
  : FilterChange :=
  match givenId (filteringColumn d) with
  | None => Ignored
  | Some column =>
      match composeFilter d column with
      | Thrown message => Alerted message
      | Returned newFilter =>
          let op := tempFilterOperator d in
          if negb (isNullCheck op) && isIn op
             && Nat.eqb (List.length (tempFilterValues d)) 0
          then Alerted "Please select at least one value"
          else if negb (isNullCheck op) && isComparison op
                  && Nat.eqb (List.length (values newFilter)) 0
          then Alerted "Please enter a value"
          else Applied (withoutColumn activeFilters column ++ [newFilter])%list
      end
  end.

End FilterDialogs.

Definition removeFilter (activeFilters : list ColumnFilter) (column : string)
  : list ColumnFilter :=
  withoutColumn activeFilters column.

(** ** Vocabulary of the further properties *)

(** *** The lexical structure of SQL text

    A double quote opens and closes a quoted identifier, a single quote a
    string literal; a quote character doubled inside either one stands for
    itself, which reading it as closing and opening again accounts for. *)
Inductive Lex : Type := InCode | InIdentifier | InLiteral.

Definition lexStep (st : Lex) (c : ascii) : Lex :=
  match st with
  | InCode =>
      if Ascii.eqb c dquote then InIdentifier
      else if Ascii.eqb c squote then InLiteral
      else InCode
  | InIdentifier => if Ascii.eqb c dquote then InCode else InIdentifier
  | InLiteral => if Ascii.eqb c squote then InCode else InLiteral
  end.

(** The state in which the text ends. *)
Fixpoint lex (st : Lex) (s : string) : Lex :=
  match s with
  | EmptyString => st
  | String c rest => lex (lexStep st c) rest
  end.

(** The characters of the text that stand outside every quoted identifier
    and string literal, the quotes themselves left out. *)
Fixpoint codeText (st : Lex) (s : string) : string :=
  match s with
  | EmptyString => EmptyString
  | String c rest =>
      match st, lexStep st c with
      | InCode, InCode => String c (codeText InCode rest)
      | _, st' => codeText st' rest
      end
  end.

Fixpoint countChar (c : ascii) (s : string) : nat :=
  match s with
  | EmptyString => 0
  | String a rest => (if Ascii.eqb a c then 1 else 0) + countChar c rest
  end.

(** The number of [?] placeholders of a statement. *)
Definition placeholders (sql : string) : nat :=
  countChar "?"%char (codeText InCode sql).

(** The number of values a call of [db.run] binds. *)
Definition boundCount (values : option (list SqlValue)) : nat :=
  match values with
  | Some vs => List.length vs
  | None => 0
  end.

(** *** Configurations *)

(** The managers the configuration methods reach from a new one, the
    ceiling set to whole numbers of rows, whatever databases are loaded and
    selected. *)
Inductive Configured : ClientDatabaseManager -> Prop :=
| configured_new : forall db info dbs,
    Configured {| currentDatabase := db; currentDatabaseInfo := info; databases := dbs;
                  allowLargeFiles := false; maxQueryResultRows := 1000;
                  useMemoryOptimizations := true |}
| configured_maxRows : forall this maxRows,
    Configured this -> Configured (setMaxQueryResultRows this maxRows)
| configured_optimizations : forall this enabled,
    Configured this -> Configured (setMemoryOptimizations this enabled)
| configured_largeFiles : forall this allow,
    Configured this -> Configured (setAllowLargeFiles this allow)
| configured_select : forall this db info,
    Configured this -> Configured (select this db info)
| configured_forget : forall this databaseId,
    Configured this -> Configured (forget this databaseId).

(** *** Mutations that go through *)

(** The record [persistDatabaseChanges] stores for an image. *)
Definition storedImage (i : DatabaseInfo) (buffer : list Byte.byte) : StoredDatabaseInfo :=
  {| stored_id := id i; stored_name := info_name i;
     stored_size := Z.of_nat (List.length buffer);
     stored_uploadedAt := uploadedAt i; stored_buffer := buffer |}.

Definition committedCalls (db : DbRef) (statement : string * option (list SqlValue))
  : list (DbRef * EngineCall) :=
  [(db, CExec "BEGIN TRANSACTION;");
   (db, CRun (fst statement) (snd statement));
   (db, CExec "COMMIT;");
   (db, CExport)].

(** A mutation that went through: it returns, the engine saw BEGIN, the
    statement, COMMIT and the export, the database is in the state [d] the
    COMMIT left, the exported image is put in the blob store, and the size of
    the database info is that of the image. *)
Definition persisted {E : Engine} {B : BlobStore} (db : DbRef) (info : InfoRef)
  (statement : string * option (list SqlValue)) (d : DB) (buffer : list Byte.byte)
  (w : World) (result : Outcome unit * World) : Prop :=
  fst result = Returned tt /\
  w_calls (snd result) = (w_calls w ++ committedCalls db statement)%list /\
  w_db (snd result) db = d /\
  w_idb (snd result) = snd (idb_put (storedImage (w_info w info) buffer) (w_idb w)) /\
  size (w_info (snd result) info) = Z.of_nat (List.length buffer) /\
  id (w_info (snd result) info) = id (w_info w info).

(** A mutation whose image could not be persisted after COMMIT: the error
    [e] is raised, ROLLBACK is sent after the export, and the size of the
    database info is left as it was. *)
Definition committedUnpersisted {E : Engine} {B : BlobStore} (db : DbRef) (info : InfoRef)
  (statement : string * option (list SqlValue)) (e : string)
  (w : World) (result : Outcome unit * World) : Prop :=
  fst result = Thrown e /\
  w_calls (snd result)
  = (w_calls w ++ committedCalls db statement ++ [(db, CExec "ROLLBACK;")])%list /\
  w_info (snd result) = w_info w.

(** What the three mutators do once the database is resolved and the
    statement is built. *)
Definition mutationTail {E : Engine} {B : BlobStore} (db : DbRef) (info : InfoRef)
  (statement : string * option (list SqlValue)) : M unit :=
  andThen (exec db "BEGIN TRANSACTION;")
    (fun _ => tryCatch
                (andThen (run db (fst statement) (snd statement))
                   (fun _ => andThen (exec db "COMMIT;")
                               (fun _ => persistDatabaseChanges info db)))
                (rollbackAndRethrow db)).

(** The engine and the blob store accept everything a mutation asks of them
    after BEGIN: the statement, COMMIT leaving the database in [d3], the
    export giving [buffer], and the put of the image. *)
Definition accepted {E : Engine} {B : BlobStore} (d1 : DB)
  (statement : string * option (list SqlValue)) (d3 : DB) (buffer : list Byte.byte)
  (w : World) (info : InfoRef) : Prop :=
  exists d2,
    db_run (fst statement) (snd statement) d1 = (None, d2) /\
    db_exec "COMMIT;" d2 = (None, d3) /\
    db_export d3 = inr buffer /\
    fst (idb_put (storedImage (w_info w info) buffer) (w_idb w)) = None.

(** The statement and COMMIT are accepted, leaving the database in [d3], and
    then the export, or the put of the image, fails; [e] is the error that
    results. *)
Definition committedThenFailed {E : Engine} {B : BlobStore} (d1 : DB)
  (statement : string * option (list SqlValue)) (d3 : DB) (e : string)
  (w : World) (info : InfoRef) : Prop :=
  exists d2,
    db_run (fst statement) (snd statement) d1 = (None, d2) /\
    db_exec "COMMIT;" d2 = (None, d3) /\
    (db_export d3 = inl e \/
     exists buffer e0,
       db_export d3 = inr buffer /\
       fst (idb_put (storedImage (w_info w info) buffer) (w_idb w)) = Some e0 /\
       e = "Failed to store database: " ++ e0).

(** *** The table of loaded databases *)

(** Every entry of the table is kept under the id of its database info. *)
Definition keyed {E : Engine} {B : BlobStore} (w : World) (this : ClientDatabaseManager)
  : Prop :=
  forall k entry, Map_get (databases this) k = Some entry ->
                  id (w_info w (entry_info entry)) = k.

(** The current selection, when there is one, is an entry of the table. *)
Definition selectionLoaded (this : ClientDatabaseManager) : Prop :=
  forall info, currentDatabaseInfo this = Some info ->
    exists k entry,
      Map_get (databases this) k = Some entry /\
      entry_info entry = info /\
      currentDatabase this = entry_db entry.

(** ** Further sample scenarios *)
Module Scenario.

(** A blob store that is full. *)
Definition fullStore : BlobStore := {|
  IDB := unit;
  idb_put := fun _ s => (Some "QuotaExceededError", s)
|}.

Definition worldWithFullStore (content : list JsObject) : @World Sample.engine fullStore :=
  @Build_World Sample.engine fullStore
    (fun _ => {| Sample.table := content; Sample.snapshot := None |})
    (fun _ => {| id := "1_sample.db"; info_name := "sample.db"; size := 0;
                 uploadedAt := "2024-01-01T00:00:00.000Z" |})
    tt
    [].

(** A database on which a transaction is open already. *)
Definition worldInTransaction (content : list JsObject)
  : @World Sample.engine Sample.blobStore :=
  @Build_World Sample.engine Sample.blobStore
    (fun _ => {| Sample.table := content; Sample.snapshot := Some content |})
    (fun _ => {| id := "1_sample.db"; info_name := "sample.db"; size := 0;
                 uploadedAt := "2024-01-01T00:00:00.000Z" |})
    []
    [].

Definition session : Session :=
  {| manager := {| currentDatabase := None;
                   currentDatabaseInfo := None;
                   databases := [("1_sample.db", {| entry_db := Some 0%nat; entry_info := 0%nat |});
                                 ("2_other.db", {| entry_db := Some 1%nat; entry_info := 1%nat |})];
                   allowLargeFiles := false;
                   maxQueryResultRows := 1000;
                   useMemoryOptimizations := true |};
     lastSelectedDatabaseId := None;
     localStorage := {| ls_available := true; ls_lastSelectedDatabase := None |} |}.

(** Two databases, each with its own info. *)
Definition twoDatabases : @World Sample.engine Sample.blobStore :=
  @Build_World Sample.engine Sample.blobStore
    (fun _ => {| Sample.table := Sample.twoRows; Sample.snapshot := None |})
    (fun r => if Nat.eqb r 0
              then {| id := "1_sample.db"; info_name := "sample.db"; size := 0;
                      uploadedAt := "2024-01-01T00:00:00.000Z" |}
              else {| id := "2_other.db"; info_name := "other.db"; size := 0;
                      uploadedAt := "2024-01-02T00:00:00.000Z" |})
    []
    [].

(** An engine that refuses every statement it is asked to prepare: an empty
    text with a bare string, any other text with an [Error]. *)
Definition refusingEngine : Engine := {|
  DB := unit;
  db_exec := fun _ d => (None, d);
  db_run := fun _ _ d => (None, d);
  db_compile := fun sql _ =>
    if String.eqb sql "" then Some "Nothing to prepare" else Some "no such table: t";
  db_eval := fun _ _ _ => {| cur_rows := []; cur_failure := None |};
  db_export := fun _ => inr [];
  instanceofError := fun e => negb (String.eqb e "Nothing to prepare")
|}.

Definition refusingWorld : @World refusingEngine Sample.blobStore :=
  @Build_World refusingEngine Sample.blobStore
    (fun _ => tt)
    (fun _ => {| id := "1_sample.db"; info_name := "sample.db"; size := 0;
                 uploadedAt := "2024-01-01T00:00:00.000Z" |})
    []
    [].

(** Closing leaves the sample store as it is; deleting removes the stored
    images of the id. *)
Definition close (d : Sample.Store) : Sample.Store := d.

Definition deleteImage (databaseId : string) (stored : list StoredDatabaseInfo)
  : option string * list StoredDatabaseInfo :=
  (None, filter (fun i => negb (String.eqb (stored_id i) databaseId)) stored).

(** The dialog set to filter the column [id] by [>= 10]. *)
Definition atLeastTen : FilterDialog :=
  {| filteringColumn := Some "id"; tempFilterOperator := gte; tempFilterValues := [];
     tempRangeStart := "10"; tempRangeEnd := "" |}.

Definition nameIsA : ColumnFilter :=
  {| columnName := "name"; operator := equals; values := [FString "a"];
     rangeStart := None; rangeEnd := None |}.

Definition idBelowFive : ColumnFilter :=
  {| columnName := "id"; operator := lt; values := [FNumber 5];
     rangeStart := None; rangeEnd := None |}.

Definition parseDecimal (s : string) : option Z :=
  if String.eqb s "10" then Some 10
  else if String.eqb s "20" then Some 20
  else None.

End Scenario.

(** ** Further proof steps *)

(** Running the shared tail of the mutators. *)
Ltac run_tail :=
  unfold mutationTail, andThen, tryCatch, rollbackAndRethrow, persistDatabaseChanges,
    andThen, tryCatch, exec, run, export, readInfo, storeDatabase, writeSize,
    ret, throw, answer;
  cbn [w_db w_info w_idb w_calls setDb setInfo setIdb logCall fst snd].

(** Opening up a read operation. *)
Ltac unfold_read :=
  unfold tryCatch, andThen, prepare, bindValues, viaOutcome, lift, ret, throw;
  cbn [fst snd logCall w_db w_calls].

Ltac unfold_table_read :=
  unfold tryCatch, andThen, prepare, bindValues, viaOutcome, lift, ret, throw,
    step, getAsObject, openStatement, endOfRows;
  cbn [fst snd logCall w_db w_calls st_db st_sql st_current st_pending st_failure moveTo].

(** * Properties *)

(** ** Strings and lists *)

Lemma append_empty_l (a b : string) : a ++ b = "" -> a = "".
Proof. destruct a; simpl; [reflexivity | discriminate]. Qed.

Lemma quoteIdentifier_not_empty (s : string) : quoteIdentifier s <> "".
Proof. unfold quoteIdentifier, str1. simpl. discriminate. Qed.

Lemma join_cons_not_empty (sep x : string) (xs : list string) :
  x <> "" -> join sep (x :: xs) <> "".
Proof.
  intros Hx H. unfold join in H. simpl in H.
  destruct xs; [contradiction | ].
  apply append_empty_l in H. contradiction.
Qed.

Lemma update_same {A : Type} (heap : nat -> A) (ref : nat) (a : A) :
  update heap ref a ref = a.
Proof. unfold update. now rewrite Nat.eqb_refl. Qed.

Lemma update_other {A : Type} (heap : nat -> A) (ref r : nat) (a : A) :
  r <> ref -> update heap ref a r = heap r.
Proof.
  intros H. unfold update. destruct (Nat.eqb_spec r ref); [contradiction | reflexivity].
Qed.

(** ** Row identity *)

Lemma map_entries_fst (f : string -> string) (l : list (string * JsValue)) :
  map (fun '(col, _) => f col) l = map (fun kv => f (fst kv)) l.
Proof. apply map_ext. now intros [c v]. Qed.

Lemma buildWhereClause_rowid (identifier : option RowIdentifier) (n : Z) :
  nativeRowId identifier = Some n ->
  buildWhereClause identifier = {| clause := "rowid = ?"; params := [SqlNumber n] |}.
Proof.
  destruct identifier as [[r pkv] | ]; simpl; [ | discriminate].
  destruct r; simpl; try discriminate.
  now intros [= ->].
Qed.

(** The composite-key branch, reached when no row id is present. *)
Lemma buildWhereClause_composite (r : Nullable Z) (pk : JsObject) :
  (forall n, r <> Present n) ->
  pk <> [] ->
  buildWhereClause (Some {| rowid := r; primaryKeyValues := Some pk |}) =
    {| clause := join " AND " (map (fun kv => quoteIdentifier (fst kv) ++ " = ?") pk);
       params := map (fun kv => normalizeValue (snd kv)) pk |}.
Proof.
  intros Hr Hpk. unfold buildWhereClause. cbn [rowid primaryKeyValues].
  assert (Hlen : (0 <? Z.of_nat (List.length (Object_keys pk)))%Z = true).
  { destruct pk; [contradiction | ]. apply Z.ltb_lt. cbn [Object_keys map List.length]. lia. }
  rewrite Hlen. unfold Object_entries, Object_values.
  rewrite (map_entries_fst (fun c => quoteIdentifier c ++ " = ?")), map_map.
  destruct r as [ | | n]; try reflexivity. now contradiction (Hr n).
Qed.

Lemma buildWhereClause_key (identifier : option RowIdentifier) :
  nativeRowId identifier = None ->
  keyValues identifier <> [] ->
  buildWhereClause identifier =
    {| clause := join " AND "
                   (map (fun kv => quoteIdentifier (fst kv) ++ " = ?") (keyValues identifier));
       params := map (fun kv => normalizeValue (snd kv)) (keyValues identifier) |}.
Proof.
  destruct identifier as [[r pkv] | ]; cbn [nativeRowId keyValues rowid primaryKeyValues];
    [ | intros _ H; now contradiction H].
  intros Hr Hk. destruct pkv as [pk | ]; [ | now contradiction Hk].
  apply buildWhereClause_composite; [ | exact Hk].
  intros n ->. discriminate.
Qed.

Lemma buildWhereClause_invalid (identifier : option RowIdentifier) :
  nativeRowId identifier = None ->
  keyValues identifier = [] ->
  buildWhereClause identifier = {| clause := ""; params := [] |}.
Proof.
  destruct identifier as [[r pkv] | ]; simpl; [ | reflexivity].
  destruct r; simpl; try discriminate; intros _;
    (destruct pkv as [pk | ]; simpl; [intros -> | ]; reflexivity).
Qed.

(** A clause is empty exactly for an identifier with neither variant. *)
Lemma buildWhereClause_empty_iff (identifier : option RowIdentifier) :
  clause (buildWhereClause identifier) = "" <->
  nativeRowId identifier = None /\ keyValues identifier = [].
Proof.
  split.
  - destruct (nativeRowId identifier) as [n | ] eqn:Hn.
    + rewrite (buildWhereClause_rowid _ _ Hn). discriminate.
    + destruct (keyValues identifier) as [ | kv pk] eqn:Hk; [easy | ].
      rewrite (buildWhereClause_key _ Hn) by (rewrite Hk; discriminate).
      rewrite Hk. cbn [clause map]. intros H. exfalso. revert H.
      apply join_cons_not_empty. intros H.
      apply append_empty_l in H. now apply quoteIdentifier_not_empty in H.
  - intros [Hn Hk]. now rewrite (buildWhereClause_invalid _ Hn Hk).
Qed.

(** C3: [buildWhereClause] answers an identifier that carries a native row
    id with the clause [rowid = ?] and that id as its only parameter;
    otherwise, an identifier that carries primary-key values with one
    [col = ?] per key column, joined by AND, and the values as parameters in
    the same order (columns quoted, values coerced as every bound value is);
    otherwise with an empty clause and no parameter. *)
Theorem buildWhereClause_variants (identifier : option RowIdentifier) :
  (forall n, nativeRowId identifier = Some n ->
     buildWhereClause identifier =
       {| clause := "rowid = ?"; params := [SqlNumber n] |}) /\
  (nativeRowId identifier = None -> keyValues identifier <> [] ->
     buildWhereClause identifier =
       {| clause := join " AND "
                      (map (fun kv => quoteIdentifier (fst kv) ++ " = ?")
                         (keyValues identifier));
          params := map (fun kv => normalizeValue (snd kv)) (keyValues identifier) |}) /\
  (nativeRowId identifier = None -> keyValues identifier = [] ->
     buildWhereClause identifier = {| clause := ""; params := [] |}).
Proof.
  split; [ | split].
  - intros n. apply buildWhereClause_rowid.
  - apply buildWhereClause_key.
  - apply buildWhereClause_invalid.
Qed.

(** ** Mutations *)

Section Mutations.

Context {E : Engine} {B : BlobStore}.

Lemma usableEntries_only_rowid (values : RowValueMap) :
  (forall k v, In (k, v) values -> k = INTERNAL_ROWID_COLUMN) ->
  usableEntries values = [].
Proof.
  unfold usableEntries, Object_entries.
  induction values as [ | [k v] rest IH]; intros H; [reflexivity | ].
  cbn [filter]. rewrite (H k v) by now left.
  rewrite String.eqb_refl. cbn [negb].
  apply IH. intros k' v' Hin. apply (H k' v'). now right.
Qed.

Lemma length_zero_iff {A : Type} (l : list A) : Nat.eqb (List.length l) 0 = true <-> l = [].
Proof. destruct l; simpl; split; intros H; try reflexivity; discriminate. Qed.

Lemma length_nonzero {A : Type} (l : list A) : l <> [] -> Nat.eqb (List.length l) 0 = false.
Proof. destruct l; [contradiction | reflexivity]. Qed.

(** With no usable entry, [updateRow] leaves before it looks at the
    identifier. *)
Lemma updateRow_no_entries (this : ClientDatabaseManager) (tableName : string)
  (identifier : option RowIdentifier) (values : RowValueMap)
  (databaseId : option string) (w : World) :
  usableEntries values = [] ->
  snd (updateRow this tableName identifier values databaseId w) = w /\
  (forall db info,
     getDatabase this databaseId = Returned db ->
     getDatabaseInfo this databaseId = Returned info ->
     fst (updateRow this tableName identifier values databaseId w) = Returned tt).
Proof.
  intros Hnone. unfold updateRow, andThen, lift. rewrite Hnone. cbn [List.length Nat.eqb].
  destruct (getDatabase this databaseId) as [db | e1]; cbn [fst snd].
  - destruct (getDatabaseInfo this databaseId) as [info | e2]; cbn [fst snd].
    + split; [reflexivity | ]. intros; reflexivity.
    + split; [reflexivity | ]. intros; discriminate.
  - split; [reflexivity | ]. intros; discriminate.
Qed.

Lemma updateRow_no_identifier (this : ClientDatabaseManager) (tableName : string)
  (identifier : option RowIdentifier) (values : RowValueMap)
  (databaseId : option string) (w : World) :
  clause (buildWhereClause identifier) = "" ->
  usableEntries values <> [] ->
  snd (updateRow this tableName identifier values databaseId w) = w /\
  (exists e, fst (updateRow this tableName identifier values databaseId w) = Thrown e) /\
  (forall db info,
     getDatabase this databaseId = Returned db ->
     getDatabaseInfo this databaseId = Returned info ->
     fst (updateRow this tableName identifier values databaseId w)
     = Thrown "Unable to determine row identifier for update").
Proof.
  intros Hclause Hsome. unfold updateRow, andThen, lift, throw.
  rewrite (length_nonzero _ Hsome), Hclause. cbn [String.eqb].
  destruct (getDatabase this databaseId) as [db | e1]; cbn [fst snd].
  - destruct (getDatabaseInfo this databaseId) as [info | e2]; cbn [fst snd].
    + repeat split; eauto.
    + repeat split; eauto. intros; discriminate.
  - repeat split; eauto. intros; discriminate.
Qed.

Lemma deleteRow_no_identifier (this : ClientDatabaseManager) (tableName : string)
  (identifier : option RowIdentifier) (databaseId : option string) (w : World) :
  clause (buildWhereClause identifier) = "" ->
  snd (deleteRow this tableName identifier databaseId w) = w /\
  (exists e, fst (deleteRow this tableName identifier databaseId w) = Thrown e) /\
  (forall db info,
     getDatabase this databaseId = Returned db ->
     getDatabaseInfo this databaseId = Returned info ->
     fst (deleteRow this tableName identifier databaseId w)
     = Thrown "Unable to determine row identifier for deletion").
Proof.
  intros Hclause. unfold deleteRow, andThen, lift, throw.
  rewrite Hclause. cbn [String.eqb].
  destruct (getDatabase this databaseId) as [db | e1]; cbn [fst snd].
  - destruct (getDatabaseInfo this databaseId) as [info | e2]; cbn [fst snd].
    + repeat split; eauto.
    + repeat split; eauto. intros; discriminate.
  - repeat split; eauto. intros; discriminate.
Qed.

(** C1 (as amended): with an identifier that carries neither a native row id
    nor primary-key values, [deleteRow], and [updateRow] given at least one
    usable entry, raise an error; [updateRow] given no usable entry returns
    without raising, its no-op exit coming first.  In every case the world
    is left as it was: no call reaches the engine, no transaction is begun
    and no database state changes. *)
Theorem mutation_without_identifier (this : ClientDatabaseManager) (tableName : string)
  (identifier : option RowIdentifier) (values : RowValueMap)
  (databaseId : option string) (w : World) :
  nativeRowId identifier = None ->
  keyValues identifier = [] ->
  (snd (deleteRow this tableName identifier databaseId w) = w /\
   exists e, fst (deleteRow this tableName identifier databaseId w) = Thrown e) /\
  (snd (updateRow this tableName identifier values databaseId w) = w /\
   (usableEntries values <> [] ->
    exists e, fst (updateRow this tableName identifier values databaseId w) = Thrown e) /\
   (usableEntries values = [] ->
    forall db info,
      getDatabase this databaseId = Returned db ->
      getDatabaseInfo this databaseId = Returned info ->
      fst (updateRow this tableName identifier values databaseId w) = Returned tt)).
Proof.
  intros Hn Hk.
  assert (Hclause : clause (buildWhereClause identifier) = "")
    by now apply buildWhereClause_empty_iff.
  split.
  - destruct (deleteRow_no_identifier this tableName identifier databaseId w Hclause)
      as (Hw & He & _). now split.
  - destruct (usableEntries values) as [ | kv rest] eqn:Hentries.
    + destruct (updateRow_no_entries this tableName identifier values databaseId w Hentries)
        as (Hw & Hret).
      split; [exact Hw | split]; [intros H; now contradiction H | intros _; exact Hret].
    + assert (Hsome : usableEntries values <> []) by (rewrite Hentries; discriminate).
      destruct (updateRow_no_identifier this tableName identifier values databaseId w
                  Hclause Hsome) as (Hw & He & _).
      split; [exact Hw | split]; [intros _; exact He | intros H; discriminate].
Qed.

(** C7: [updateRow] with a value map whose only key is the synthetic
    row-identifier column, or with an empty map, leaves the world as it was
    (no call on the engine, no transaction, nothing persisted) and, the
    database being resolved, returns. *)
Theorem updateRow_rowid_only_is_noop (this : ClientDatabaseManager) (tableName : string)
  (identifier : option RowIdentifier) (values : RowValueMap)
  (databaseId : option string) (w : World) :
  (forall k v, In (k, v) values -> k = INTERNAL_ROWID_COLUMN) ->
  snd (updateRow this tableName identifier values databaseId w) = w /\
  (forall db info,
     getDatabase this databaseId = Returned db ->
     getDatabaseInfo this databaseId = Returned info ->
     fst (updateRow this tableName identifier values databaseId w) = Returned tt).
Proof.
  intros Honly. apply updateRow_no_entries. now apply usableEntries_only_rowid.
Qed.

End Mutations.

(** ** Rollback *)

Section Rollback.

Context {E : Engine} {B : BlobStore}.
Context {Image : Type} (image : DB -> Image) (savepoint : DB -> option Image).
Hypothesis engine_laws : Transactional image savepoint.

(** The image a re-read observes after BEGIN, a failed statement and
    ROLLBACK is the one it observed before BEGIN. *)
Lemma rollback_recovers_image (d0 d1 d2 : DB) (sql : string)
  (values : option (list SqlValue)) (e : string) :
  db_exec "BEGIN TRANSACTION;" d0 = (None, d1) ->
  db_run sql values d1 = (Some e, d2) ->
  image (snd (db_exec "ROLLBACK;" d2)) = image d0.
Proof.
  intros Hbegin Hrun.
  pose proof (begin_records _ _ engine_laws _ _ Hbegin) as Hsaved.
  destruct (failed_run_keeps _ _ engine_laws _ _ _ _ _ Hrun) as [Hkept | [Hclosed Hback]].
  - apply (rollback_restores _ _ engine_laws). now rewrite Hkept.
  - rewrite (rollback_idle _ _ engine_laws _ Hclosed).
    rewrite Hsaved in Hback. now injection Hback as ->.
Qed.

(** The tail the three mutators share, when the statement fails. *)
Lemma failed_statement_rolls_back (db : DbRef) (statement : string * option (list SqlValue))
  (rest : M unit) (w : World) (d1 d2 : DB) (e : string) :
  db_exec "BEGIN TRANSACTION;" (w_db w db) = (None, d1) ->
  db_run (fst statement) (snd statement) d1 = (Some e, d2) ->
  rolledBack image db statement e w
    (andThen (exec db "BEGIN TRANSACTION;")
       (fun _ => tryCatch (andThen (run db (fst statement) (snd statement)) (fun _ => rest))
                   (rollbackAndRethrow db)) w).
Proof.
  intros Hbegin Hrun.
  pose proof (rollback_recovers_image _ _ _ _ _ _ Hbegin Hrun) as Himage.
  unfold rolledBack, andThen, tryCatch, rollbackAndRethrow, andThen, tryCatch, exec, run,
    ret, throw, answer, failedMutationCalls.
  cbn [w_db setDb logCall]. rewrite Hbegin. cbn [fst snd w_db setDb logCall].
  rewrite update_same, Hrun. cbn [fst snd w_db setDb logCall].
  rewrite update_same.
  destruct (db_exec "ROLLBACK;" d2) as [[e' | ] d3] eqn:Hroll;
    cbn [fst snd w_db w_calls w_info w_idb setDb logCall] in *;
    (repeat split;
     [ now rewrite <- !app_assoc
     | now rewrite update_same
     | intros r Hr; now rewrite !update_other by exact Hr ]).
Qed.

Lemma insertRow_rolls_back (this : ClientDatabaseManager) (databaseId : option string)
  (db : DbRef) (info : InfoRef) (w : World) (d1 d2 : DB)
  (tableName : string) (values : RowValueMap) (e : string) :
  getDatabase this databaseId = Returned db ->
  getDatabaseInfo this databaseId = Returned info ->
  db_exec "BEGIN TRANSACTION;" (w_db w db) = (None, d1) ->
  db_run (fst (insertStatement tableName values))
    (snd (insertStatement tableName values)) d1 = (Some e, d2) ->
  rolledBack image db (insertStatement tableName values) e w
    (insertRow this tableName values databaseId w).
Proof.
  intros Hdb Hinfo Hbegin Hrun.
  unfold insertRow. unfold andThen at 1 2, lift. rewrite Hdb, Hinfo.
  unfold insertStatement in *.
  destruct (Nat.eqb (List.length (usableEntries values)) 0);
    now apply failed_statement_rolls_back with (d1 := d1) (d2 := d2).
Qed.

Lemma updateRow_rolls_back (this : ClientDatabaseManager) (databaseId : option string)
  (db : DbRef) (info : InfoRef) (w : World) (d1 d2 : DB)
  (tableName : string) (identifier : option RowIdentifier) (values : RowValueMap)
  (e : string) :
  getDatabase this databaseId = Returned db ->
  getDatabaseInfo this databaseId = Returned info ->
  db_exec "BEGIN TRANSACTION;" (w_db w db) = (None, d1) ->
  usableEntries values <> [] ->
  clause (buildWhereClause identifier) <> "" ->
  db_run (fst (updateStatement tableName identifier values))
    (snd (updateStatement tableName identifier values)) d1 = (Some e, d2) ->
  rolledBack image db (updateStatement tableName identifier values) e w
    (updateRow this tableName identifier values databaseId w).
Proof.
  intros Hdb Hinfo Hbegin Hsome Hclause Hrun.
  unfold updateRow. unfold andThen at 1 2, lift. rewrite Hdb, Hinfo.
  rewrite (length_nonzero _ Hsome).
  apply String.eqb_neq in Hclause. rewrite Hclause.
  now apply (failed_statement_rolls_back db (updateStatement tableName identifier values))
    with (d1 := d1) (d2 := d2).
Qed.

Lemma deleteRow_rolls_back (this : ClientDatabaseManager) (databaseId : option string)
  (db : DbRef) (info : InfoRef) (w : World) (d1 d2 : DB)
  (tableName : string) (identifier : option RowIdentifier) (e : string) :
  getDatabase this databaseId = Returned db ->
  getDatabaseInfo this databaseId = Returned info ->
  db_exec "BEGIN TRANSACTION;" (w_db w db) = (None, d1) ->
  clause (buildWhereClause identifier) <> "" ->
  db_run (fst (deleteStatement tableName identifier))
    (snd (deleteStatement tableName identifier)) d1 = (Some e, d2) ->
  rolledBack image db (deleteStatement tableName identifier) e w
    (deleteRow this tableName identifier databaseId w).
Proof.
  intros Hdb Hinfo Hbegin Hclause Hrun.
  unfold deleteRow. unfold andThen at 1 2, lift. rewrite Hdb, Hinfo.
  apply String.eqb_neq in Hclause. rewrite Hclause.
  now apply (failed_statement_rolls_back db (deleteStatement tableName identifier))
    with (d1 := d1) (d2 := d2).
Qed.

(** C2: when the engine has accepted BEGIN and then refuses the statement of
    [insertRow], [updateRow] or [deleteRow] with an error, the mutator sends
    ROLLBACK, ignores whether that succeeds, and raises the statement's own
    error again; with an engine whose transactions behave as
    [Transactional] says, a re-read of the database then observes what it
    observed before the call, and nothing is committed or persisted. *)
Theorem failed_mutation_rolls_back (this : ClientDatabaseManager)
  (databaseId : option string) (db : DbRef) (info : InfoRef) (w : World) (d1 : DB) :
  getDatabase this databaseId = Returned db ->
  getDatabaseInfo this databaseId = Returned info ->
  db_exec "BEGIN TRANSACTION;" (w_db w db) = (None, d1) ->
  (forall tableName values e d2,
     db_run (fst (insertStatement tableName values))
       (snd (insertStatement tableName values)) d1 = (Some e, d2) ->
     rolledBack image db (insertStatement tableName values) e w
       (insertRow this tableName values databaseId w)) /\
  (forall tableName identifier values e d2,
     usableEntries values <> [] ->
     clause (buildWhereClause identifier) <> "" ->
     db_run (fst (updateStatement tableName identifier values))
       (snd (updateStatement tableName identifier values)) d1 = (Some e, d2) ->
     rolledBack image db (updateStatement tableName identifier values) e w
       (updateRow this tableName identifier values databaseId w)) /\
  (forall tableName identifier e d2,
     clause (buildWhereClause identifier) <> "" ->
     db_run (fst (deleteStatement tableName identifier))
       (snd (deleteStatement tableName identifier)) d1 = (Some e, d2) ->
     rolledBack image db (deleteStatement tableName identifier) e w
       (deleteRow this tableName identifier databaseId w)).
Proof.
  intros Hdb Hinfo Hbegin. split; [ | split].
  - intros. eapply insertRow_rolls_back; eauto.
  - intros. eapply updateRow_rolls_back; eauto.
  - intros. eapply deleteRow_rolls_back; eauto.
Qed.

End Rollback.

(** ** Reading rows *)

(** The loops unfold by one [step] of the statement. *)
Lemma whileStep_same_statement {A : Type} (f : JsObject -> A) (st st' : Statement)
  (pending : list JsObject) (acc : list A) :
  st_db st = st_db st' -> st_sql st = st_sql st' -> st_failure st = st_failure st' ->
  whileStep f st pending acc = whileStep f st' pending acc.
Proof.
  intros H1 H2 H3. revert acc.
  induction pending as [ | r rest IH]; intros acc; cbn [whileStep].
  - unfold endOfRows, moveTo. now rewrite H1, H2, H3.
  - apply IH.
Qed.

Lemma whileStep_step {A : Type} (f : JsObject -> A) (st : Statement) (acc : list A) :
  whileStep f st (st_pending st) acc =
    match step st with
    | (Thrown e, st') => (Thrown e, st')
    | (Returned false, st') => (Returned acc, st')
    | (Returned true, st') =>
        whileStep f st' (st_pending st') (acc ++ [f (getAsObject st')])%list
    end.
Proof.
  unfold step. destruct (st_pending st) as [ | r rest] eqn:Hp; cbn [whileStep].
  - unfold endOfRows. now destruct (st_failure st).
  - cbn [moveTo st_pending getAsObject st_current].
    now apply whileStep_same_statement.
Qed.

Lemma whileStepBelow_same_statement (maxRows : Z) (st st' : Statement)
  (pending : list JsObject) (rowCount : Z) (rows : list (list JsValue)) :
  st_db st = st_db st' -> st_sql st = st_sql st' -> st_failure st = st_failure st' ->
  whileStepBelow maxRows st pending rowCount rows
  = whileStepBelow maxRows st' pending rowCount rows.
Proof.
  intros H1 H2 H3. revert rowCount rows.
  induction pending as [ | r rest IH]; intros rowCount rows; cbn [whileStepBelow].
  - unfold endOfRows, moveTo. now rewrite H1, H2, H3.
  - rewrite IH. unfold moveTo. now rewrite H1, H2, H3.
Qed.

Lemma whileStepBelow_step (maxRows : Z) (st : Statement) (rowCount : Z)
  (rows : list (list JsValue)) :
  whileStepBelow maxRows st (st_pending st) rowCount rows =
    match step st with
    | (Thrown e, st') => (Thrown e, st')
    | (Returned false, st') => (Returned (rowCount, rows), st')
    | (Returned true, st') =>
        if (rowCount <? maxRows)%Z
        then whileStepBelow maxRows st' (st_pending st') (rowCount + 1)
               (rows ++ [Object_values (getAsObject st')])%list
        else (Returned (rowCount, rows), st')
    end.
Proof.
  unfold step. destruct (st_pending st) as [ | r rest] eqn:Hp; cbn [whileStepBelow].
  - unfold endOfRows. now destruct (st_failure st).
  - cbn [moveTo st_pending getAsObject st_current].
    destruct (rowCount <? maxRows)%Z; [ | reflexivity].
    now apply whileStepBelow_same_statement.
Qed.

(** On a statement that does not fail, the bounded loop collects the rows
    that fit below the ceiling, in order, and counts them. *)
Lemma whileStepBelow_collects (maxRows : Z) (st : Statement) (pending : list JsObject) :
  st_failure st = None ->
  forall (rowCount : Z) (rows : list (list JsValue)),
  exists st',
    whileStepBelow maxRows st pending rowCount rows =
      (Returned (rowCount + Z.of_nat (List.length
                                        (firstn (Z.to_nat (maxRows - rowCount)) pending)),
                 (rows ++ map Object_values
                            (firstn (Z.to_nat (maxRows - rowCount)) pending))%list),
       st') /\
    st_failure st' = None.
Proof.
  intros Hok. induction pending as [ | r rest IH]; intros rowCount rows.
  - cbn [whileStepBelow]. unfold endOfRows. rewrite Hok.
    rewrite firstn_nil. cbn [List.length map]. rewrite app_nil_r, Z.add_0_r.
    eexists; split; [reflexivity | exact Hok].
  - cbn [whileStepBelow]. destruct (Z.ltb_spec rowCount maxRows) as [Hlt | Hge].
    + destruct (IH (rowCount + 1) (rows ++ [Object_values r])%list) as (st' & Heq & Hst').
      exists st'. split; [ | exact Hst']. rewrite Heq.
      replace (Z.to_nat (maxRows - rowCount)) with (S (Z.to_nat (maxRows - (rowCount + 1))))
        by lia.
      cbn [firstn List.length map]. rewrite <- app_assoc. cbn [app].
      do 3 f_equal. lia.
    + replace (Z.to_nat (maxRows - rowCount)) with 0%nat by lia.
      cbn [firstn List.length map]. rewrite app_nil_r, Z.add_0_r.
      eexists; split; [reflexivity | exact Hok].
Qed.

(** The bounded loop steps onto at most one row beyond those it collects;
    the rows after that one are left unread. *)
Lemma whileStepBelow_leaves_rest (maxRows : Z) (st : Statement) (pending : list JsObject) :
  forall (rowCount : Z) (rows : list (list JsValue)),
    st_pending (snd (whileStepBelow maxRows st pending rowCount rows))
    = skipn (S (Z.to_nat (maxRows - rowCount))) pending.
Proof.
  induction pending as [ | r rest IH]; intros rowCount rows; cbn [whileStepBelow].
  - reflexivity.
  - destruct (Z.ltb_spec rowCount maxRows) as [Hlt | Hge].
    + rewrite IH.
      replace (Z.to_nat (maxRows - rowCount)) with (S (Z.to_nat (maxRows - (rowCount + 1))))
        by lia.
      reflexivity.
    + replace (Z.to_nat (maxRows - rowCount)) with 0%nat by lia. reflexivity.
Qed.

Lemma step_without_failure (st : Statement) :
  st_failure st = None -> exists b, fst (step st) = Returned b.
Proof.
  intros Hok. unfold step. destruct (st_pending st); cbn [fst]; [ | now exists true].
  unfold endOfRows. rewrite Hok. now exists false.
Qed.

Section Queries.

Context {E : Engine} {B : BlobStore}.

Lemma executeQuery_result (this : ClientDatabaseManager) (query : string)
  (databaseId : option string) (db : DbRef) (w : World) (result : list JsObject) :
  getDatabase this databaseId = Returned db ->
  yields (w_db w db) query [] result ->
  (1 <= queryCeiling this)%Z ->
  executeQuery this query databaseId w
  = (Returned (queryResultOf (queryCeiling this) result), logCall w db (CPrepare query)).
Proof.
  intros Hdb [Hcompile Heval] Hceiling.
  unfold executeQuery. unfold andThen at 1. unfold lift at 1. rewrite Hdb.
  unfold tryCatch. unfold andThen at 1. unfold prepare. rewrite Hcompile, Heval.
  unfold openStatement. cbn [cur_rows cur_failure].
  destruct result as [ | firstRow others].
  - unfold andThen, viaOutcome, lift, ret, step, endOfRows, queryResultOf.
    cbn [st_pending st_failure fst snd]. rewrite firstn_nil.
    cbn [map List.length Z.of_nat].
    destruct (Z.geb_spec 0 (queryCeiling this)); [lia | ].
    destruct (Z.leb_spec (queryCeiling this) 0); [lia | reflexivity].
  - unfold andThen at 1. unfold viaOutcome at 1. unfold lift at 1.
    unfold step at 1 2 3. cbn [st_pending fst snd moveTo getAsObject st_current].
    unfold andThen at 1 2. unfold viaOutcome at 1. unfold lift at 1.
    match goal with
    | |- context [whileStepBelow ?m ?s ?p ?c ?r] =>
        destruct (whileStepBelow_collects m s p eq_refl c r) as (st' & Hloop & Hst')
    end.
    rewrite Hloop. cbn [fst snd].
    set (kept := firstn (Z.to_nat (queryCeiling this - 1)) others) in *.
    assert (Hfirstn : firstn (Z.to_nat (queryCeiling this)) (firstRow :: others)
                      = firstRow :: kept).
    { subst kept. replace (Z.to_nat (queryCeiling this))
        with (S (Z.to_nat (queryCeiling this - 1))) by lia. reflexivity. }
    assert (Hkept : List.length kept = Nat.min (Z.to_nat (queryCeiling this - 1))
                                         (List.length others))
      by (subst kept; apply length_firstn).
    assert (Hreached : ((1 + Z.of_nat (List.length kept) >=? queryCeiling this)
                        = (queryCeiling this <=? Z.of_nat (List.length (firstRow :: others))))%Z).
    { cbn [List.length]. rewrite Z.geb_leb.
      destruct (Z.leb_spec (queryCeiling this) (1 + Z.of_nat (List.length kept)));
        destruct (Z.leb_spec (queryCeiling this) (Z.of_nat (S (List.length others)))); lia. }
    assert (Hresult :
      (Returned
         {| columns := Object_keys firstRow;
            rows := ([Object_values firstRow] ++ map Object_values kept)%list;
            rowCount := JNumber (Z.of_nat (List.length
                          ([Object_values firstRow] ++ map Object_values kept)%list));
            totalCount :=
              Some (if (1 + Z.of_nat (List.length kept) >=? queryCeiling this)%Z
                    then JNumber (-1)
                    else JNumber (Z.of_nat (List.length
                           ([Object_values firstRow] ++ map Object_values kept)%list)));
            limit := None; offset := None |},
       logCall w db (CPrepare query))
      = (Returned (queryResultOf (queryCeiling this) (firstRow :: others)),
         logCall w db (CPrepare query))).
    { unfold queryResultOf. rewrite Hfirstn, Hreached.
      cbn [app map List.length]. rewrite length_map.
      destruct (Z.leb_spec (queryCeiling this) (Z.of_nat (S (List.length others))));
        [reflexivity | ].
      replace (List.length kept) with (List.length others) by lia. reflexivity. }
    destruct (1 + Z.of_nat (List.length kept) >=? queryCeiling this)%Z eqn:Hge.
    + destruct (step_without_failure st' Hst') as [b Hb].
      unfold step in Hb. unfold andThen, viaOutcome, lift, ret. rewrite Hb. cbn [fst snd].
      rewrite Hge. exact Hresult.
    + unfold andThen, ret. cbn [fst snd]. rewrite Hge. exact Hresult.
Qed.

Lemma executeQuery_empty (this : ClientDatabaseManager) (query : string)
  (databaseId : option string) (db : DbRef) (w : World) :
  getDatabase this databaseId = Returned db ->
  yields (w_db w db) query [] [] ->
  executeQuery this query databaseId w
  = (Returned {| columns := []; rows := []; rowCount := JNumber 0;
                 totalCount := Some (if (0 >=? queryCeiling this)%Z
                                     then JNumber (-1) else JNumber 0);
                 limit := None; offset := None |},
     logCall w db (CPrepare query)).
Proof.
  intros Hdb [Hcompile Heval].
  unfold executeQuery. unfold andThen at 1. unfold lift at 1. rewrite Hdb.
  unfold tryCatch. unfold andThen at 1. unfold prepare. rewrite Hcompile, Heval.
  reflexivity.
Qed.


(** C9: with memory optimisations enabled, a query that produces exactly
    [maxQueryResultRows] rows gets the sentinel -1 as its total although
    every row is returned; the total is the number of rows returned only
    when the query produces strictly fewer rows than the ceiling. *)
Theorem executeQuery_total_at_ceiling (this : ClientDatabaseManager) (query : string)
  (databaseId : option string) (db : DbRef) (w : World) (result : list JsObject) :
  getDatabase this databaseId = Returned db ->
  yields (w_db w db) query [] result ->
  useMemoryOptimizations this = true ->
  (1 <= maxQueryResultRows this)%Z ->
  exists r,
    fst (executeQuery this query databaseId w) = Returned r /\
    rowCount r = JNumber (Z.of_nat (List.length (rows r))) /\
    (Z.of_nat (List.length result) = maxQueryResultRows this ->
     totalCount r = Some (JNumber (-1)) /\ rows r = map Object_values result) /\
    (totalCount r = Some (JNumber (Z.of_nat (List.length (rows r)))) <->
     (Z.of_nat (List.length result) < maxQueryResultRows this)%Z).
Proof.
  intros Hdb Hyields Hopt Hlow.
  assert (Hceiling : queryCeiling this = maxQueryResultRows this)
    by (unfold queryCeiling; now rewrite Hopt).
  rewrite (executeQuery_result this query databaseId db w result Hdb Hyields)
    by (rewrite Hceiling; exact Hlow).
  rewrite Hceiling. eexists; split; [reflexivity | ].
  unfold queryResultOf; cbn [rows rowCount totalCount].
  rewrite length_map. split; [reflexivity | split].
  - intros Hexact. split.
    + destruct (Z.leb_spec (maxQueryResultRows this) (Z.of_nat (List.length result)));
        [reflexivity | lia].
    + rewrite firstn_all2 by lia. reflexivity.
  - destruct (Z.leb_spec (maxQueryResultRows this) (Z.of_nat (List.length result)))
      as [Hfull | Hfew]; split.
    + intros [= Hminus]. lia.
    + lia.
    + intros _. exact Hfew.
    + intros _. rewrite firstn_all2 by lia. reflexivity.
Qed.

(** C10: for a query that yields no row, [executeQuery] returns a result
    whose columns are empty as well as its rows, with a row count of 0: the
    column names are read off the first row. *)
Theorem executeQuery_no_rows (this : ClientDatabaseManager) (query : string)
  (databaseId : option string) (db : DbRef) (w : World) :
  getDatabase this databaseId = Returned db ->
  yields (w_db w db) query [] [] ->
  exists r,
    fst (executeQuery this query databaseId w) = Returned r /\
    columns r = [] /\ rows r = [] /\ rowCount r = JNumber 0.
Proof.
  intros Hdb Hyields.
  rewrite (executeQuery_empty this query databaseId db w Hdb Hyields).
  eexists; split; [reflexivity | ]. now repeat split.
Qed.

End Queries.

(** ** Computations that only read *)

Section Reading.

Context {E : Engine} {B : BlobStore}.

Lemma keeps_ret {A : Type} (a : A) : keeps (ret a).
Proof. now intros w. Qed.

Lemma keeps_throw {A : Type} (e : string) : keeps (throw (A := A) e).
Proof. now intros w. Qed.

Lemma keeps_lift {A : Type} (o : Outcome A) : keeps (lift o).
Proof. now intros w. Qed.

Lemma keeps_viaOutcome {A : Type} (r : Outcome A * Statement) : keeps (viaOutcome r).
Proof. now intros w. Qed.

Lemma keeps_andThen {A C : Type} (m : M A) (k : A -> M C) :
  keeps m -> (forall a, keeps (k a)) -> keeps (andThen m k).
Proof.
  intros Hm Hk w. unfold andThen. specialize (Hm w).
  destruct (m w) as [[a | e] w']; cbn [snd] in *; subst; [apply Hk | reflexivity].
Qed.

Lemma keeps_if {A : Type} (b : bool) (m1 m2 : M A) :
  keeps m1 -> keeps m2 -> keeps (if b then m1 else m2).
Proof. now destruct b. Qed.

(** What follows a computation, if it only reads, leaves the world where
    the computation left it. *)
Lemma snd_andThen {A C : Type} (m : M A) (k : A -> M C) (w : World) :
  (forall a, keeps (k a)) -> snd (andThen m k w) = snd (m w).
Proof.
  intros Hk. unfold andThen.
  destruct (m w) as [[a | e] w']; cbn [snd]; [apply Hk | reflexivity].
Qed.

Lemma snd_tryCatch {A : Type} (m : M A) (h : string -> M A) (w : World) :
  (forall e, keeps (h e)) -> snd (tryCatch m h w) = snd (m w).
Proof.
  intros Hh. unfold tryCatch.
  destruct (m w) as [[a | e] w']; cbn [snd]; [reflexivity | apply Hh].
Qed.

Lemma andThen_lift_returned {A C : Type} (a : A) (k : A -> M C) (w : World) :
  andThen (lift (Returned a)) k w = k a w.
Proof. reflexivity. Qed.

Lemma snd_prepare (db : DbRef) (sql : string) (w : World) :
  snd (prepare db sql w) = logCall w db (CPrepare sql).
Proof. reflexivity. Qed.

(** Every call of [getTableColumns] on a resolved database prepares the
    introspection query, and does nothing else to the world. *)
Lemma getTableColumns_world (this : ClientDatabaseManager) (tableName : string)
  (databaseId : option string) (db : DbRef) (w : World) :
  getDatabase this databaseId = Returned db ->
  snd (getTableColumns this tableName databaseId w)
  = logCall w db (CPrepare (tableInfoQuery tableName)).
Proof.
  intros Hdb. unfold getTableColumns. rewrite Hdb, andThen_lift_returned.
  rewrite snd_tryCatch by (intros; apply keeps_throw).
  rewrite snd_andThen; [reflexivity | ].
  intros stmt. apply keeps_andThen; [apply keeps_viaOutcome | intros; apply keeps_ret].
Qed.

(** Its answer is read from the engine's state of the database alone. *)
Lemma getTableColumns_answer (this : ClientDatabaseManager) (tableName : string)
  (databaseId : option string) (db : DbRef) (w1 w2 : World) :
  getDatabase this databaseId = Returned db ->
  w_db w1 db = w_db w2 db ->
  fst (getTableColumns this tableName databaseId w1)
  = fst (getTableColumns this tableName databaseId w2).
Proof.
  intros Hdb Hsame. unfold getTableColumns. rewrite Hdb, !andThen_lift_returned.
  unfold tryCatch, andThen, prepare. rewrite Hsame.
  destruct (db_compile _ (w_db w2 db)); [reflexivity | ].
  unfold viaOutcome, lift, ret, throw.
  match goal with |- context [whileStep ?f ?s ?p ?a] => destruct (whileStep f s p a) as [[r | e] st'] end;
    reflexivity.
Qed.

Lemma executeQuery_world (this : ClientDatabaseManager) (query : string)
  (databaseId : option string) (db : DbRef) (w : World) :
  getDatabase this databaseId = Returned db ->
  snd (executeQuery this query databaseId w) = logCall w db (CPrepare query).
Proof.
  intros Hdb. unfold executeQuery. rewrite Hdb, andThen_lift_returned.
  rewrite snd_tryCatch by (intros; apply keeps_throw).
  rewrite snd_andThen; [reflexivity | ].
  intros stmt. apply keeps_andThen; [apply keeps_viaOutcome | intros first].
  apply keeps_andThen; [ | intros; apply keeps_ret].
  apply keeps_if; [ | apply keeps_ret].
  apply keeps_andThen; [apply keeps_viaOutcome | intros looped].
  apply keeps_andThen; [ | intros; apply keeps_ret].
  apply keeps_if; [ | apply keeps_ret].
  apply keeps_andThen; [apply keeps_viaOutcome | intros; apply keeps_ret].
Qed.

(** C8 (as amended): [getTableColumns] keeps no cache.  Every call on a
    resolved database sends the introspection query to the engine, so two
    consecutive calls with the same arguments send it twice, and the second
    call is answered by the engine as the first was. *)
Theorem getTableColumns_queries_every_call (this : ClientDatabaseManager)
  (tableName : string) (databaseId : option string) (db : DbRef) (w : World) :
  getDatabase this databaseId = Returned db ->
  let first := getTableColumns this tableName databaseId w in
  let second := getTableColumns this tableName databaseId (snd first) in
  w_calls (snd first)
  = (w_calls w ++ [(db, CPrepare (tableInfoQuery tableName))])%list /\
  w_calls (snd second)
  = (w_calls w ++ [(db, CPrepare (tableInfoQuery tableName));
                   (db, CPrepare (tableInfoQuery tableName))])%list /\
  fst second = fst first.
Proof.
  intros Hdb first second. subst first second.
  rewrite !(getTableColumns_world this tableName databaseId db) by exact Hdb.
  cbn [logCall w_calls]. repeat split.
  - now rewrite <- app_assoc.
  - apply (getTableColumns_answer this tableName databaseId db); [exact Hdb | reflexivity].
Qed.

End Reading.

(** ** Table browsing *)

Lemma whileStep_collects {A : Type} (f : JsObject -> A) (st : Statement)
  (pending : list JsObject) (acc : list A) :
  st_failure st = None ->
  whileStep f st pending acc = (Returned (acc ++ map f pending)%list, moveTo st None []).
Proof.
  intros Hok. revert acc.
  induction pending as [ | r rest IH]; intros acc; cbn [whileStep map].
  - unfold endOfRows. rewrite Hok. now rewrite app_nil_r.
  - rewrite IH, <- app_assoc. reflexivity.
Qed.

Lemma tableCountQuery_is_not_data (tableName : string) :
  tableCountQuery tableName <> tableDataQuery tableName.
Proof. unfold tableCountQuery, tableDataQuery. cbn [append]. discriminate. Qed.

Section Browsing.

Context {E : Engine} {B : BlobStore}.

Lemma getTableData_calls (this : ClientDatabaseManager) (tableName : string)
  (limitArg offsetArg : option Z) (databaseId : option string) (db : DbRef) (w : World) :
  useMemoryOptimizations this = true ->
  getDatabase this databaseId = Returned db ->
  let limit' := Z.min (orDefault 100 limitArg) (maxQueryResultRows this) in
  exists tail,
    w_calls (snd (getTableData this tableName limitArg offsetArg databaseId w))
    = (w_calls w ++ tail)%list /\
    (In (db, CPrepare (tableCountQuery tableName)) tail <-> (limit' <= 1000)%Z) /\
    (forall vs, In (db, CBind vs) tail ->
                vs = [SqlNumber limit'; SqlNumber (orDefault 0 offsetArg)]).
Proof.
  intros Hopt Hdb limit'.
  unfold getTableData. rewrite Hdb, andThen_lift_returned, Hopt. cbn [negb orb].
  fold limit'. fold (tableCountQuery tableName). fold (tableDataQuery tableName).
  pose proof (tableCountQuery_is_not_data tableName) as Hdiff.
  unfold tryCatch, andThen, prepare, bindValues, viaOutcome, lift, ret, throw.
  destruct (Z.leb_spec limit' 1000) as [Hsmall | Hlarge].
  - cbn [logCall w_db w_calls fst snd].
    split_matches; cbn [logCall w_calls];
      eexists; (split; [rewrite <- ?app_assoc; cbn [app]; reflexivity | ]);
      (split; [split; [intros _; exact Hsmall | intros _; now left] | ]);
      intros vs Hin; cbn [In] in Hin;
      repeat (destruct Hin as [Hin | Hin]; [try discriminate; try now injection Hin | ]);
      try contradiction.
  - cbn [logCall w_db w_calls fst snd].
    split_matches; cbn [logCall w_calls];
      eexists; (split; [rewrite <- ?app_assoc; cbn [app]; reflexivity | ]);
      (split; [split; [intros Hin | intros; lia] | ]);
      try (intros vs Hin); cbn [In] in Hin;
      repeat (destruct Hin as [Hin | Hin];
              [try discriminate; try (now injection Hin); try (injection Hin as Heq; now contradiction Hdiff) | ]);
      try contradiction.
Qed.

Lemma getTableData_result (this : ClientDatabaseManager) (tableName : string)
  (limitArg offsetArg : option Z) (databaseId : option string) (db : DbRef) (w : World) :
  useMemoryOptimizations this = true ->
  getDatabase this databaseId = Returned db ->
  let limit' := Z.min (orDefault 100 limitArg) (maxQueryResultRows this) in
  forall r,
    fst (getTableData this tableName limitArg offsetArg databaseId w) = Returned r ->
    limit r = Some limit' /\
    totalCount r = Some (if (limit' <=? 1000)%Z
                         then countAnswer (w_db w db) tableName
                         else JNumber (-1)).
Proof.
  intros Hopt Hdb limit'.
  unfold getTableData. rewrite Hdb, andThen_lift_returned, Hopt. cbn [negb orb].
  fold limit'. fold (tableCountQuery tableName). fold (tableDataQuery tableName).
  unfold countAnswer.
  unfold tryCatch, andThen, prepare, bindValues, viaOutcome, lift, ret, throw,
    step, getAsObject, openStatement, endOfRows.
  destruct (limit' <=? 1000)%Z;
    cbn [logCall w_db w_calls fst snd st_pending st_current st_failure moveTo];
    split_matches;
    intros r Hr; cbn [fst snd] in Hr; try discriminate;
    injection Hr as <-; cbn [limit totalCount hd st_current moveTo]; split; reflexivity.
Qed.

Lemma getTableData_returns (this : ClientDatabaseManager) (tableName : string)
  (limitArg offsetArg : option Z) (databaseId : option string) (db : DbRef) (w : World)
  (counted page : list JsObject) :
  useMemoryOptimizations this = true ->
  getDatabase this databaseId = Returned db ->
  let limit' := Z.min (orDefault 100 limitArg) (maxQueryResultRows this) in
  yields (w_db w db) (tableCountQuery tableName) [] counted ->
  yields (w_db w db) (tableDataQuery tableName)
    [SqlNumber limit'; SqlNumber (orDefault 0 offsetArg)] page ->
  exists r,
    fst (getTableData this tableName limitArg offsetArg databaseId w) = Returned r /\
    rows r = map Object_values page.
Proof.
  intros Hopt Hdb limit' [Hc1 He1] [Hc2 He2].
  unfold getTableData. rewrite Hdb, andThen_lift_returned, Hopt. cbn [negb orb].
  fold limit'. fold (tableCountQuery tableName). fold (tableDataQuery tableName).
  unfold tryCatch, andThen, prepare, bindValues, viaOutcome, lift, ret, throw,
    step, getAsObject, endOfRows, openStatement.
  destruct (limit' <=? 1000)%Z; destruct counted; destruct page as [ | firstRow others];
    repeat first
      [ rewrite Hc1 | rewrite He1 | rewrite Hc2 | rewrite He2
      | rewrite whileStep_collects by reflexivity
      | progress cbn [logCall w_db w_calls fst snd cur_rows cur_failure
                      st_db st_sql st_pending st_failure st_current moveTo] ];
    eexists; split; reflexivity.
Qed.

(** The page size [getTableData] binds. *)
Lemma getTableData_binds (this : ClientDatabaseManager) (tableName : string)
  (limitArg offsetArg : option Z) (databaseId : option string) (db : DbRef) (w : World) :
  getDatabase this databaseId = Returned db ->
  let limit' := if useMemoryOptimizations this
                then Z.min (orDefault 100 limitArg) (maxQueryResultRows this)
                else orDefault 100 limitArg in
  let bound := [SqlNumber limit'; SqlNumber (orDefault 0 offsetArg)] in
  exists tail,
    w_calls (snd (getTableData this tableName limitArg offsetArg databaseId w))
    = (w_calls w ++ tail)%list /\
    (forall c, In c tail ->
       c = (db, CPrepare (tableCountQuery tableName)) \/
       c = (db, CPrepare (tableDataQuery tableName)) \/
       c = (db, CBind bound)) /\
    (forall r,
       fst (getTableData this tableName limitArg offsetArg databaseId w) = Returned r ->
       boundValues tail = bound).
Proof.
  intros Hdb limit' bound.
  unfold getTableData. rewrite Hdb, andThen_lift_returned.
  fold limit'. fold (tableCountQuery tableName). fold (tableDataQuery tableName).
  fold bound.
  unfold tryCatch, andThen, prepare, bindValues, viaOutcome, lift, ret, throw.
  destruct (negb (useMemoryOptimizations this) || (limit' <=? 1000)%Z);
    cbn [logCall w_db w_calls fst snd];
    split_matches; cbn [logCall w_calls];
    eexists; (split; [rewrite <- ?app_assoc; cbn [app]; reflexivity | ]);
    (split;
     [ intros c Hin; cbn [In] in Hin;
       repeat (destruct Hin as [Hin | Hin]; [subst c; auto | ]); contradiction
     | intros r Hr; cbn [fst] in Hr; try discriminate;
       unfold boundValues; cbn [flat_map boundValuesOf snd app]; now rewrite ?app_nil_r ]).
Qed.

(** C6: with memory optimisations enabled, [getTableData] first clamps the
    requested page size to the [maxQueryResultRows] ceiling; the clamped size
    is the limit it binds and reports.  It sends the COUNT query exactly when
    the clamped size is at most 1000; when the size exceeds 1000 the total is
    the sentinel -1, and otherwise it is the count the engine answers for
    the table. *)
Theorem getTableData_count_policy (this : ClientDatabaseManager) (tableName : string)
  (limitArg offsetArg : option Z) (databaseId : option string) (db : DbRef) (w : World) :
  useMemoryOptimizations this = true ->
  getDatabase this databaseId = Returned db ->
  let pageSize := Z.min (orDefault 100 limitArg) (maxQueryResultRows this) in
  let outcome := getTableData this tableName limitArg offsetArg databaseId w in
  (pageSize <= maxQueryResultRows this)%Z /\
  (exists tail,
     w_calls (snd outcome) = (w_calls w ++ tail)%list /\
     (In (db, CPrepare (tableCountQuery tableName)) tail <-> (pageSize <= 1000)%Z) /\
     (forall vs, In (db, CBind vs) tail ->
                 vs = [SqlNumber pageSize; SqlNumber (orDefault 0 offsetArg)])) /\
  (forall r, fst outcome = Returned r ->
     limit r = Some pageSize /\
     ((1000 < pageSize)%Z -> totalCount r = Some (JNumber (-1))) /\
     ((pageSize <= 1000)%Z -> totalCount r = Some (countAnswer (w_db w db) tableName))) /\
  (forall counted page,
     yields (w_db w db) (tableCountQuery tableName) [] counted ->
     yields (w_db w db) (tableDataQuery tableName)
       [SqlNumber pageSize; SqlNumber (orDefault 0 offsetArg)] page ->
     exists r, fst outcome = Returned r /\ rows r = map Object_values page).
Proof.
  intros Hopt Hdb pageSize outcome. subst outcome.
  split; [subst pageSize; lia | split; [ | split]].
  - now apply getTableData_calls.
  - intros r Hr.
    destruct (getTableData_result this tableName limitArg offsetArg databaseId db w
                Hopt Hdb r Hr) as [Hlimit Htotal].
    fold pageSize in Hlimit, Htotal. split; [exact Hlimit | ].
    destruct (Z.leb_spec pageSize 1000); split; intros; try lia; exact Htotal.
  - intros counted page. now apply getTableData_returns.
Qed.

End Browsing.

(** ** The browse request *)

Lemma mapOutcome_searchCondition (escapedSearch : string) (cols : list ColumnInfo)
  (names : list string) :
  map name cols = map JString names ->
  mapOutcome (searchCondition escapedSearch) cols
  = Returned (map (fun n => quoteIdentifier n ++ " LIKE " ++ str1 squote ++ "%"
                            ++ escapedSearch ++ "%" ++ str1 squote) names).
Proof.
  revert names. induction cols as [ | col rest IH]; intros [ | n names] Hnames;
    try discriminate; [reflexivity | ].
  cbn [map] in Hnames. injection Hnames as Hcol Hrest.
  cbn [mapOutcome map]. unfold searchCondition at 1. rewrite Hcol. cbn [quoteColumnName].
  now rewrite (IH names Hrest).
Qed.

(** A filter value is written into the condition: a string as a quoted
    literal with its quotes doubled, a number as it prints. *)
Lemma filterCondition_equals_string (col s : string) (others : list FilterValue)
  (lo hi : option Z) :
  filterCondition {| columnName := col; operator := equals; values := FString s :: others;
                     rangeStart := lo; rangeEnd := hi |}
  = quoteIdentifier col ++ " = " ++ str1 squote ++ escapeQuotes s ++ str1 squote.
Proof. reflexivity. Qed.

Lemma filterCondition_gt_number (col : string) (n : Z) (others : list FilterValue)
  (lo hi : option Z) :
  filterCondition {| columnName := col; operator := gt; values := FNumber n :: others;
                     rangeStart := lo; rangeEnd := hi |}
  = quoteIdentifier col ++ " > " ++ numberToString n.
Proof. reflexivity. Qed.

Section BrowseRequest.

Context {E : Engine} {B : BlobStore}.
Variable NumberOf : JsValue -> Z.

Lemma world_of_getTableColumns (this : ClientDatabaseManager) (table : string)
  (db : DbRef) (w w1 : World) (o : Outcome (list ColumnInfo)) :
  getDatabase this None = Returned db ->
  getTableColumns this table None w = (o, w1) ->
  w1 = logCall w db (CPrepare (tableInfoQuery table)).
Proof.
  intros Hdb Heq. rewrite <- (getTableColumns_world this table None db w Hdb).
  now rewrite Heq.
Qed.

Lemma world_of_executeQuery (this : ClientDatabaseManager) (query : string)
  (db : DbRef) (w w1 : World) (o : Outcome QueryResult) :
  getDatabase this None = Returned db ->
  executeQuery this query None w = (o, w1) ->
  w1 = logCall w db (CPrepare query).
Proof.
  intros Hdb Heq. rewrite <- (executeQuery_world this query None db w Hdb).
  now rewrite Heq.
Qed.

(** The two queries of a composed request, run one after the other. *)
Lemma composed_queries_calls (this : ClientDatabaseManager) (db : DbRef)
  (query count : string) (finish : QueryResult -> QueryResult -> option QueryResult)
  (w : World) :
  getDatabase this None = Returned db ->
  exists tail,
    w_calls (snd (tryCatch
                    (andThen (executeQuery this query None)
                       (fun result => andThen (executeQuery this count None)
                                        (fun countResult => ret (finish result countResult))))
                    (fun _ => ret None) w))
    = (w_calls w ++ (db, CPrepare query) :: tail)%list /\
    boundValues tail = [].
Proof.
  intros Hdb. unfold tryCatch, andThen, ret.
  destruct (executeQuery this query None w) as [[r | e] w1] eqn:Hq;
    pose proof (world_of_executeQuery _ _ _ _ _ _ Hdb Hq) as ->.
  - destruct (executeQuery this count None _) as [[c | e] w2] eqn:Hc;
      pose proof (world_of_executeQuery _ _ _ _ _ _ Hdb Hc) as ->;
      exists [(db, CPrepare count)]; cbn [snd logCall w_calls];
      (split; [now rewrite <- app_assoc | reflexivity]).
  - exists []. cbn [snd logCall w_calls]. split; reflexivity.
Qed.

Lemma composed_request (ui : ViewerState) (search : string) (filters : list ColumnFilter) :
  search <> "" \/ sortRequested ui = true \/ filters <> [] ->
  negb (String.eqb search "") || sortRequested ui
  || (0 <? Z.of_nat (List.length filters))%Z = true.
Proof.
  intros [Hsearch | [Hsort | Hfilters]].
  - apply String.eqb_neq in Hsearch. now rewrite Hsearch.
  - rewrite Hsort. now rewrite orb_true_r.
  - destruct filters; [contradiction | ]. now rewrite orb_true_r.
Qed.

(** The calls of a browse request with search text, a sort or filters. *)
Lemma composed_request_calls (this : ClientDatabaseManager) (ui : ViewerState)
  (table : string) (page : Z) (search : string) (filters : list ColumnFilter)
  (db : DbRef) (w : World) :
  getDatabase this None = Returned db ->
  search <> "" \/ sortRequested ui = true \/ filters <> [] ->
  exists tail,
    w_calls (snd (fetchTableData NumberOf this ui table page search filters w))
    = (w_calls w ++ tail)%list /\
    boundValues tail = [] /\
    (search = "" ->
     In (db, CPrepare (browseQuery ui table page (filterConditions filters))) tail) /\
    (search <> "" ->
     forall cols names,
       fst (getTableColumns this table None w) = Returned cols ->
       map name cols = map JString names ->
       In (db, CPrepare (browseQuery ui table page
                           (searchClause search names :: filterConditions filters)))
          tail).
Proof.
  intros Hdb Hcomposed.
  unfold fetchTableData. rewrite (composed_request ui search filters Hcomposed).
  destruct (String.eqb_spec search "") as [Hempty | Hsearch]; cbn [negb].
  - unfold andThen at 1. unfold ret at 1. cbn [app].
    match goal with
    | |- context [andThen (executeQuery this ?q None)
                    (fun result => andThen (executeQuery this ?c None)
                                     (fun cr => ret (@?f result cr)))] =>
        destruct (composed_queries_calls this db q c f w Hdb) as (tail & Hcalls & Hbound)
    end.
    eexists. split; [exact Hcalls | split; [exact Hbound | split]].
    + intros _. now left.
    + intros Hne. now contradiction Hne.
  - unfold tryCatch at 1. unfold andThen at 1 2.
    destruct (getTableColumns this table None w) as [[cols | e] w1] eqn:Hcols;
      pose proof (world_of_getTableColumns _ _ _ _ _ _ Hdb Hcols) as ->; cbn [fst].
    + unfold andThen at 1. unfold lift at 1.
      destruct (mapOutcome (searchCondition (escapeQuotes search)) cols)
        as [conditions | e] eqn:Hmap.
      * unfold ret at 1.
        match goal with
        | |- context [andThen (executeQuery this ?q None)
                        (fun result => andThen (executeQuery this ?c None)
                                         (fun cr => ret (@?f result cr)))] =>
            destruct (composed_queries_calls this db q c f
                        (logCall w db (CPrepare (tableInfoQuery table))) Hdb)
              as (tail & Hcalls & Hbound)
        end.
        unfold tryCatch in Hcalls.
        match type of Hcalls with
        | w_calls (snd ?t) = _ =>
            match goal with
            | |- context [w_calls (snd ?u)] => change u with t
            end
        end.
        rewrite Hcalls. cbn [logCall w_calls].
        eexists. split; [rewrite <- app_assoc; reflexivity | split; [ | split]].
        -- cbn [app]. exact Hbound.
        -- intros Hempty. now contradiction Hsearch.
        -- intros _ cols' names [= <-] Hnames.
           rewrite (mapOutcome_searchCondition _ _ _ Hnames) in Hmap.
           injection Hmap as <-. right. left. reflexivity.
      * cbn [snd logCall w_calls].
        eexists. split; [reflexivity | split; [reflexivity | split]].
        -- intros Hempty. now contradiction Hsearch.
        -- intros _ cols' names [= <-] Hnames.
           rewrite (mapOutcome_searchCondition _ _ _ Hnames) in Hmap. discriminate.
    + cbn [snd logCall w_calls].
      eexists. split; [reflexivity | split; [reflexivity | split]].
      * intros Hempty. now contradiction Hsearch.
      * intros _ cols' names Hret. discriminate.
Qed.

Lemma plain_request (ui : ViewerState) (search : string) (filters : list ColumnFilter) :
  search = "" -> sortRequested ui = false -> filters = [] ->
  negb (String.eqb search "") || sortRequested ui
  || (0 <? Z.of_nat (List.length filters))%Z = false.
Proof. intros -> -> ->. reflexivity. Qed.

(** The plain read shows what [getTableData] returns, and nothing when it
    raises. *)
Lemma fetchTableData_plain (this : ClientDatabaseManager) (ui : ViewerState)
  (table : string) (page : Z) (search : string) (filters : list ColumnFilter) (w : World) :
  search = "" -> sortRequested ui = false -> filters = [] ->
  fetchTableData NumberOf this ui table page search filters w
  = (match fst (getTableData this table (Some (itemsPerPage ui))
                  (Some ((page - 1) * itemsPerPage ui)%Z) None w) with
     | Returned r => Returned (Some r)
     | Thrown _ => Returned None
     end,
     snd (getTableData this table (Some (itemsPerPage ui))
            (Some ((page - 1) * itemsPerPage ui)%Z) None w)).
Proof.
  intros Hsearch Hsort Hfilters.
  unfold fetchTableData. rewrite (plain_request ui search filters Hsearch Hsort Hfilters).
  unfold tryCatch, andThen, ret.
  destruct (getTableData this table _ _ None w) as [[r | e] w']; reflexivity.
Qed.

(** C4 (as amended): a browse request with search text, a sort or filters
    sends its statements without any bound value.  The search text is
    written into the SQL text, with each single quote doubled, as one
    [col LIKE '%text%'] condition per column of the table, joined by OR, and
    the conditions of the filters, their values written out, follow it in
    the same text.  Only the plain paginated read, without search, sort or
    filter, binds its values: it sends nothing but the two fixed texts of
    [getTableData], whose data statement ends in [LIMIT ? OFFSET ?], and
    binds the page size and the offset to that statement, which it has done
    whenever it has a result to show. *)
Theorem browse_values_are_interpolated (this : ClientDatabaseManager) (ui : ViewerState)
  (table : string) (page : Z) (search : string) (filters : list ColumnFilter)
  (db : DbRef) (w : World) :
  getDatabase this None = Returned db ->
  let outcome := fetchTableData NumberOf this ui table page search filters w in
  (search <> "" \/ sortRequested ui = true \/ filters <> [] ->
   exists tail,
     w_calls (snd outcome) = (w_calls w ++ tail)%list /\
     boundValues tail = [] /\
     (search = "" ->
      In (db, CPrepare (browseQuery ui table page (filterConditions filters))) tail) /\
     (search <> "" ->
      forall cols names,
        fst (getTableColumns this table None w) = Returned cols ->
        map name cols = map JString names ->
        In (db, CPrepare (browseQuery ui table page
                            (searchClause search names :: filterConditions filters)))
           tail)) /\
  (search = "" -> sortRequested ui = false -> filters = [] ->
   let pageSize := if useMemoryOptimizations this
                   then Z.min (itemsPerPage ui) (maxQueryResultRows this)
                   else itemsPerPage ui in
   let bound := [SqlNumber pageSize; SqlNumber ((page - 1) * itemsPerPage ui)] in
   exists tail,
     w_calls (snd outcome) = (w_calls w ++ tail)%list /\
     (forall c, In c tail ->
        c = (db, CPrepare (tableCountQuery table)) \/
        c = (db, CPrepare (tableDataQuery table)) \/
        c = (db, CBind bound)) /\
     (forall r, fst outcome = Returned (Some r) -> boundValues tail = bound)).
Proof.
  intros Hdb outcome. subst outcome. split.
  - now apply composed_request_calls.
  - intros Hsearch Hsort Hfilters pageSize bound.
    rewrite (fetchTableData_plain this ui table page search filters w
               Hsearch Hsort Hfilters).
    cbn [fst snd].
    destruct (getTableData_binds this table (Some (itemsPerPage ui))
                (Some ((page - 1) * itemsPerPage ui)%Z) None db w Hdb)
      as (tail & Hcalls & Hin & Hbound).
    exists tail. split; [exact Hcalls | split; [exact Hin | ]].
    intros r Hshown. cbn [orDefault] in Hbound.
    destruct (fst (getTableData this table (Some (itemsPerPage ui))
                     (Some ((page - 1) * itemsPerPage ui)%Z) None w)) as [r' | e];
      [ | discriminate].
    now apply (Hbound r').
Qed.

End BrowseRequest.

(** * The properties on the sample engine *)

Lemma sample_transactional :
  @Transactional Sample.engine _ Sample.table Sample.snapshot.
Proof.
  constructor.
  - intros d d'. cbn [db_exec Sample.engine]. unfold Sample.exec. cbn [String.eqb Ascii.eqb Bool.eqb].
    destruct (Sample.snapshot d); [discriminate | ]. now intros [= <-].
  - intros sql values d e d'. cbn [db_run Sample.engine]. unfold Sample.run.
    destruct values as [vs | ]; [ | discriminate].
    destruct (existsb Sample.isNull vs); [ | discriminate].
    intros [= _ <-]. now left.
  - intros d s Hs. cbn [db_exec Sample.engine]. unfold Sample.exec.
    cbn [String.eqb Ascii.eqb Bool.eqb]. now rewrite Hs.
  - intros d Hs. cbn [db_exec Sample.engine]. unfold Sample.exec.
    cbn [String.eqb Ascii.eqb Bool.eqb]. now rewrite Hs.
Qed.

Lemma buildWhereClause_variants_witness :
  buildWhereClause Sample.firstRowId
  = {| clause := "rowid = ?"; params := [SqlNumber 1] |} /\
  buildWhereClause Sample.compositeKey
  = {| clause := quoteIdentifier "id" ++ " = ? AND " ++ quoteIdentifier "name" ++ " = ?";
       params := [SqlNumber 1; SqlString "a"] |} /\
  buildWhereClause Sample.noIdentifier = {| clause := ""; params := [] |}.
Proof.
  split; [ | split].
  - apply (proj1 (buildWhereClause_variants Sample.firstRowId) 1). reflexivity.
  - apply (proj1 (proj2 (buildWhereClause_variants Sample.compositeKey)));
      [reflexivity | discriminate].
  - apply (proj2 (proj2 (buildWhereClause_variants Sample.noIdentifier))); reflexivity.
Defined.

(** C1, as the specification states it, fails for [updateRow]: with an
    identifier that yields an empty clause and a value map without a usable
    entry, the call returns and raises no error. *)
Lemma updateRow_without_identifier_returns :
  clause (buildWhereClause Sample.noIdentifier) = "" /\
  ~ (exists e,
       fst (updateRow Sample.manager "t" Sample.noIdentifier
              [(INTERNAL_ROWID_COLUMN, JNumber 1)] None (Sample.world Sample.twoRows))
       = Thrown e).
Proof.
  split; [reflexivity | ]. intros [e He]. discriminate He.
Qed.

Lemma mutation_without_identifier_witness :
  let w := Sample.world Sample.twoRows in
  nativeRowId Sample.noIdentifier = None /\
  keyValues Sample.noIdentifier = [] /\
  snd (deleteRow Sample.manager "t" Sample.noIdentifier None w) = w /\
  (exists e, fst (deleteRow Sample.manager "t" Sample.noIdentifier None w) = Thrown e) /\
  snd (updateRow Sample.manager "t" Sample.noIdentifier [("name", JString "z")] None w) = w /\
  (exists e, fst (updateRow Sample.manager "t" Sample.noIdentifier [("name", JString "z")]
                    None w) = Thrown e).
Proof.
  intros w.
  pose proof (mutation_without_identifier Sample.manager "t" Sample.noIdentifier
                [("name", JString "z")] None w eq_refl eq_refl) as [[Hd1 Hd2] [Hu1 [Hu2 _]]].
  repeat split; try assumption.
  apply Hu2. discriminate.
Defined.

Lemma failed_mutation_rolls_back_witness :
  let w := Sample.world Sample.twoRows in
  let began := {| Sample.table := Sample.twoRows; Sample.snapshot := Some Sample.twoRows |} in
  getDatabase Sample.manager None = Returned 0%nat /\
  getDatabaseInfo Sample.manager None = Returned 0%nat /\
  Sample.exec "BEGIN TRANSACTION;" (w_db w 0%nat) = (None, began) /\
  rolledBack (E := Sample.engine) (B := Sample.blobStore) Sample.table 0%nat
    (updateStatement "t" Sample.firstRowId [("name", JNull)])
    "NOT NULL constraint failed" w
    (updateRow Sample.manager "t" Sample.firstRowId [("name", JNull)] None w).
Proof.
  intros w began.
  split; [reflexivity | split; [reflexivity | split; [reflexivity | ]]].
  refine (proj1 (proj2 (failed_mutation_rolls_back (E := Sample.engine)
                          Sample.table Sample.snapshot sample_transactional
                          Sample.manager None 0%nat 0%nat w began
                          eq_refl eq_refl eq_refl))
            "t" Sample.firstRowId [("name", JNull)] "NOT NULL constraint failed"
            began _ _ eq_refl); discriminate.
Defined.

Lemma updateRow_rowid_only_is_noop_witness :
  let w := Sample.world Sample.twoRows in
  let values := [(INTERNAL_ROWID_COLUMN, JNumber 1)] in
  (forall k v, In (k, v) values -> k = INTERNAL_ROWID_COLUMN) /\
  snd (updateRow Sample.manager "t" Sample.firstRowId values None w) = w /\
  fst (updateRow Sample.manager "t" Sample.firstRowId values None w) = Returned tt.
Proof.
  intros w values.
  assert (Honly : forall k v, In (k, v) values -> k = INTERNAL_ROWID_COLUMN).
  { intros k v [[= <- _] | []]. reflexivity. }
  split; [exact Honly | ].
  destruct (updateRow_rowid_only_is_noop Sample.manager "t" Sample.firstRowId values None w
              Honly) as [Hw Hret].
  split; [exact Hw | ]. exact (Hret 0%nat 0%nat eq_refl eq_refl).
Defined.

(** C4, as the specification states it, fails: the search text of a browse
    request is not bound to a parameter.  The statements are sent with no
    bound value, and the text, its quote doubled, stands in the SQL. *)
Lemma browse_search_is_not_bound :
  let outcome :=
    fetchTableData Sample.numberOf Sample.manager Sample.plainView "t" 1 "o'b" []
      (Sample.world Sample.twoRows) in
  boundValues (w_calls (snd outcome)) = [] /\
  map snd (w_calls (snd outcome))
  = [CPrepare (tableInfoQuery "t");
     CPrepare ("SELECT rowid as " ++ quoteIdentifier "__rowid__" ++ ", * FROM "
               ++ quoteIdentifier "t" ++ " WHERE (" ++ quoteIdentifier "id"
               ++ " LIKE '%o''b%' OR " ++ quoteIdentifier "name"
               ++ " LIKE '%o''b%') LIMIT 50 OFFSET 0");
     CPrepare ("SELECT COUNT(*) as count FROM " ++ quoteIdentifier "t" ++ " WHERE ("
               ++ quoteIdentifier "id" ++ " LIKE '%o''b%' OR " ++ quoteIdentifier "name"
               ++ " LIKE '%o''b%')")].
Proof. split; reflexivity. Qed.

Lemma browse_values_are_interpolated_witness :
  let w := Sample.world Sample.twoRows in
  getDatabase Sample.manager None = Returned 0%nat /\
  "o'b" <> "" /\
  (exists tail,
     w_calls (snd (fetchTableData Sample.numberOf Sample.manager Sample.plainView "t" 1
                     "o'b" [] w))
     = (w_calls w ++ tail)%list /\
     boundValues tail = [] /\
     In (0%nat, CPrepare (browseQuery Sample.plainView "t" 1
                            [searchClause "o'b" ["id"; "name"]])) tail) /\
  (exists r tail,
     fst (fetchTableData Sample.numberOf Sample.manager Sample.plainView "t" 1 "" [] w)
     = Returned (Some r) /\
     w_calls (snd (fetchTableData Sample.numberOf Sample.manager Sample.plainView "t" 1
                     "" [] w))
     = (w_calls w ++ tail)%list /\
     boundValues tail = [SqlNumber 50; SqlNumber 0]).
Proof.
  intros w.
  assert (Hsearch : "o'b" <> "") by discriminate.
  split; [reflexivity | split; [exact Hsearch | split]].
  - destruct (proj1 (browse_values_are_interpolated Sample.numberOf Sample.manager
                       Sample.plainView "t" 1 "o'b" [] 0%nat w eq_refl)
                (or_introl Hsearch))
      as (tail & Hcalls & Hbound & _ & Hin).
    exists tail. split; [exact Hcalls | split; [exact Hbound | ]].
    exact (Hin Hsearch _ ["id"; "name"] eq_refl eq_refl).
  - destruct (proj2 (browse_values_are_interpolated Sample.numberOf Sample.manager
                       Sample.plainView "t" 1 "" [] 0%nat w eq_refl)
                eq_refl eq_refl eq_refl)
      as (tail & Hcalls & _ & Hbound).
    destruct (fst (fetchTableData Sample.numberOf Sample.manager Sample.plainView "t" 1
                     "" [] w)) as [[r | ] | e] eqn:Hshown;
      try (vm_compute in Hshown; discriminate Hshown).
    exists r, tail. split; [reflexivity | split; [exact Hcalls | ]].
    exact (Hbound r eq_refl).
Defined.


Lemma getTableData_count_policy_witness :
  let this := setMaxQueryResultRows Sample.manager 5000 in
  let w := Sample.world Sample.twoRows in
  useMemoryOptimizations this = true /\
  getDatabase this None = Returned 0%nat /\
  exists r,
    fst (getTableData this "t" (Some 2000) None None w) = Returned r /\
    limit r = Some 2000 /\
    totalCount r = Some (JNumber (-1)).
Proof.
  intros this w. split; [reflexivity | split; [reflexivity | ]].
  destruct (getTableData_count_policy this "t" (Some 2000) None None 0%nat w
              eq_refl eq_refl) as (_ & _ & Hresult & Hreturns).
  destruct (Hreturns [[("count", JNumber 2)]] Sample.twoRows) as (r & Hr & _);
    [split; reflexivity | split; reflexivity | ].
  exists r. destruct (Hresult r Hr) as (Hlimit & Hskip & _).
  split; [exact Hr | split; [exact Hlimit | ]].
  apply Hskip. reflexivity.
Defined.

(** The size compared with 1000 is the clamped one: a request for 5000 rows
    under the default ceiling of 1000 is clamped to 1000 and still counted. *)
Lemma getTableData_counts_clamped_request :
  let outcome := getTableData Sample.manager "t" (Some 5000) None None
                   (Sample.world Sample.twoRows) in
  In (0%nat, CPrepare (tableCountQuery "t")) (w_calls (snd outcome)) /\
  exists r, fst outcome = Returned r /\
            limit r = Some 1000 /\ totalCount r = Some (JNumber 2).
Proof.
  split; [now left | ]. eexists. split; [reflexivity | split; reflexivity].
Qed.

(** C8, as the specification states it, fails: a second call with the same
    arguments sends the introspection query to the engine a second time. *)
Lemma getTableColumns_queries_twice :
  let first := getTableColumns Sample.manager "t" None (Sample.world Sample.twoRows) in
  let second := getTableColumns Sample.manager "t" None (snd first) in
  w_calls (snd second)
  = [(0%nat, CPrepare (tableInfoQuery "t")); (0%nat, CPrepare (tableInfoQuery "t"))].
Proof. reflexivity. Qed.

Lemma getTableColumns_queries_every_call_witness :
  let w := Sample.world Sample.twoRows in
  let first := getTableColumns Sample.manager "t" None w in
  let second := getTableColumns Sample.manager "t" None (snd first) in
  getDatabase Sample.manager None = Returned 0%nat /\
  w_calls (snd second)
  = (w_calls w ++ [(0%nat, CPrepare (tableInfoQuery "t"));
                   (0%nat, CPrepare (tableInfoQuery "t"))])%list /\
  fst second = fst first.
Proof.
  intros w first second. split; [reflexivity | ].
  destruct (getTableColumns_queries_every_call Sample.manager "t" None 0%nat w eq_refl)
    as (_ & Htwice & Hsame).
  split; [exact Htwice | exact Hsame].
Defined.

Lemma executeQuery_total_at_ceiling_witness :
  let this := setMaxQueryResultRows Sample.manager 100 in
  let w := Sample.world (Sample.manyRows 100) in
  getDatabase this None = Returned 0%nat /\
  yields (w_db w 0%nat) "SELECT * FROM t" [] (Sample.manyRows 100) /\
  useMemoryOptimizations this = true /\
  (1 <= maxQueryResultRows this)%Z /\
  exists r,
    fst (executeQuery this "SELECT * FROM t" None w) = Returned r /\
    totalCount r = Some (JNumber (-1)) /\
    rows r = map Object_values (Sample.manyRows 100).
Proof.
  intros this w.
  assert (Hyields : yields (w_db w 0%nat) "SELECT * FROM t" [] (Sample.manyRows 100))
    by (split; reflexivity).
  assert (Hlow : (1 <= maxQueryResultRows this)%Z) by (vm_compute; discriminate).
  split; [reflexivity | split; [exact Hyields | split; [reflexivity | split; [exact Hlow | ]]]].
  destruct (executeQuery_total_at_ceiling this "SELECT * FROM t" None 0%nat w
              (Sample.manyRows 100) eq_refl Hyields eq_refl Hlow)
    as (r & Hr & _ & Hexact & _).
  exists r. split; [exact Hr | ]. apply Hexact. reflexivity.
Defined.

Lemma executeQuery_no_rows_witness :
  let w := Sample.world [] in
  getDatabase Sample.manager None = Returned 0%nat /\
  yields (w_db w 0%nat) "SELECT * FROM t" [] [] /\
  exists r,
    fst (executeQuery Sample.manager "SELECT * FROM t" None w) = Returned r /\
    columns r = [] /\ rows r = [] /\ rowCount r = JNumber 0.
Proof.
  intros w.
  assert (Hyields : yields (w_db w 0%nat) "SELECT * FROM t" [] []) by (split; reflexivity).
  split; [reflexivity | split; [exact Hyields | ]].
  exact (executeQuery_no_rows Sample.manager "SELECT * FROM t" None 0%nat w eq_refl Hyields).
Defined.

(** * Further properties *)

(** ** Quoting *)

Lemma length_of_append (a b : string) :
  String.length (a ++ b) = (String.length a + String.length b)%nat.
Proof. induction a as [ | x a IH]; cbn [append String.length]; [reflexivity | now rewrite IH]. Qed.

Lemma append_cancel_r (a b c : string) : a ++ c = b ++ c -> a = b.
Proof.
  revert b. induction a as [ | x a IH]; intros [ | y b] H; cbn [append] in H.
  - reflexivity.
  - exfalso. apply (f_equal String.length) in H.
    cbn [String.length] in H. rewrite length_of_append in H. lia.
  - exfalso. apply (f_equal String.length) in H.
    cbn [String.length] in H. rewrite length_of_append in H. lia.
  - injection H as -> H. f_equal. now apply IH.
Qed.

(** Doubling a character loses nothing of the text. *)
Lemma replaceAll_doubling_injective (c : ascii) (a b : string) :
  replaceAll c (str1 c ++ str1 c) a = replaceAll c (str1 c ++ str1 c) b -> a = b.
Proof.
  revert b. induction a as [ | x a IH]; intros [ | y b]; cbn [replaceAll str1 append].
  - reflexivity.
  - destruct (Ascii.eqb y c); discriminate.
  - destruct (Ascii.eqb x c); discriminate.
  - destruct (Ascii.eqb_spec x c) as [-> | Hx]; destruct (Ascii.eqb_spec y c) as [-> | Hy];
      cbn [append]; intros H.
    + injection H as H. f_equal. now apply IH.
    + injection H as Hc _. now contradiction Hy.
    + injection H as Hc _. now contradiction Hx.
    + injection H as -> H. f_equal. now apply IH.
Qed.

(** X1: quoting keeps identifiers apart, and escaping keeps texts apart: two
    names that quote to the same text, or two texts that escape to the same
    text, are the same. *)
Theorem quoting_is_injective (a b : string) :
  (quoteIdentifier a = quoteIdentifier b -> a = b) /\
  (escapeQuotes a = escapeQuotes b -> a = b).
Proof.
  split.
  - unfold quoteIdentifier. intros H. cbn [str1 append] in H. injection H as H.
    apply append_cancel_r in H. now apply (replaceAll_doubling_injective dquote).
  - apply (replaceAll_doubling_injective squote).
Qed.

(** ** The lexical structure of the statements *)

Lemma lex_app (st : Lex) (a b : string) : lex st (a ++ b) = lex (lex st a) b.
Proof. revert st. induction a as [ | c a IH]; intros st; cbn [append lex]; auto. Qed.

Lemma codeText_app (st : Lex) (a b : string) :
  codeText st (a ++ b) = codeText st a ++ codeText (lex st a) b.
Proof.
  revert st. induction a as [ | c a IH]; intros st; cbn [append lex codeText];
    [reflexivity | ].
  destruct st; destruct (lexStep _ c); cbn [append]; now rewrite IH.
Qed.

Lemma countChar_app (c : ascii) (a b : string) :
  countChar c (a ++ b) = (countChar c a + countChar c b)%nat.
Proof. induction a as [ | x a IH]; cbn [append countChar]; [reflexivity | rewrite IH; lia]. Qed.

(** Inside a quoted identifier, a name with its double quotes doubled reads
    as part of the identifier, to its end. *)
Lemma lex_doubled_dquotes (s : string) :
  lex InIdentifier (replaceAll dquote (str1 dquote ++ str1 dquote) s) = InIdentifier /\
  codeText InIdentifier (replaceAll dquote (str1 dquote ++ str1 dquote) s) = "".
Proof.
  induction s as [ | c s [IHl IHc]]; cbn [replaceAll]; [now split | ].
  destruct (Ascii.eqb c dquote) eqn:Hc.
  - cbn [str1 append lex codeText lexStep]. now split.
  - cbn [lex codeText lexStep]. rewrite Hc. now split.
Qed.

Lemma lex_doubled_squotes (s : string) :
  lex InLiteral (escapeQuotes s) = InLiteral /\
  codeText InLiteral (escapeQuotes s) = "".
Proof.
  unfold escapeQuotes.
  induction s as [ | c s [IHl IHc]]; cbn [replaceAll]; [now split | ].
  destruct (Ascii.eqb c squote) eqn:Hc.
  - cbn [str1 append lex codeText lexStep]. now split.
  - cbn [lex codeText lexStep]. rewrite Hc. now split.
Qed.

(** A quoted identifier is one token: it contributes nothing outside its
    quotes, and the text goes on as code after it. *)
Lemma lex_quoteIdentifier (s : string) :
  lex InCode (quoteIdentifier s) = InCode /\ codeText InCode (quoteIdentifier s) = "".
Proof.
  unfold quoteIdentifier.
  destruct (lex_doubled_dquotes s) as [Hl Hc].
  cbn [str1 append] in Hl, Hc |- *. cbn [lex codeText].
  change (lexStep InCode dquote) with InIdentifier.
  rewrite lex_app, codeText_app, Hl, Hc. split; reflexivity.
Qed.

Lemma lex_after_identifier (s rest : string) :
  lex InCode (quoteIdentifier s ++ rest) = lex InCode rest /\
  codeText InCode (quoteIdentifier s ++ rest) = codeText InCode rest.
Proof.
  destruct (lex_quoteIdentifier s) as [Hl Hc].
  now rewrite lex_app, codeText_app, Hl, Hc.
Qed.

Lemma append_assoc (a b c : string) : (a ++ b) ++ c = a ++ b ++ c.
Proof. induction a as [ | x a IH]; cbn [append]; [reflexivity | now rewrite IH]. Qed.

Lemma join_cons (sep x y : string) (l : list string) :
  join sep (x :: y :: l) = x ++ sep ++ join sep (y :: l).
Proof. reflexivity. Qed.

(** Text that ends outside every quoted part can be read piece by piece. *)
Lemma placeholders_app (a b : string) :
  lex InCode a = InCode ->
  placeholders (a ++ b) = (placeholders a + placeholders b)%nat.
Proof.
  intros Ha. unfold placeholders. now rewrite codeText_app, Ha, countChar_app.
Qed.

Lemma lex_closed_app (a b : string) :
  lex InCode a = InCode -> lex InCode b = InCode -> lex InCode (a ++ b) = InCode.
Proof. intros Ha Hb. now rewrite lex_app, Ha. Qed.

Lemma placeholders_quoteIdentifier (s : string) : placeholders (quoteIdentifier s) = 0%nat.
Proof. unfold placeholders. now rewrite (proj2 (lex_quoteIdentifier s)). Qed.

(** Pieces that each end in code, joined by a separator without quotes. *)
Lemma lex_join (sep : string) (items : list string) :
  lex InCode sep = InCode ->
  Forall (fun t => lex InCode t = InCode) items ->
  lex InCode (join sep items) = InCode.
Proof.
  intros Hsep Hitems. induction Hitems as [ | x l Hx Hl IH]; [reflexivity | ].
  destruct l as [ | y l]; [exact Hx | ].
  rewrite join_cons. apply lex_closed_app; [exact Hx | ].
  apply lex_closed_app; [exact Hsep | exact IH].
Qed.

Lemma codeText_join (sep : string) (items : list string) :
  lex InCode sep = InCode ->
  Forall (fun t => lex InCode t = InCode) items ->
  codeText InCode (join sep items)
  = join (codeText InCode sep) (map (codeText InCode) items).
Proof.
  intros Hsep Hitems. induction Hitems as [ | x l Hx Hl IH]; [reflexivity | ].
  destruct l as [ | y l]; [reflexivity | ].
  rewrite join_cons. cbn [map]. rewrite join_cons.
  rewrite codeText_app, Hx, codeText_app, Hsep, IH. reflexivity.
Qed.

Lemma placeholders_join (sep : string) (items : list string) :
  lex InCode sep = InCode ->
  placeholders sep = 0%nat ->
  Forall (fun t => lex InCode t = InCode) items ->
  placeholders (join sep items) = list_sum (map placeholders items).
Proof.
  intros Hsep Hnone Hitems. induction Hitems as [ | x l Hx Hl IH]; [reflexivity | ].
  destruct l as [ | y l]; [change (join sep [x]) with x; cbn [map list_sum fold_right]; lia | ].
  rewrite join_cons. rewrite placeholders_app by exact Hx.
  rewrite placeholders_app by exact Hsep. rewrite IH, Hnone. reflexivity.
Qed.

Lemma list_sum_ones {A : Type} (f : A -> nat) (l : list A) :
  (forall x, f x = 1%nat) -> list_sum (map f l) = List.length l.
Proof.
  intros Hf. induction l as [ | x l IH]; [reflexivity | ].
  change (list_sum (map f (x :: l))) with (f x + list_sum (map f l))%nat.
  cbn [List.length]. now rewrite Hf, IH.
Qed.

Lemma list_sum_zeros {A : Type} (f : A -> nat) (l : list A) :
  (forall x, f x = 0%nat) -> list_sum (map f l) = 0%nat.
Proof.
  intros Hf. induction l as [ | x l IH]; [reflexivity | ].
  change (list_sum (map f (x :: l))) with (f x + list_sum (map f l))%nat.
  now rewrite Hf, IH.
Qed.

(** One [col = ?] per entry. *)
Lemma assignment_lexes (col : string) :
  lex InCode (quoteIdentifier col ++ " = ?") = InCode /\
  placeholders (quoteIdentifier col ++ " = ?") = 1%nat.
Proof.
  split.
  - apply lex_closed_app; [apply lex_quoteIdentifier | reflexivity].
  - rewrite placeholders_app by apply lex_quoteIdentifier.
    now rewrite placeholders_quoteIdentifier.
Qed.

Lemma assignments_lex (entries : list (string * JsValue)) :
  lex InCode (join ", " (map (fun '(col, _) => quoteIdentifier col ++ " = ?") entries))
  = InCode /\
  placeholders (join ", " (map (fun '(col, _) => quoteIdentifier col ++ " = ?") entries))
  = List.length entries.
Proof.
  assert (Hall : Forall (fun t => lex InCode t = InCode)
                   (map (fun '(col, _) => quoteIdentifier col ++ " = ?") entries)).
  { apply Forall_map, Forall_forall. intros [col v] _. apply assignment_lexes. }
  split; [now apply lex_join | ].
  rewrite placeholders_join by (try reflexivity; exact Hall).
  rewrite map_map. apply list_sum_ones. intros [col v]. apply assignment_lexes.
Qed.

Lemma whereClause_lexes (identifier : option RowIdentifier) :
  lex InCode (clause (buildWhereClause identifier)) = InCode /\
  placeholders (clause (buildWhereClause identifier))
  = List.length (params (buildWhereClause identifier)).
Proof.
  destruct (nativeRowId identifier) as [n | ] eqn:Hn.
  - rewrite (buildWhereClause_rowid _ _ Hn). now split.
  - destruct (keyValues identifier) as [ | kv pk] eqn:Hk.
    + rewrite (buildWhereClause_invalid _ Hn Hk). now split.
    + rewrite (buildWhereClause_key _ Hn) by (rewrite Hk; discriminate).
      cbn [clause params]. rewrite length_map.
      assert (Hall : Forall (fun t => lex InCode t = InCode)
                       (map (fun kv => quoteIdentifier (fst kv) ++ " = ?")
                          (keyValues identifier))).
      { apply Forall_map, Forall_forall. intros x _. apply assignment_lexes. }
      split; [now apply lex_join | ].
      rewrite placeholders_join by (try reflexivity; exact Hall).
      rewrite map_map. apply list_sum_ones. intros x. apply assignment_lexes.
Qed.

(** X2: the clause [buildWhereClause] builds has exactly one placeholder per
    parameter, whatever characters the key columns have in their names, and
    ends outside every quoted identifier. *)
Theorem buildWhereClause_placeholders (identifier : option RowIdentifier) :
  placeholders (clause (buildWhereClause identifier))
  = List.length (params (buildWhereClause identifier)) /\
  lex InCode (clause (buildWhereClause identifier)) = InCode.
Proof. destruct (whereClause_lexes identifier). now split. Qed.

Lemma insert_columns_lex (entries : list (string * JsValue)) :
  lex InCode (join ", " (map (fun '(col, _) => quoteIdentifier col) entries)) = InCode /\
  placeholders (join ", " (map (fun '(col, _) => quoteIdentifier col) entries)) = 0%nat.
Proof.
  assert (Hall : Forall (fun t => lex InCode t = InCode)
                   (map (fun '(col, _) => quoteIdentifier col) entries)).
  { apply Forall_map, Forall_forall. intros [col v] _. apply lex_quoteIdentifier. }
  split; [now apply lex_join | ].
  rewrite placeholders_join by (try reflexivity; exact Hall).
  rewrite map_map. apply list_sum_zeros. intros [col v]. apply placeholders_quoteIdentifier.
Qed.

Lemma insert_marks_lex (entries : list (string * JsValue)) :
  lex InCode (join ", " (map (fun _ => "?") entries)) = InCode /\
  placeholders (join ", " (map (fun _ => "?") entries)) = List.length entries.
Proof.
  assert (Hall : Forall (fun t => lex InCode t = InCode) (map (fun _ => "?") entries)).
  { apply Forall_map, Forall_forall. now intros x _. }
  split; [now apply lex_join | ].
  rewrite placeholders_join by (try reflexivity; exact Hall).
  rewrite map_map. now apply list_sum_ones.
Qed.

(** X3: the statement each mutator hands to [db.run] has exactly as many
    placeholders as values are bound with it, whatever the names of the
    table and of the columns: a [?] or a quote inside a name is kept inside
    its quoted identifier. *)
Theorem mutation_statements_bind_every_placeholder (tableName : string)
  (identifier : option RowIdentifier) (values : RowValueMap) :
  placeholders (fst (insertStatement tableName values))
  = boundCount (snd (insertStatement tableName values)) /\
  placeholders (fst (updateStatement tableName identifier values))
  = boundCount (snd (updateStatement tableName identifier values)) /\
  placeholders (fst (deleteStatement tableName identifier))
  = boundCount (snd (deleteStatement tableName identifier)).
Proof.
  destruct (whereClause_lexes identifier) as [Hwl Hwp].
  split; [ | split].
  - unfold insertStatement.
    destruct (Nat.eqb (List.length (usableEntries values)) 0); cbn [fst snd boundCount].
    + rewrite (placeholders_app "INSERT INTO ") by reflexivity.
      rewrite placeholders_app by apply lex_quoteIdentifier.
      now rewrite placeholders_quoteIdentifier.
    + destruct (insert_columns_lex (usableEntries values)) as [Hcl Hcp].
      destruct (insert_marks_lex (usableEntries values)) as [Hml Hmp].
      rewrite length_map.
      rewrite (placeholders_app "INSERT INTO ") by reflexivity.
      rewrite placeholders_app by apply lex_quoteIdentifier.
      rewrite (placeholders_app " (") by reflexivity.
      rewrite placeholders_app by exact Hcl.
      rewrite (placeholders_app ") VALUES (") by reflexivity.
      rewrite placeholders_app by exact Hml.
      rewrite placeholders_quoteIdentifier, Hcp, Hmp. cbn. lia.
  - unfold updateStatement. cbn [fst snd boundCount].
    destruct (assignments_lex (usableEntries values)) as [Hal Hap].
    rewrite length_app, length_map.
    rewrite (placeholders_app "UPDATE ") by reflexivity.
    rewrite placeholders_app by apply lex_quoteIdentifier.
    rewrite (placeholders_app " SET ") by reflexivity.
    rewrite placeholders_app by exact Hal.
    rewrite (placeholders_app " WHERE ") by reflexivity.
    rewrite placeholders_quoteIdentifier, Hap, Hwp. cbn. lia.
  - unfold deleteStatement. cbn [fst snd boundCount].
    rewrite (placeholders_app "DELETE FROM ") by reflexivity.
    rewrite placeholders_app by apply lex_quoteIdentifier.
    rewrite (placeholders_app " WHERE ") by reflexivity.
    rewrite placeholders_quoteIdentifier, Hwp. cbn. lia.
Qed.

(** ** The search text in the browse statement *)

Lemma append_nil_r (a : string) : a ++ "" = a.
Proof. induction a as [ | x a IH]; cbn [append]; [reflexivity | now rewrite IH]. Qed.

Lemma searchCondition_lexes (search n : string) :
  lex InCode (quoteIdentifier n ++ " LIKE " ++ str1 squote ++ "%"
              ++ escapeQuotes search ++ "%" ++ str1 squote) = InCode /\
  codeText InCode (quoteIdentifier n ++ " LIKE " ++ str1 squote ++ "%"
                   ++ escapeQuotes search ++ "%" ++ str1 squote) = " LIKE ".
Proof.
  destruct (lex_quoteIdentifier n) as [Hql Hqc].
  destruct (lex_doubled_squotes search) as [Hel Hec].
  assert (Hopen : lex InCode (" LIKE " ++ str1 squote ++ "%") = InLiteral) by reflexivity.
  assert (Hopen' : codeText InCode (" LIKE " ++ str1 squote ++ "%") = " LIKE ")
    by reflexivity.
  assert (Hclose : lex InLiteral ("%" ++ str1 squote) = InCode) by reflexivity.
  assert (Hclose' : codeText InLiteral ("%" ++ str1 squote) = "") by reflexivity.
  replace (quoteIdentifier n ++ " LIKE " ++ str1 squote ++ "%"
           ++ escapeQuotes search ++ "%" ++ str1 squote)
    with (quoteIdentifier n ++ (" LIKE " ++ str1 squote ++ "%")
          ++ escapeQuotes search ++ ("%" ++ str1 squote))
    by (now rewrite !append_assoc).
  remember (" LIKE " ++ str1 squote ++ "%") as opening.
  remember ("%" ++ str1 squote) as closing.
  remember (escapeQuotes search) as escaped.
  remember (quoteIdentifier n) as quoted.
  rewrite !lex_app, !codeText_app, Hql, Hqc, Hopen, Hopen', Hel, Hec, Hclose, Hclose'.
  split; reflexivity.
Qed.

Lemma searchClause_lexes (search : string) (names : list string) :
  lex InCode (searchClause search names) = InCode /\
  codeText InCode (searchClause search names)
  = "(" ++ join " OR " (map (fun _ => " LIKE ") names) ++ ")".
Proof.
  unfold searchClause.
  set (items := map _ names).
  assert (Hall : Forall (fun t => lex InCode t = InCode) items).
  { apply Forall_map, Forall_forall. intros n _. apply searchCondition_lexes. }
  assert (Hjl : lex InCode (join " OR " items) = InCode) by (now apply lex_join).
  assert (Hjc : codeText InCode (join " OR " items)
                = join " OR " (map (fun _ => " LIKE ") names)).
  { rewrite codeText_join by (try reflexivity; exact Hall).
    subst items. rewrite map_map. f_equal. apply map_ext. intros n.
    apply searchCondition_lexes. }
  split.
  - rewrite (lex_app InCode "("). change (lex InCode "(") with InCode.
    now rewrite lex_app, Hjl.
  - rewrite (codeText_app InCode "("). change (lex InCode "(") with InCode.
    rewrite codeText_app, Hjl, Hjc. reflexivity.
Qed.

Lemma whereSuffix_first (c : string) (conds : list string) (rest : string) :
  exists after,
    whereSuffix (c :: conds) ++ rest = " WHERE " ++ c ++ after /\
    after = match conds with
            | [] => rest
            | _ :: _ => " AND " ++ join " AND " conds ++ rest
            end.
Proof.
  unfold whereSuffix.
  assert (Hpos : (0 <? Z.of_nat (List.length (c :: conds)))%Z = true)
    by (apply Z.ltb_lt; cbn [List.length]; lia).
  rewrite Hpos. eexists. split; [ | reflexivity].
  destruct conds as [ | c' conds].
  - change (join " AND " [c]) with c. now rewrite !append_assoc.
  - rewrite join_cons. now rewrite !append_assoc.
Qed.

Lemma browseQuery_after_search (search1 search2 : string) (names conds : list string)
  (rest : string) :
  codeText InCode (whereSuffix (searchClause search1 names :: conds) ++ rest)
  = codeText InCode (whereSuffix (searchClause search2 names :: conds) ++ rest).
Proof.
  destruct (whereSuffix_first (searchClause search1 names) conds rest) as (a1 & -> & ->).
  destruct (whereSuffix_first (searchClause search2 names) conds rest) as (a2 & -> & ->).
  destruct (searchClause_lexes search1 names) as [Hl1 Hc1].
  destruct (searchClause_lexes search2 names) as [Hl2 Hc2].
  rewrite !(codeText_app InCode " WHERE "). f_equal.
  change (lex InCode " WHERE ") with InCode.
  now rewrite !codeText_app, Hl1, Hl2, Hc1, Hc2.
Qed.

(** X4: the search text of a browse request never leaves its string
    literals.  Whatever the text and the column names contain, the search
    condition reads, outside its quoted parts, as [( LIKE  OR ... LIKE )] and
    ends outside every literal; replacing the search text by any other
    changes nothing of the data query or of the count query outside their
    string literals. *)
Theorem search_text_stays_in_its_literals (search : string) (names : list string) :
  lex InCode (searchClause search names) = InCode /\
  codeText InCode (searchClause search names)
  = "(" ++ join " OR " (map (fun _ => " LIKE ") names) ++ ")" /\
  (forall ui table page conds other,
     codeText InCode (browseQuery ui table page (searchClause search names :: conds))
     = codeText InCode (browseQuery ui table page (searchClause other names :: conds))) /\
  (forall table conds other,
     codeText InCode (countQuery table (searchClause search names :: conds))
     = codeText InCode (countQuery table (searchClause other names :: conds))).
Proof.
  destruct (searchClause_lexes search names) as [Hl Hc].
  split; [exact Hl | split; [exact Hc | split]].
  - intros ui table page conds other. unfold browseQuery.
    rewrite !(codeText_app InCode "SELECT rowid as "). f_equal.
    change (lex InCode "SELECT rowid as ") with InCode.
    rewrite !(proj2 (lex_after_identifier _ _)).
    rewrite !(codeText_app InCode ", * FROM "). f_equal.
    change (lex InCode ", * FROM ") with InCode.
    rewrite !(proj2 (lex_after_identifier _ _)).
    apply browseQuery_after_search.
  - intros table conds other. unfold countQuery.
    rewrite !(codeText_app InCode "SELECT COUNT(*) as count FROM "). f_equal.
    change (lex InCode "SELECT COUNT(*) as count FROM ") with InCode.
    rewrite !(proj2 (lex_after_identifier _ _)).
    rewrite <- (append_nil_r (whereSuffix (searchClause search names :: conds))).
    rewrite <- (append_nil_r (whereSuffix (searchClause other names :: conds))).
    apply browseQuery_after_search.
Qed.

(** ** The paths of a mutation *)

Section MutationPaths.

Context {E : Engine} {B : BlobStore}.

Lemma insertRow_tail (this : ClientDatabaseManager) (tableName : string)
  (values : RowValueMap) (databaseId : option string) (db : DbRef) (info : InfoRef)
  (w : World) :
  getDatabase this databaseId = Returned db ->
  getDatabaseInfo this databaseId = Returned info ->
  insertRow this tableName values databaseId w
  = mutationTail db info (insertStatement tableName values) w.
Proof.
  intros Hdb Hinfo. unfold insertRow. unfold andThen at 1 2, lift. rewrite Hdb, Hinfo.
  unfold mutationTail, insertStatement.
  now destruct (Nat.eqb (List.length (usableEntries values)) 0).
Qed.

Lemma updateRow_tail (this : ClientDatabaseManager) (tableName : string)
  (identifier : option RowIdentifier) (values : RowValueMap)
  (databaseId : option string) (db : DbRef) (info : InfoRef) (w : World) :
  getDatabase this databaseId = Returned db ->
  getDatabaseInfo this databaseId = Returned info ->
  usableEntries values <> [] ->
  clause (buildWhereClause identifier) <> "" ->
  updateRow this tableName identifier values databaseId w
  = mutationTail db info (updateStatement tableName identifier values) w.
Proof.
  intros Hdb Hinfo Hsome Hclause.
  unfold updateRow. unfold andThen at 1 2, lift. rewrite Hdb, Hinfo.
  rewrite (length_nonzero _ Hsome).
  apply String.eqb_neq in Hclause. now rewrite Hclause.
Qed.

Lemma deleteRow_tail (this : ClientDatabaseManager) (tableName : string)
  (identifier : option RowIdentifier) (databaseId : option string)
  (db : DbRef) (info : InfoRef) (w : World) :
  getDatabase this databaseId = Returned db ->
  getDatabaseInfo this databaseId = Returned info ->
  clause (buildWhereClause identifier) <> "" ->
  deleteRow this tableName identifier databaseId w
  = mutationTail db info (deleteStatement tableName identifier) w.
Proof.
  intros Hdb Hinfo Hclause.
  unfold deleteRow. unfold andThen at 1 2, lift. rewrite Hdb, Hinfo.
  apply String.eqb_neq in Hclause. now rewrite Hclause.
Qed.

Lemma tail_persists (db : DbRef) (info : InfoRef)
  (statement : string * option (list SqlValue)) (w : World) (d1 d2 d3 : DB)
  (buffer : list Byte.byte) :
  db_exec "BEGIN TRANSACTION;" (w_db w db) = (None, d1) ->
  db_run (fst statement) (snd statement) d1 = (None, d2) ->
  db_exec "COMMIT;" d2 = (None, d3) ->
  db_export d3 = inr buffer ->
  fst (idb_put (storedImage (w_info w info) buffer) (w_idb w)) = None ->
  persisted db info statement d3 buffer w (mutationTail db info statement w).
Proof.
  intros Hbegin Hrun Hcommit Hexport Hput. unfold persisted, committedCalls, storedImage in *.
  run_tail. rewrite Hbegin. cbn [fst snd w_db w_info w_idb w_calls setDb setInfo setIdb logCall].
  rewrite update_same, Hrun. cbn [fst snd w_db w_info w_idb w_calls setDb setInfo setIdb logCall].
  rewrite update_same, Hcommit.
  cbn [fst snd w_db w_info w_idb w_calls setDb setInfo setIdb logCall].
  rewrite update_same, Hexport.
  cbn [fst snd w_db w_info w_idb w_calls setDb setInfo setIdb logCall].
  rewrite Hput. cbn [fst snd w_db w_info w_idb w_calls setDb setInfo setIdb logCall].
  rewrite !update_same. cbn [size id].
  repeat split. now rewrite <- !app_assoc.
Qed.

Lemma tail_unpersisted (db : DbRef) (info : InfoRef)
  (statement : string * option (list SqlValue)) (w : World) (d1 d2 d3 : DB) (e : string) :
  db_exec "BEGIN TRANSACTION;" (w_db w db) = (None, d1) ->
  db_run (fst statement) (snd statement) d1 = (None, d2) ->
  db_exec "COMMIT;" d2 = (None, d3) ->
  (db_export d3 = inl e \/
   exists buffer e0,
     db_export d3 = inr buffer /\
     fst (idb_put (storedImage (w_info w info) buffer) (w_idb w)) = Some e0 /\
     e = "Failed to store database: " ++ e0) ->
  committedUnpersisted db info statement e w (mutationTail db info statement w) /\
  w_db (snd (mutationTail db info statement w)) db = snd (db_exec "ROLLBACK;" d3).
Proof.
  intros Hbegin Hrun Hcommit Hfail. unfold committedUnpersisted, committedCalls, storedImage in *.
  run_tail. rewrite Hbegin. cbn [fst snd w_db w_info w_idb w_calls setDb setInfo setIdb logCall].
  rewrite update_same, Hrun. cbn [fst snd w_db w_info w_idb w_calls setDb setInfo setIdb logCall].
  rewrite update_same, Hcommit.
  cbn [fst snd w_db w_info w_idb w_calls setDb setInfo setIdb logCall].
  rewrite update_same.
  destruct Hfail as [Hexport | (buffer & e0 & Hexport & Hput & ->)]; rewrite Hexport;
    cbn [fst snd w_db w_info w_idb w_calls setDb setInfo setIdb logCall];
    rewrite ?Hput; cbn [fst snd w_db w_info w_idb w_calls setDb setInfo setIdb logCall];
    rewrite ?update_same;
    destruct (db_exec "ROLLBACK;" d3) as [[e' | ] d4];
    cbn [fst snd w_db w_info w_idb w_calls setDb setInfo setIdb logCall];
    rewrite ?update_same; repeat split; now rewrite <- !app_assoc.
Qed.

Lemma tail_not_begun (db : DbRef) (info : InfoRef)
  (statement : string * option (list SqlValue)) (w : World) (d1 : DB) (e : string) :
  db_exec "BEGIN TRANSACTION;" (w_db w db) = (Some e, d1) ->
  mutationTail db info statement w
  = (Thrown e, setDb (logCall w db (CExec "BEGIN TRANSACTION;")) db d1).
Proof.
  intros Hbegin. unfold mutationTail, andThen, exec, answer. now rewrite Hbegin.
Qed.

End MutationPaths.

Section MutationOutcomes.

Context {E : Engine} {B : BlobStore}.
Context {Image : Type} (image : DB -> Image) (savepoint : DB -> option Image).
Hypothesis engine_laws : Transactional image savepoint.

(** X5: when the engine accepts BEGIN, the statement and COMMIT, and the
    export and the blob store succeed, each mutator returns having sent
    exactly BEGIN, its statement, COMMIT and the export; the image exported
    after COMMIT is put in the blob store under the id of the database, and
    the size of the database info becomes the length of that image. *)
Theorem mutation_commits_and_persists (this : ClientDatabaseManager)
  (databaseId : option string) (db : DbRef) (info : InfoRef) (w : World) (d1 : DB) :
  getDatabase this databaseId = Returned db ->
  getDatabaseInfo this databaseId = Returned info ->
  db_exec "BEGIN TRANSACTION;" (w_db w db) = (None, d1) ->
  (forall tableName values d3 buffer,
     accepted d1 (insertStatement tableName values) d3 buffer w info ->
     persisted db info (insertStatement tableName values) d3 buffer w
       (insertRow this tableName values databaseId w)) /\
  (forall tableName identifier values d3 buffer,
     usableEntries values <> [] ->
     clause (buildWhereClause identifier) <> "" ->
     accepted d1 (updateStatement tableName identifier values) d3 buffer w info ->
     persisted db info (updateStatement tableName identifier values) d3 buffer w
       (updateRow this tableName identifier values databaseId w)) /\
  (forall tableName identifier d3 buffer,
     clause (buildWhereClause identifier) <> "" ->
     accepted d1 (deleteStatement tableName identifier) d3 buffer w info ->
     persisted db info (deleteStatement tableName identifier) d3 buffer w
       (deleteRow this tableName identifier databaseId w)).
Proof.
  intros Hdb Hinfo Hbegin. split; [ | split].
  - intros tableName values d3 buffer (d2 & Hrun & Hcommit & Hexport & Hput).
    rewrite (insertRow_tail _ _ _ _ _ _ _ Hdb Hinfo).
    now apply tail_persists with (d1 := d1) (d2 := d2).
  - intros tableName identifier values d3 buffer Hsome Hclause
      (d2 & Hrun & Hcommit & Hexport & Hput).
    rewrite (updateRow_tail _ _ _ _ _ _ _ _ Hdb Hinfo Hsome Hclause).
    now apply tail_persists with (d1 := d1) (d2 := d2).
  - intros tableName identifier d3 buffer Hclause (d2 & Hrun & Hcommit & Hexport & Hput).
    rewrite (deleteRow_tail _ _ _ _ _ _ _ Hdb Hinfo Hclause).
    now apply tail_persists with (d1 := d1) (d2 := d2).
Qed.

Lemma unpersisted_keeps_commit (db : DbRef) (info : InfoRef)
  (statement : string * option (list SqlValue)) (w : World) (d1 d3 : DB) (e : string) :
  db_exec "BEGIN TRANSACTION;" (w_db w db) = (None, d1) ->
  committedThenFailed d1 statement d3 e w info ->
  committedUnpersisted db info statement e w (mutationTail db info statement w) /\
  (savepoint d3 = None ->
   image (w_db (snd (mutationTail db info statement w)) db) = image d3).
Proof.
  intros Hbegin (d2 & Hrun & Hcommit & Hfail).
  destruct (tail_unpersisted db info statement w d1 d2 d3 e Hbegin Hrun Hcommit Hfail)
    as [Hun Hdb].
  split; [exact Hun | ]. intros Hclosed. rewrite Hdb.
  now apply (rollback_idle _ _ engine_laws).
Qed.

(** X6: when the export or the put of the image fails after COMMIT was
    accepted, each mutator sends ROLLBACK after the COMMIT and raises the
    error of the persistence, leaving the size of the database info as it
    was; with an engine whose COMMIT closed the transaction, the ROLLBACK
    undoes nothing and the committed change stays in the database. *)
Theorem failed_persistence_keeps_commit (this : ClientDatabaseManager)
  (databaseId : option string) (db : DbRef) (info : InfoRef) (w : World) (d1 : DB) :
  getDatabase this databaseId = Returned db ->
  getDatabaseInfo this databaseId = Returned info ->
  db_exec "BEGIN TRANSACTION;" (w_db w db) = (None, d1) ->
  (forall tableName values d3 e,
     committedThenFailed d1 (insertStatement tableName values) d3 e w info ->
     committedUnpersisted db info (insertStatement tableName values) e w
       (insertRow this tableName values databaseId w) /\
     (savepoint d3 = None ->
      image (w_db (snd (insertRow this tableName values databaseId w)) db) = image d3)) /\
  (forall tableName identifier values d3 e,
     usableEntries values <> [] ->
     clause (buildWhereClause identifier) <> "" ->
     committedThenFailed d1 (updateStatement tableName identifier values) d3 e w info ->
     committedUnpersisted db info (updateStatement tableName identifier values) e w
       (updateRow this tableName identifier values databaseId w) /\
     (savepoint d3 = None ->
      image (w_db (snd (updateRow this tableName identifier values databaseId w)) db)
      = image d3)) /\
  (forall tableName identifier d3 e,
     clause (buildWhereClause identifier) <> "" ->
     committedThenFailed d1 (deleteStatement tableName identifier) d3 e w info ->
     committedUnpersisted db info (deleteStatement tableName identifier) e w
       (deleteRow this tableName identifier databaseId w) /\
     (savepoint d3 = None ->
      image (w_db (snd (deleteRow this tableName identifier databaseId w)) db) = image d3)).
Proof.
  intros Hdb Hinfo Hbegin. split; [ | split].
  - intros tableName values d3 e Hfail.
    rewrite (insertRow_tail _ _ _ _ _ _ _ Hdb Hinfo).
    now apply unpersisted_keeps_commit with (d1 := d1).
  - intros tableName identifier values d3 e Hsome Hclause Hfail.
    rewrite (updateRow_tail _ _ _ _ _ _ _ _ Hdb Hinfo Hsome Hclause).
    now apply unpersisted_keeps_commit with (d1 := d1).
  - intros tableName identifier d3 e Hclause Hfail.
    rewrite (deleteRow_tail _ _ _ _ _ _ _ Hdb Hinfo Hclause).
    now apply unpersisted_keeps_commit with (d1 := d1).
Qed.

End MutationOutcomes.

Section RefusedBegin.

Context {E : Engine} {B : BlobStore}.

(** X7: when the engine refuses BEGIN, each mutator raises that error having
    sent nothing else, neither its statement nor a ROLLBACK, and nothing is
    persisted. *)
Theorem refused_begin_sends_nothing_else (this : ClientDatabaseManager)
  (databaseId : option string) (db : DbRef) (info : InfoRef) (w : World)
  (d1 : DB) (e : string) :
  getDatabase this databaseId = Returned db ->
  getDatabaseInfo this databaseId = Returned info ->
  db_exec "BEGIN TRANSACTION;" (w_db w db) = (Some e, d1) ->
  let refused := (Thrown e, setDb (logCall w db (CExec "BEGIN TRANSACTION;")) db d1) in
  (forall tableName values, insertRow this tableName values databaseId w = refused) /\
  (forall tableName identifier values,
     usableEntries values <> [] ->
     clause (buildWhereClause identifier) <> "" ->
     updateRow this tableName identifier values databaseId w = refused) /\
  (forall tableName identifier,
     clause (buildWhereClause identifier) <> "" ->
     deleteRow this tableName identifier databaseId w = refused).
Proof.
  intros Hdb Hinfo Hbegin refused. subst refused. split; [ | split].
  - intros. rewrite (insertRow_tail _ _ _ _ _ _ _ Hdb Hinfo). now apply tail_not_begun.
  - intros tableName identifier values Hsome Hclause.
    rewrite (updateRow_tail _ _ _ _ _ _ _ _ Hdb Hinfo Hsome Hclause).
    now apply tail_not_begun.
  - intros tableName identifier Hclause.
    rewrite (deleteRow_tail _ _ _ _ _ _ _ Hdb Hinfo Hclause). now apply tail_not_begun.
Qed.

End RefusedBegin.

(** ** What the read operations return and raise *)

Lemma whileStepBelow_counts (maxRows : Z) (st : Statement) (pending : list JsObject) :
  forall (rowCount : Z) (rows : list (list JsValue)) rowCount' rows',
    fst (whileStepBelow maxRows st pending rowCount rows) = Returned (rowCount', rows') ->
    (Z.of_nat (List.length rows') - Z.of_nat (List.length rows) = rowCount' - rowCount)%Z /\
    (rowCount <= rowCount' <= Z.max rowCount maxRows)%Z.
Proof.
  induction pending as [ | r rest IH]; intros rowCount rows rowCount' rows';
    cbn [whileStepBelow].
  - cbn [fst]. destruct (endOfRows st); [ | discriminate]. intros [= <- <-]. lia.
  - destruct (Z.ltb_spec rowCount maxRows) as [Hlt | Hge].
    + intros H. apply IH in H. rewrite length_app in H. cbn [List.length] in H. lia.
    + cbn [fst]. intros [= <- <-]. lia.
Qed.

Lemma configured_ceiling (this : ClientDatabaseManager) :
  Configured this -> (100 <= maxQueryResultRows this)%Z.
Proof.
  induction 1; cbn [maxQueryResultRows setMaxQueryResultRows setMemoryOptimizations
                      setAllowLargeFiles select forget]; lia.
Qed.

Section Reads.

Context {E : Engine} {B : BlobStore}.

Lemma executeQuery_bounded (this : ClientDatabaseManager) (query : string)
  (databaseId : option string) (w : World) (r : QueryResult) :
  fst (executeQuery this query databaseId w) = Returned r ->
  (Z.of_nat (List.length (rows r)) <= Z.max 1 (queryCeiling this))%Z /\
  rowCount r = JNumber (Z.of_nat (List.length (rows r))).
Proof.
  unfold executeQuery, andThen, lift, tryCatch, prepare, viaOutcome, lift, ret, throw.
  destruct (getDatabase this databaseId) as [db | e0]; cbn [fst snd]; [ | discriminate].
  destruct (db_compile query (w_db w db)); cbn [fst snd]; [discriminate | ].
  set (stmt := openStatement db query _).
  destruct (step stmt) as [[[ | ] | e1] st1] eqn:Hstep; cbn [fst snd]; try discriminate.
  - destruct (whileStepBelow _ _ _ _ _) as [[[rowCount' rows'] | e2] st2] eqn:Hloop;
      cbn [fst snd]; [ | discriminate].
    pose proof (whileStepBelow_counts _ _ _ _ _ rowCount' rows'
                  ltac:(rewrite Hloop; reflexivity)) as [Hlen Hcount].
    cbn [List.length] in Hlen.
    destruct (rowCount' >=? queryCeiling this)%Z; cbn [fst snd].
    + destruct (fst (step st2)); cbn [fst snd]; [ | discriminate].
      intros [= <-]. cbn [rows rowCount]. split; [lia | reflexivity].
    + intros [= <-]. cbn [rows rowCount]. split; [lia | reflexivity].
  - intros [= <-]. cbn [rows rowCount List.length]. split; [lia | reflexivity].
Qed.

(** X8: with memory optimisations enabled and a ceiling
    [maxQueryResultRows] that is a whole number, [executeQuery] never returns
    more rows than the ceiling, or one row when the ceiling is below one (the
    first row is collected before the ceiling is compared), whatever the
    engine answers; the row count it reports is the number of rows it
    returns.  A manager that was configured through its setters, the ceiling
    set to whole numbers, has a ceiling of at least 100, and so never
    returns more rows than [maxQueryResultRows]. *)
Theorem executeQuery_never_exceeds_ceiling (this : ClientDatabaseManager)
  (query : string) (databaseId : option string) (w : World) (r : QueryResult) :
  useMemoryOptimizations this = true ->
  fst (executeQuery this query databaseId w) = Returned r ->
  (Z.of_nat (List.length (rows r)) <= Z.max 1 (maxQueryResultRows this))%Z /\
  rowCount r = JNumber (Z.of_nat (List.length (rows r))) /\
  (Configured this ->
   (100 <= maxQueryResultRows this)%Z /\
   (Z.of_nat (List.length (rows r)) <= maxQueryResultRows this)%Z).
Proof.
  intros Hopt Hr.
  destruct (executeQuery_bounded this query databaseId w r Hr) as [Hbound Hcount].
  unfold queryCeiling in Hbound. rewrite Hopt in Hbound.
  split; [exact Hbound | split; [exact Hcount | ]].
  intros Hconf. pose proof (configured_ceiling this Hconf) as Hceiling.
  split; [exact Hceiling | lia].
Qed.

(** X9: with memory optimisations disabled, [executeQuery] returns every row
    of a result shorter than [MAX_SAFE_INTEGER] and reports their number as
    the total. *)
Theorem executeQuery_unlimited (this : ClientDatabaseManager) (query : string)
  (databaseId : option string) (db : DbRef) (w : World) (result : list JsObject) :
  getDatabase this databaseId = Returned db ->
  yields (w_db w db) query [] result ->
  useMemoryOptimizations this = false ->
  (Z.of_nat (List.length result) < MAX_SAFE_INTEGER)%Z ->
  exists r,
    fst (executeQuery this query databaseId w) = Returned r /\
    rows r = map Object_values result /\
    totalCount r = Some (JNumber (Z.of_nat (List.length result))).
Proof.
  intros Hdb Hyields Hopt Hshort.
  assert (Hceiling : queryCeiling this = MAX_SAFE_INTEGER)
    by (unfold queryCeiling; now rewrite Hopt).
  assert (Hpos : (1 <= MAX_SAFE_INTEGER)%Z) by (vm_compute; discriminate).
  rewrite (executeQuery_result this query databaseId db w result Hdb Hyields)
    by (rewrite Hceiling; exact Hpos).
  rewrite Hceiling. eexists; split; [reflexivity | ].
  unfold queryResultOf; cbn [rows totalCount]. split.
  - rewrite firstn_all2 by lia. reflexivity.
  - destruct (Z.leb_spec MAX_SAFE_INTEGER (Z.of_nat (List.length result))); [lia | reflexivity].
Qed.

End Reads.

Section ReadErrors.

Context {E : Engine} {B : BlobStore}.

Lemma getTableColumns_error (this : ClientDatabaseManager) (tableName : string)
  (databaseId : option string) (db : DbRef) (w : World) (e : string) :
  getDatabase this databaseId = Returned db ->
  fst (getTableColumns this tableName databaseId w) = Thrown e ->
  e = "Failed to retrieve columns for table " ++ tableName.
Proof.
  intros Hdb. unfold getTableColumns. rewrite Hdb, andThen_lift_returned. unfold_read.
  split_matches; cbn [fst]; intros H; try discriminate; now injection H.
Qed.

Lemma getTables_error (this : ClientDatabaseManager)
  (databaseId : option string) (db : DbRef) (w : World) (e : string) :
  getDatabase this databaseId = Returned db ->
  fst (getTables this databaseId w) = Thrown e ->
  e = "Failed to retrieve tables from database".
Proof.
  intros Hdb. unfold getTables. rewrite Hdb, andThen_lift_returned. unfold_read.
  split_matches; cbn [fst]; intros H; try discriminate; now injection H.
Qed.

Lemma getTableData_error (this : ClientDatabaseManager) (tableName : string)
  (limitArg offsetArg : option Z) (databaseId : option string) (db : DbRef)
  (w : World) (e : string) :
  getDatabase this databaseId = Returned db ->
  fst (getTableData this tableName limitArg offsetArg databaseId w) = Thrown e ->
  e = "Failed to retrieve data from table " ++ tableName.
Proof.
  intros Hdb. unfold getTableData. rewrite Hdb, andThen_lift_returned. unfold_read.
  destruct (negb (useMemoryOptimizations this) || _); unfold_read;
    split_matches; cbn [fst]; intros H; try discriminate; now injection H.
Qed.

Lemma executeQuery_error (this : ClientDatabaseManager) (query : string)
  (databaseId : option string) (db : DbRef) (w : World) (e : string) :
  getDatabase this databaseId = Returned db ->
  fst (executeQuery this query databaseId w) = Thrown e ->
  exists e0,
    e = "SQL Error: " ++ (if instanceofError e0 then e0 else "Unknown error") /\
    (db_compile query (w_db w db) = Some e0 \/
     cur_failure (db_eval query [] (w_db w db)) = Some e0).
Proof.
  intros Hdb. unfold executeQuery. rewrite Hdb, andThen_lift_returned. unfold_read.
  destruct (db_compile query (w_db w db)) as [e0 | ] eqn:Hcompile; cbn [fst snd].
  - intros [= <-]. exists e0. split; [reflexivity | now left].
  - set (stmt := openStatement db query _).
    assert (Hfail : st_failure stmt = cur_failure (db_eval query [] (w_db w db)))
      by reflexivity.
    assert (Hstep : forall st e1, st_failure st = st_failure stmt ->
                                  fst (step st) = Thrown e1 ->
                                  cur_failure (db_eval query [] (w_db w db)) = Some e1).
    { intros st e1 Hsame. unfold step, endOfRows. rewrite Hsame, Hfail.
      destruct (st_pending st); cbn [fst]; [ | discriminate].
      destruct (cur_failure _); [now intros [= ->] | discriminate]. }
    assert (Hkeep : forall st, st_failure (snd (step st)) = st_failure st).
    { intros st. unfold step. now destruct (st_pending st). }
    destruct (fst (step stmt)) as [[ | ] | e1] eqn:H1; cbn [fst snd].
    + assert (Hloop : forall m p c rs,
                 st_failure (snd (whileStepBelow m (snd (step stmt)) p c rs))
                 = st_failure stmt
                 /\ forall e2, fst (whileStepBelow m (snd (step stmt)) p c rs) = Thrown e2 ->
                               cur_failure (db_eval query [] (w_db w db)) = Some e2).
      { intros m p. induction p as [ | r rest IH]; intros c rs; cbn [whileStepBelow].
        - cbn [fst snd moveTo st_failure]. rewrite Hkeep. split; [reflexivity | ].
          unfold endOfRows. rewrite Hkeep, Hfail.
          destruct (cur_failure _); [now intros e2 [= ->] | discriminate].
        - destruct (c <? m)%Z; [apply IH | ].
          cbn [fst snd moveTo st_failure]. rewrite Hkeep. split; [reflexivity | discriminate]. }
      match goal with
      | |- context [whileStepBelow ?m ?s ?p ?c ?rs] =>
          destruct (Hloop m p c rs) as [Hst2 Hthrown];
          destruct (whileStepBelow m s p c rs) as [[[rowCount' rows'] | e2] st2]
      end; cbn [fst snd] in *.
      * destruct (rowCount' >=? queryCeiling this)%Z; cbn [fst snd]; [ | discriminate].
        destruct (fst (step st2)) as [b | e3] eqn:H3; cbn [fst snd]; [discriminate | ].
        intros [= <-]. exists e3. split; [reflexivity | right].
        now apply (Hstep st2).
      * intros [= <-]. exists e2. split; [reflexivity | right]. now apply Hthrown.
    + discriminate.
    + intros [= <-]. exists e1. split; [reflexivity | right]. now apply (Hstep stmt).
Qed.

Lemma executeQuery_refused (this : ClientDatabaseManager) (query : string)
  (databaseId : option string) (db : DbRef) (w : World) (e0 : string) :
  getDatabase this databaseId = Returned db ->
  db_compile query (w_db w db) = Some e0 ->
  fst (executeQuery this query databaseId w)
  = Thrown ("SQL Error: " ++ (if instanceofError e0 then e0 else "Unknown error")).
Proof.
  intros Hdb Hcompile. unfold executeQuery. rewrite Hdb, andThen_lift_returned.
  unfold tryCatch, andThen, prepare. rewrite Hcompile. reflexivity.
Qed.

Lemma unresolved_database (this : ClientDatabaseManager) (databaseId : option string)
  (e0 : string) {A : Type} (k : DbRef -> M A) (w : World) :
  getDatabase this databaseId = Thrown e0 ->
  andThen (lift (getDatabase this databaseId)) k w = (Thrown e0, w).
Proof. intros Hdb. now rewrite Hdb. Qed.

(** X10: a read operation on a database that cannot be resolved raises the
    error of [getDatabase] as it is and calls no engine.  Past that point,
    whatever the engine throws, [getTables], [getTableColumns] and
    [getTableData] raise their own fixed message instead.  [executeQuery]
    raises only what the engine threw when the statement was prepared or
    stepped: behind the prefix [SQL Error: ] it puts the message of that
    value when it is an [Error] object and the text [Unknown error] when it
    is anything else; a statement the engine refuses to prepare is raised in
    this way. *)
Theorem read_operations_errors (this : ClientDatabaseManager) (tableName query : string)
  (limitArg offsetArg : option Z) (databaseId : option string) (w : World) :
  (forall e0, getDatabase this databaseId = Thrown e0 ->
     getTables this databaseId w = (Thrown e0, w) /\
     getTableColumns this tableName databaseId w = (Thrown e0, w) /\
     getTableData this tableName limitArg offsetArg databaseId w = (Thrown e0, w) /\
     executeQuery this query databaseId w = (Thrown e0, w)) /\
  (forall db e, getDatabase this databaseId = Returned db ->
     (fst (getTables this databaseId w) = Thrown e ->
      e = "Failed to retrieve tables from database") /\
     (fst (getTableColumns this tableName databaseId w) = Thrown e ->
      e = "Failed to retrieve columns for table " ++ tableName) /\
     (fst (getTableData this tableName limitArg offsetArg databaseId w) = Thrown e ->
      e = "Failed to retrieve data from table " ++ tableName) /\
     (fst (executeQuery this query databaseId w) = Thrown e ->
      exists e0,
        (db_compile query (w_db w db) = Some e0 \/
         cur_failure (db_eval query [] (w_db w db)) = Some e0) /\
        (instanceofError e0 = true -> e = "SQL Error: " ++ e0) /\
        (instanceofError e0 = false -> e = "SQL Error: Unknown error")) /\
     (db_compile query (w_db w db) = Some e ->
      fst (executeQuery this query databaseId w)
      = Thrown ("SQL Error: " ++ (if instanceofError e then e else "Unknown error")))).
Proof.
  split.
  - intros e0 Hdb. repeat split.
    + unfold getTables. now apply unresolved_database.
    + unfold getTableColumns. now apply unresolved_database.
    + unfold getTableData. now apply unresolved_database.
    + unfold executeQuery. now apply unresolved_database.
  - intros db e Hdb.
    split; [now apply getTables_error with (db := db) | ].
    split; [now apply getTableColumns_error with (db := db) | ].
    split; [now apply getTableData_error with (db := db) | ].
    split.
    + intros Hthrown.
      destruct (executeQuery_error this query databaseId db w e Hdb Hthrown)
        as (e0 & He & Hfrom).
      exists e0. split; [exact Hfrom | ].
      split; intros Hclass; rewrite Hclass in He; exact He.
    + now apply executeQuery_refused.
Qed.

End ReadErrors.

Section TableReads.

Context {E : Engine} {B : BlobStore}.

(** X11: the row count [getTableData] reports is the total it reports, not
    the number of rows of the page, and the offset it reports is the one it
    was given; with memory optimisations disabled it always asks the engine
    for the count and applies the requested page size unclamped. *)
Theorem getTableData_reports_the_total (this : ClientDatabaseManager) (tableName : string)
  (limitArg offsetArg : option Z) (databaseId : option string) (db : DbRef)
  (w : World) (r : QueryResult) :
  getDatabase this databaseId = Returned db ->
  fst (getTableData this tableName limitArg offsetArg databaseId w) = Returned r ->
  totalCount r = Some (rowCount r) /\
  offset r = Some (orDefault 0 offsetArg) /\
  (useMemoryOptimizations this = false ->
   limit r = Some (orDefault 100 limitArg) /\
   rowCount r = countAnswer (w_db w db) tableName).
Proof.
  intros Hdb. unfold getTableData. rewrite Hdb, andThen_lift_returned.
  fold (tableCountQuery tableName). fold (tableDataQuery tableName).
  unfold countAnswer. unfold_table_read.
  destruct (useMemoryOptimizations this); cbn [negb orb].
  - destruct (_ <=? 1000)%Z; unfold_table_read; split_matches;
      intros Hr; cbn [fst snd] in Hr; try discriminate;
      injection Hr as <-; cbn [totalCount rowCount offset limit];
      (split; [reflexivity | split; [reflexivity | intros; discriminate]]).
  - unfold_table_read; split_matches;
      intros Hr; cbn [fst snd] in Hr; try discriminate;
      injection Hr as <-; cbn [totalCount rowCount offset limit hd];
      (split; [reflexivity | split; [reflexivity | intros _; split; reflexivity]]).
Qed.

(** X12: when the engine answers the introspection statement with rows,
    [getTableColumns] returns one column record per row, in the order of the
    rows, each field read from the property of its name; [getTables] does the
    same for the tables.  Each sends its one statement and nothing else. *)
Theorem schema_reads_list_every_row (this : ClientDatabaseManager) (tableName : string)
  (databaseId : option string) (db : DbRef) (w : World) :
  getDatabase this databaseId = Returned db ->
  (forall result,
     yields (w_db w db) (tableInfoQuery tableName) [] result ->
     getTableColumns this tableName databaseId w
     = (Returned (map columnOfRow result),
        logCall w db (CPrepare (tableInfoQuery tableName)))) /\
  (forall result,
     yields (w_db w db) tablesQuery [] result ->
     getTables this databaseId w
     = (Returned (map tableOfRow result), logCall w db (CPrepare tablesQuery))).
Proof.
  intros Hdb. split; intros result [Hcompile Heval].
  - unfold getTableColumns. rewrite Hdb, andThen_lift_returned.
    fold (tableInfoQuery tableName).
    unfold tryCatch, andThen, prepare, viaOutcome, lift, ret.
    rewrite Hcompile, Heval. unfold openStatement. cbn [st_pending cur_rows cur_failure].
    rewrite whileStep_collects by reflexivity. reflexivity.
  - unfold getTables. rewrite Hdb, andThen_lift_returned.
    unfold tryCatch, andThen, prepare, viaOutcome, lift, ret.
    rewrite Hcompile, Heval. unfold openStatement. cbn [st_pending cur_rows cur_failure].
    rewrite whileStep_collects by reflexivity. reflexivity.
Qed.

End TableReads.

(** ** Filters *)

Lemma starts_with_identifier (col rest : string) : quoteIdentifier col ++ rest <> "".
Proof. intros H. apply append_empty_l in H. now apply quoteIdentifier_not_empty in H. Qed.

Lemma filter_split_nonempty {A : Type} (p : A -> bool) (l : list A) :
  l <> [] -> filter p l <> [] \/ filter (fun x => negb (p x)) l <> [].
Proof.
  destruct l as [ | x l]; [intros H; now contradiction H | intros _].
  cbn [filter]. destruct (p x); cbn [negb]; [left | right]; discriminate.
Qed.

Lemma length_positive {A : Type} (l : list A) :
  (0 <? Z.of_nat (List.length l))%Z = negb (Nat.eqb (List.length l) 0).
Proof. destruct l; [reflexivity | ]. cbn [List.length Nat.eqb negb]. apply Z.ltb_lt. lia. Qed.

(** A filter without a condition is an [in] filter without values. *)
Lemma filterCondition_silent (f : ColumnFilter) :
  filterCondition f = "" -> operator f = in_ /\ values f = [].
Proof.
  unfold filterCondition.
  destruct (operator f) eqn:Hop;
    try (intros H; exfalso; revert H;
         repeat match goal with
                | |- context [match ?x with _ => _ end] => destruct x
                end;
         apply starts_with_identifier).
  destruct (values f) as [ | v vs] eqn:Hv; [now split | ].
  rewrite length_positive. cbn [List.length Nat.eqb negb].
  intros H. exfalso. revert H.
  rewrite !length_positive.
  destruct (filter_split_nonempty isNullValue (v :: vs)) as [Hnull | Hnon];
    [discriminate | | ].
  - destruct (filter isNullValue (v :: vs)) as [ | n ns]; [now contradiction Hnull | ].
    destruct (filter (fun x => negb (isNullValue x)) (v :: vs)) as [ | m ms];
      cbn [List.length Nat.eqb negb app nth].
    + apply starts_with_identifier.
    + change (1 <? Z.of_nat 2)%Z with true. cbn [append]. discriminate.
  - destruct (filter (fun x => negb (isNullValue x)) (v :: vs)) as [ | m ms];
      [now contradiction Hnon | ].
    destruct (filter isNullValue (v :: vs)) as [ | n ns];
      cbn [List.length Nat.eqb negb app nth].
    + apply starts_with_identifier.
    + change (1 <? Z.of_nat 2)%Z with true. cbn [append]. discriminate.
Qed.

(** X13: the only filter that contributes no condition is an [in] filter
    without values; every other filter, whatever its operator and its
    values, yields a condition that is not empty. *)
Theorem filterCondition_empty_iff (f : ColumnFilter) :
  filterCondition f = "" <-> operator f = in_ /\ values f = [].
Proof.
  split.
  - apply filterCondition_silent.
  - intros [Hop Hvalues]. unfold filterCondition. rewrite Hop, Hvalues. reflexivity.
Qed.

Lemma withoutColumn_not_in (active : list ColumnFilter) (column : string) :
  ~ In column (map columnName (withoutColumn active column)).
Proof.
  unfold withoutColumn. intros Hin. apply in_map_iff in Hin as (f & Hname & Hf).
  apply filter_In in Hf as [_ Hkeep]. rewrite Hname, String.eqb_refl in Hkeep. discriminate.
Qed.

Lemma withoutColumn_keeps (active : list ColumnFilter) (column : string) (f : ColumnFilter) :
  In f active -> columnName f <> column -> In f (withoutColumn active column).
Proof.
  intros Hin Hother. unfold withoutColumn. apply filter_In. split; [exact Hin | ].
  apply String.eqb_neq in Hother. now rewrite Hother.
Qed.

Lemma NoDup_map_filter {A C : Type} (f : A -> C) (p : A -> bool) (l : list A) :
  NoDup (map f l) -> NoDup (map f (filter p l)).
Proof.
  induction l as [ | x l IH]; cbn [map filter]; intros Hnd; [constructor | ].
  inversion Hnd as [ | y ys Hnotin Hrest]; subst.
  destruct (p x); cbn [map]; [ | now apply IH].
  constructor; [ | now apply IH].
  intros Hin. apply Hnotin. apply in_map_iff in Hin as (z & Hz & Hzin).
  apply in_map_iff. exists z. split; [exact Hz | ]. now apply filter_In in Hzin.
Qed.

Lemma NoDup_map_snoc {A C : Type} (f : A -> C) (l : list A) (x : A) :
  NoDup (map f l) -> ~ In (f x) (map f l) -> NoDup (map f (l ++ [x])).
Proof.
  intros Hnd Hnotin. rewrite map_app. cbn [map].
  induction (map f l) as [ | y ys IH]; cbn [app].
  - constructor; [intros [] | constructor].
  - inversion Hnd as [ | z zs Hy Hys]; subst. constructor.
    + intros Hin. apply in_app_or in Hin as [Hin | [Heq | []]]; [now apply Hy | ].
      apply Hnotin. now left.
    + apply IH; [exact Hys | ]. intros Hin. apply Hnotin. now right.
Qed.

Section FilterDialogProperties.

Variable parseFloat : string -> option Z.

Lemma composeFilter_column (d : FilterDialog) (column : string) (newFilter : ColumnFilter) :
  composeFilter parseFloat d column = Returned newFilter ->
  columnName newFilter = column /\ operator newFilter = tempFilterOperator d.
Proof.
  unfold composeFilter.
  destruct (isBetween _); [ | destruct (isComparison _)];
    repeat match goal with
           | |- context [match ?x with _ => _ end] => destruct x
           end;
    intros H; try discriminate; injection H as <-; now split.
Qed.

Lemma applyFilter_applied (d : FilterDialog) (active updated : list ColumnFilter) :
  applyFilter parseFloat d active = Applied updated ->
  exists column newFilter,
    givenId (filteringColumn d) = Some column /\
    composeFilter parseFloat d column = Returned newFilter /\
    updated = (withoutColumn active column ++ [newFilter])%list /\
    (isIn (tempFilterOperator d) = true -> tempFilterValues d <> []).
Proof.
  unfold applyFilter.
  destruct (givenId (filteringColumn d)) as [column | ]; [ | discriminate].
  destruct (composeFilter parseFloat d column) as [newFilter | message] eqn:Hcompose;
    [ | discriminate].
  destruct (negb (isNullCheck (tempFilterOperator d)) && isIn (tempFilterOperator d)
            && Nat.eqb (List.length (tempFilterValues d)) 0) eqn:Hempty; [discriminate | ].
  destruct (negb (isNullCheck (tempFilterOperator d)) && isComparison (tempFilterOperator d)
            && Nat.eqb (List.length (values newFilter)) 0); [discriminate | ].
  intros [= <-]. exists column, newFilter.
  split; [reflexivity | split; [exact Hcompose | split; [reflexivity | ]]].
  intros Hin Hnone. rewrite Hin, Hnone in Hempty.
  destruct (tempFilterOperator d); discriminate.
Qed.

(** X14: the filter dialog keeps at most one filter per column.  When
    [applyFilter] changes the active filters, the filter it adds stands last,
    is for the column of the dialog with the operator of the dialog, replaces
    any filter that column had, and leaves the filters of the other columns
    in place; [removeFilter] leaves no filter on its column. *)
Theorem filters_stay_one_per_column (d : FilterDialog) (active : list ColumnFilter) :
  NoDup (map columnName active) ->
  (forall updated,
     applyFilter parseFloat d active = Applied updated ->
     NoDup (map columnName updated) /\
     exists column newFilter,
       givenId (filteringColumn d) = Some column /\
       updated = (withoutColumn active column ++ [newFilter])%list /\
       columnName newFilter = column /\
       operator newFilter = tempFilterOperator d /\
       forall f, In f active -> columnName f <> column -> In f updated) /\
  (forall column,
     NoDup (map columnName (removeFilter active column)) /\
     ~ In column (map columnName (removeFilter active column)) /\
     forall f, In f active -> columnName f <> column -> In f (removeFilter active column)).
Proof.
  intros Hnd. split.
  - intros updated Happlied.
    destruct (applyFilter_applied d active updated Happlied)
      as (column & newFilter & Hcolumn & Hcompose & -> & _).
    destruct (composeFilter_column d column newFilter Hcompose) as [Hname Hop].
    split.
    + apply NoDup_map_snoc.
      * unfold withoutColumn. now apply NoDup_map_filter.
      * rewrite Hname. apply withoutColumn_not_in.
    + exists column, newFilter. repeat split; try assumption.
      intros f Hin Hother. apply in_or_app. left. now apply withoutColumn_keeps.
  - intros column. unfold removeFilter. split; [ | split].
    + unfold withoutColumn. now apply NoDup_map_filter.
    + apply withoutColumn_not_in.
    + intros f. apply withoutColumn_keeps.
Qed.

Lemma filterConditions_all (filters : list ColumnFilter) :
  Forall (fun f => filterCondition f <> "") filters ->
  filterConditions filters = map filterCondition filters.
Proof.
  unfold filterConditions. induction 1 as [ | f l Hf Hl IH]; [reflexivity | ].
  cbn [map filter]. apply String.eqb_neq in Hf. rewrite Hf. cbn [negb]. now rewrite IH.
Qed.

(** X15: a filter that [applyFilter] accepts always contributes a condition
    to the browse statement.  A comparison filter it accepts carries exactly
    one value, the number read from the dialog, a [between] filter carries
    both of its bounds, and an [in] filter at least one value. *)
Theorem applied_filter_is_complete (d : FilterDialog) (active updated : list ColumnFilter) :
  applyFilter parseFloat d active = Applied updated ->
  exists column newFilter,
    updated = (withoutColumn active column ++ [newFilter])%list /\
    filterCondition newFilter <> "" /\
    (isComparison (operator newFilter) = true ->
     exists n, parseFloat (tempRangeStart d) = Some n /\ values newFilter = [FNumber n]) /\
    (operator newFilter = between ->
     exists lo hi, rangeStart newFilter = Some lo /\ rangeEnd newFilter = Some hi) /\
    (operator newFilter = in_ -> values newFilter <> []) /\
    (Forall (fun f => filterCondition f <> "") active ->
     filterConditions updated = map filterCondition updated).
Proof.
  intros Happlied.
  destruct (applyFilter_applied d active updated Happlied)
    as (column & newFilter & Hcolumn & Hcompose & -> & Hin).
  exists column, newFilter.
  assert (Hfacts :
    (isComparison (operator newFilter) = true ->
     exists n, parseFloat (tempRangeStart d) = Some n /\ values newFilter = [FNumber n]) /\
    (operator newFilter = between ->
     exists lo hi, rangeStart newFilter = Some lo /\ rangeEnd newFilter = Some hi) /\
    (operator newFilter = in_ -> values newFilter <> [])).
  { revert Hcompose. unfold composeFilter.
    destruct (tempFilterOperator d) eqn:Hop; cbn [isBetween isComparison];
      repeat match goal with
             | |- context [match ?x with _ => _ end] => destruct x eqn:?
             end;
      intros H; try discriminate; injection H as <-; cbn [operator values rangeStart rangeEnd];
      (split; [intros Hc; try discriminate Hc; eauto
              | split; [intros Hb; try discriminate Hb; eauto
                       | intros Hi; try discriminate Hi; now apply Hin]]). }
  destruct Hfacts as (Hcmp & Hbetween & Hvalues).
  assert (Hcondition : filterCondition newFilter <> "").
  { intros Hnone. apply filterCondition_silent in Hnone as [Hop Hempty].
    now apply (Hvalues Hop). }
  repeat split; try assumption.
  intros Hall. apply filterConditions_all. apply Forall_app. split.
  - unfold withoutColumn. apply Forall_forall. intros f Hf.
    apply filter_In in Hf as [Hf _]. revert f Hf. now apply Forall_forall.
  - now constructor.
Qed.

End FilterDialogProperties.

(** ** The browse request as a whole *)

Section BrowseOutcome.

Context {E : Engine} {B : BlobStore}.
Variable NumberOf : JsValue -> Z.

(** The read operations leave the databases as they are. *)
Lemma executeQuery_databases (this : ClientDatabaseManager) (query : string)
  (databaseId : option string) (w : World) :
  w_db (snd (executeQuery this query databaseId w)) = w_db w.
Proof.
  destruct (getDatabase this databaseId) as [db | e] eqn:Hdb.
  - now rewrite (executeQuery_world this query databaseId db w Hdb).
  - unfold executeQuery. now rewrite (unresolved_database this databaseId e _ w Hdb).
Qed.

Lemma getTableColumns_databases (this : ClientDatabaseManager) (tableName : string)
  (databaseId : option string) (w : World) :
  w_db (snd (getTableColumns this tableName databaseId w)) = w_db w.
Proof.
  destruct (getDatabase this databaseId) as [db | e] eqn:Hdb.
  - now rewrite (getTableColumns_world this tableName databaseId db w Hdb).
  - unfold getTableColumns. now rewrite (unresolved_database this databaseId e _ w Hdb).
Qed.

(** What [executeQuery] answers is read from the databases alone. *)
Lemma executeQuery_reads (this : ClientDatabaseManager) (query : string)
  (databaseId : option string) (w1 w2 : World) :
  w_db w1 = w_db w2 ->
  fst (executeQuery this query databaseId w1) = fst (executeQuery this query databaseId w2).
Proof.
  intros Hsame. unfold executeQuery.
  destruct (getDatabase this databaseId) as [db | e]; [ | reflexivity].
  rewrite !andThen_lift_returned.
  unfold tryCatch, andThen, prepare. rewrite Hsame.
  destruct (db_compile query (w_db w2 db)); [reflexivity | ].
  unfold viaOutcome, lift, ret, throw. cbn [fst snd].
  split_matches; reflexivity.
Qed.

(** The two queries of a composed request: a result is handed on when both
    return, and none when either one raises. *)
Lemma composed_queries_outcome (this : ClientDatabaseManager) (query count : string)
  (finish : QueryResult -> QueryResult -> option QueryResult) (w0 w : World) :
  w_db w0 = w_db w ->
  fst (tryCatch
         (andThen (executeQuery this query None)
            (fun result => andThen (executeQuery this count None)
                             (fun countResult => ret (finish result countResult))))
         (fun _ => ret None) w0)
  = match fst (executeQuery this query None w), fst (executeQuery this count None w) with
    | Returned result, Returned countResult => Returned (finish result countResult)
    | _, _ => Returned None
    end.
Proof.
  intros Hsame.
  rewrite <- (executeQuery_reads this query None w0 w Hsame).
  rewrite <- (executeQuery_reads this count None
                (snd (executeQuery this query None w0)) w)
    by (now rewrite executeQuery_databases).
  unfold tryCatch, andThen, ret.
  destruct (executeQuery this query None w0) as [[result | e] w1]; cbn [fst snd];
    [ | reflexivity].
  destruct (executeQuery this count None w1) as [[countResult | e] w2]; reflexivity.
Qed.

(** The composed request without search text. *)
Lemma fetchTableData_filtered (this : ClientDatabaseManager) (ui : ViewerState)
  (table : string) (page : Z) (search : string) (filters : list ColumnFilter) (w : World) :
  search = "" -> sortRequested ui = true \/ filters <> [] ->
  let conds := filterConditions filters in
  fst (fetchTableData NumberOf this ui table page search filters w)
  = match fst (executeQuery this (browseQuery ui table page conds) None w),
          fst (executeQuery this (countQuery table conds) None w) with
    | Returned result, Returned countResult =>
        Returned (Some {| columns := columns result;
                          rows := rows result;
                          rowCount := rowCount result;
                          totalCount :=
                            Some (orZero (JNumber (NumberOf (orZero (firstCell countResult)))));
                          limit := Some (itemsPerPage ui);
                          offset := Some ((page - 1) * itemsPerPage ui)%Z |})
    | _, _ => Returned None
    end.
Proof.
  intros Hsearch Hcomposed conds.
  unfold fetchTableData.
  rewrite (composed_request ui search filters (or_intror Hcomposed)).
  rewrite Hsearch. cbn [String.eqb negb].
  unfold andThen at 1. unfold ret at 1. cbn [app]. fold conds.
  now rewrite (composed_queries_outcome this _ _ _ w w eq_refl).
Qed.

(** The composed request with search text, over columns that were read. *)
Lemma fetchTableData_searched (this : ClientDatabaseManager) (ui : ViewerState)
  (table : string) (page : Z) (search : string) (filters : list ColumnFilter) (w : World)
  (cols : list ColumnInfo) (names : list string) :
  search <> "" ->
  fst (getTableColumns this table None w) = Returned cols ->
  map name cols = map JString names ->
  let conds := searchClause search names :: filterConditions filters in
  fst (fetchTableData NumberOf this ui table page search filters w)
  = match fst (executeQuery this (browseQuery ui table page conds) None w),
          fst (executeQuery this (countQuery table conds) None w) with
    | Returned result, Returned countResult =>
        Returned (Some {| columns := columns result;
                          rows := rows result;
                          rowCount := rowCount result;
                          totalCount :=
                            Some (orZero (JNumber (NumberOf (orZero (firstCell countResult)))));
                          limit := Some (itemsPerPage ui);
                          offset := Some ((page - 1) * itemsPerPage ui)%Z |})
    | _, _ => Returned None
    end.
Proof.
  intros Hsearch Hcols Hnames conds.
  unfold fetchTableData.
  rewrite (composed_request ui search filters (or_introl Hsearch)).
  apply String.eqb_neq in Hsearch. rewrite Hsearch. cbn [negb].
  pose proof (getTableColumns_databases this table None w) as Hsame.
  unfold tryCatch at 1. unfold andThen at 1 2.
  destruct (getTableColumns this table None w) as [[cols' | e] w1];
    cbn [fst snd] in Hcols, Hsame; [ | discriminate].
  injection Hcols as ->.
  unfold andThen at 1. unfold lift at 1.
  rewrite (mapOutcome_searchCondition _ _ _ Hnames).
  unfold ret at 1. cbn [app]. fold (searchClause search names). fold conds.
  pose proof (composed_queries_outcome this (browseQuery ui table page conds)
                (countQuery table conds)
                (fun result countResult =>
                   Some {| columns := columns result;
                           rows := rows result;
                           rowCount := rowCount result;
                           totalCount :=
                             Some (orZero (JNumber (NumberOf (orZero (firstCell countResult)))));
                           limit := Some (itemsPerPage ui);
                           offset := Some ((page - 1) * itemsPerPage ui)%Z |})
                w1 w Hsame) as Hout.
  unfold tryCatch in Hout. rewrite <- Hout.
  match goal with
  | |- fst (match ?m with _ => _ end) = fst (match ?m' with _ => _ end) =>
      change m' with m; destruct m as [[shown | e] w2]; reflexivity
  end.
Qed.

(** When the columns cannot be read, a request with search text shows
    nothing. *)
Lemma fetchTableData_no_columns (this : ClientDatabaseManager) (ui : ViewerState)
  (table : string) (page : Z) (search : string) (filters : list ColumnFilter) (w : World)
  (e : string) :
  search <> "" ->
  fst (getTableColumns this table None w) = Thrown e ->
  fst (fetchTableData NumberOf this ui table page search filters w) = Returned None.
Proof.
  intros Hsearch Hcols.
  unfold fetchTableData.
  rewrite (composed_request ui search filters (or_introl Hsearch)).
  apply String.eqb_neq in Hsearch. rewrite Hsearch. cbn [negb].
  unfold tryCatch at 1. unfold andThen at 1 2.
  destruct (getTableColumns this table None w) as [[cols' | e'] w1];
    cbn [fst] in Hcols; [discriminate | reflexivity].
Qed.

(** With an engine that refuses whatever it is asked to prepare, the read
    operations raise. *)
Lemma getTableData_refused (this : ClientDatabaseManager) (tableName : string)
  (limitArg offsetArg : option Z) (db : DbRef) (w : World) :
  getDatabase this None = Returned db ->
  (forall sql, db_compile sql (w_db w db) <> None) ->
  fst (getTableData this tableName limitArg offsetArg None w)
  = Thrown ("Failed to retrieve data from table " ++ tableName).
Proof.
  intros Hdb Hrefuses. unfold getTableData. rewrite Hdb, andThen_lift_returned.
  unfold_read.
  destruct (negb (useMemoryOptimizations this) || _); unfold_read;
    match goal with
    | |- context [db_compile ?sql (w_db w db)] =>
        pose proof (Hrefuses sql) as Hsql; destruct (db_compile sql (w_db w db));
        [reflexivity | now contradiction Hsql]
    end.
Qed.

Lemma getTableColumns_refused (this : ClientDatabaseManager) (tableName : string)
  (db : DbRef) (w : World) :
  getDatabase this None = Returned db ->
  (forall sql, db_compile sql (w_db w db) <> None) ->
  fst (getTableColumns this tableName None w)
  = Thrown ("Failed to retrieve columns for table " ++ tableName).
Proof.
  intros Hdb Hrefuses. unfold getTableColumns. rewrite Hdb, andThen_lift_returned.
  unfold_read.
  match goal with
  | |- context [db_compile ?sql (w_db w db)] =>
      pose proof (Hrefuses sql) as Hsql; destruct (db_compile sql (w_db w db));
      [reflexivity | now contradiction Hsql]
  end.
Qed.

(** X16: [fetchTableData] never raises, and what fails underneath leaves
    it with nothing to show.  It returns no result, having called no engine,
    when no database can be resolved; it returns no result when the engine
    refuses the statements it is asked to prepare, when the plain read of
    [getTableData] raises, when the columns cannot be read for the search,
    and when the data query or the count query of a composed request raises.
    It returns a result only when these went through: the result of
    [getTableData] for the plain read, and the columns and rows of the data
    query for a composed request. *)
Theorem fetchTableData_never_raises (this : ClientDatabaseManager) (ui : ViewerState)
  (table : string) (page : Z) (search : string) (filters : list ColumnFilter) (w : World) :
  let outcome := fetchTableData NumberOf this ui table page search filters w in
  (exists shown, fst outcome = Returned shown) /\
  (forall e, getDatabase this None = Thrown e -> outcome = (Returned None, w)) /\
  (forall db, getDatabase this None = Returned db ->
     (forall sql, db_compile sql (w_db w db) <> None) ->
     fst outcome = Returned None) /\
  (search = "" -> sortRequested ui = false -> filters = [] ->
   let read := getTableData this table (Some (itemsPerPage ui))
                 (Some ((page - 1) * itemsPerPage ui)%Z) None w in
   (forall e, fst read = Thrown e -> fst outcome = Returned None) /\
   (forall r, fst read = Returned r -> fst outcome = Returned (Some r))) /\
  (search <> "" ->
   (forall e, fst (getTableColumns this table None w) = Thrown e ->
              fst outcome = Returned None) /\
   (forall cols e,
      fst (getTableColumns this table None w) = Returned cols ->
      mapOutcome (searchCondition (escapeQuotes search)) cols = Thrown e ->
      fst outcome = Returned None)) /\
  (forall conds,
     (search = "" /\ (sortRequested ui = true \/ filters <> []) /\
      conds = filterConditions filters) \/
     (search <> "" /\
      exists cols names,
        fst (getTableColumns this table None w) = Returned cols /\
        map name cols = map JString names /\
        conds = searchClause search names :: filterConditions filters) ->
     let data := fst (executeQuery this (browseQuery ui table page conds) None w) in
     let count := fst (executeQuery this (countQuery table conds) None w) in
     (forall e, data = Thrown e \/ count = Thrown e -> fst outcome = Returned None) /\
     (forall result countResult,
        data = Returned result -> count = Returned countResult ->
        exists r, fst outcome = Returned (Some r) /\
                  columns r = columns result /\ rows r = rows result)).
Proof.
  intros outcome. subst outcome.
  assert (Hcomposed : forall conds,
    (search = "" /\ (sortRequested ui = true \/ filters <> []) /\
     conds = filterConditions filters) \/
    (search <> "" /\
     exists cols names,
       fst (getTableColumns this table None w) = Returned cols /\
       map name cols = map JString names /\
       conds = searchClause search names :: filterConditions filters) ->
    fst (fetchTableData NumberOf this ui table page search filters w)
    = match fst (executeQuery this (browseQuery ui table page conds) None w),
            fst (executeQuery this (countQuery table conds) None w) with
      | Returned result, Returned countResult =>
          Returned (Some {| columns := columns result;
                            rows := rows result;
                            rowCount := rowCount result;
                            totalCount :=
                              Some (orZero (JNumber (NumberOf (orZero (firstCell countResult)))));
                            limit := Some (itemsPerPage ui);
                            offset := Some ((page - 1) * itemsPerPage ui)%Z |})
      | _, _ => Returned None
      end).
  { intros conds [(Hsearch & Hsome & ->) | (Hsearch & cols & names & Hcols & Hnames & ->)].
    - now apply fetchTableData_filtered.
    - now apply fetchTableData_searched with (cols := cols). }
  split; [ | split; [ | split; [ | split; [ | split]]]].
  - unfold fetchTableData, tryCatch.
    match goal with
    | |- context [match ?m w with _ => _ end] => destruct (m w) as [[shown | e] w']
    end; unfold ret; cbn [fst]; eauto.
  - intros e Hdb.
    assert (Hquery : forall q w0, executeQuery this q None w0 = (Thrown e, w0))
      by (intros; unfold executeQuery; now apply unresolved_database).
    assert (Hcolumns : getTableColumns this table None w = (Thrown e, w))
      by (unfold getTableColumns; now apply unresolved_database).
    assert (Hdata : forall l o, getTableData this table l o None w = (Thrown e, w))
      by (intros; unfold getTableData; now apply unresolved_database).
    unfold fetchTableData, tryCatch.
    destruct (negb (String.eqb search "") || sortRequested ui
              || (0 <? Z.of_nat (List.length filters))%Z).
    + destruct (negb (String.eqb search "")).
      * unfold andThen at 1 2. now rewrite Hcolumns.
      * unfold andThen at 1 2. unfold ret at 1. now rewrite Hquery.
    + unfold andThen. now rewrite Hdata.
  - intros db Hdb Hrefuses.
    assert (Hquery : forall q, exists e, fst (executeQuery this q None w) = Thrown e).
    { intros q. destruct (db_compile q (w_db w db)) as [e | ] eqn:Hc;
        [ | now contradiction (Hrefuses q)].
      eexists. exact (executeQuery_refused this q None db w e Hdb Hc). }
    destruct (String.eqb_spec search "") as [Hempty | Hsearch].
    + destruct (sortRequested ui) eqn:Hsort;
        [ | destruct filters as [ | f rest] eqn:Hfilters].
      * rewrite (Hcomposed (filterConditions filters))
          by (left; split; [exact Hempty | split; [now left | reflexivity]]).
        destruct (Hquery (browseQuery ui table page (filterConditions filters)))
          as [e ->]. reflexivity.
      * rewrite (fetchTableData_plain NumberOf this ui table page search [] w Hempty Hsort eq_refl).
        cbn [fst]. now rewrite (getTableData_refused this table _ _ db w Hdb Hrefuses).
      * rewrite (Hcomposed (filterConditions (f :: rest)))
          by (left; split; [exact Hempty | split; [now right | reflexivity]]).
        destruct (Hquery (browseQuery ui table page (filterConditions (f :: rest))))
          as [e ->]. reflexivity.
    + apply (fetchTableData_no_columns this ui table page search filters w _ Hsearch
               (getTableColumns_refused this table db w Hdb Hrefuses)).
  - intros Hempty Hsort Hfilters read. subst read.
    rewrite (fetchTableData_plain NumberOf this ui table page search filters w Hempty Hsort Hfilters).
    cbn [fst]. split.
    + intros e ->. reflexivity.
    + intros r ->. reflexivity.
  - intros Hsearch. split.
    + intros e Hcols. now apply fetchTableData_no_columns with (e := e).
    + intros cols e Hcols Hmap.
      unfold fetchTableData.
      rewrite (composed_request ui search filters (or_introl Hsearch)).
      apply String.eqb_neq in Hsearch. rewrite Hsearch. cbn [negb].
      unfold tryCatch at 1. unfold andThen at 1 2.
      destruct (getTableColumns this table None w) as [[cols' | e'] w1];
        cbn [fst] in Hcols; [ | discriminate].
      injection Hcols as ->.
      unfold andThen at 1. unfold lift at 1. now rewrite Hmap.
  - intros conds Hconds data count. subst data count.
    rewrite (Hcomposed conds Hconds). split.
    + intros e [-> | Hcount]; [reflexivity | ].
      rewrite Hcount.
      now destruct (fst (executeQuery this (browseQuery ui table page conds) None w)).
    + intros result countResult -> ->.
      eexists. split; [reflexivity | split; reflexivity].
Qed.

End BrowseOutcome.

(** ** The selection of the current database *)

Lemma Map_get_delete {V : Type} (m : list (string * V)) (key k : string) :
  Map_get (Map_delete m key) k = if String.eqb k key then None else Map_get m k.
Proof.
  unfold Map_delete. induction m as [ | [k0 v] m IH]; cbn [filter Map_get fst].
  - now destruct (String.eqb k key).
  - destruct (String.eqb_spec k0 key) as [Hk0 | Hk0]; cbn [negb Map_get]; rewrite IH.
    + destruct (String.eqb_spec k key) as [Hk | Hk]; [reflexivity | ].
      destruct (String.eqb_spec k0 k) as [Hsame | Hsame]; [ | reflexivity].
      exfalso. apply Hk. congruence.
    + destruct (String.eqb_spec k0 k) as [Hsame | Hsame]; [ | reflexivity].
      destruct (String.eqb_spec k key) as [Hk | Hk]; [ | reflexivity].
      exfalso. apply Hk0. congruence.
Qed.

Section SelectionProperties.

Context {E : Engine} {B : BlobStore}.

Lemma selected_database (s s' : Session) (databaseId : string) (entry : DbEntry) :
  Map_get (databases (manager s)) databaseId = Some entry ->
  setCurrentDatabase s databaseId = Returned s' ->
  manager s' = select (manager s) (entry_db entry) (Some (entry_info entry)) /\
  lastSelectedDatabaseId s' = Some databaseId /\
  localStorage s' = saveLastSelectedDatabase (localStorage s) (Some databaseId).
Proof.
  intros Hentry. unfold setCurrentDatabase. rewrite Hentry. now intros [= <-].
Qed.

Lemma selected_resolves (s s' : Session) (databaseId : string) (entry : DbEntry) (db : DbRef) :
  Map_get (databases (manager s)) databaseId = Some entry ->
  entry_db entry = Some db ->
  setCurrentDatabase s databaseId = Returned s' ->
  getDatabase (manager s') None = Returned db /\
  getDatabase (manager s') (Some databaseId) = Returned db /\
  getDatabaseInfo (manager s') None = Returned (entry_info entry) /\
  getDatabaseInfo (manager s') (Some databaseId) = Returned (entry_info entry).
Proof.
  intros Hentry Hdb Hset.
  destruct (selected_database s s' databaseId entry Hentry Hset) as (-> & _ & _).
  unfold getDatabase, getDatabaseInfo, givenId.
  cbn [select currentDatabase currentDatabaseInfo databases].
  destruct (String.eqb databaseId ""); rewrite ?Hentry, ?Hdb; repeat split; reflexivity.
Qed.

(** X17: once [setCurrentDatabase] has selected a loaded database, every
    operation called without a database id acts exactly as the same operation
    called with the id of that database. *)
Theorem selection_is_the_default (s s' : Session) (databaseId : string)
  (entry : DbEntry) (db : DbRef) :
  Map_get (databases (manager s)) databaseId = Some entry ->
  entry_db entry = Some db ->
  setCurrentDatabase s databaseId = Returned s' ->
  let this := manager s' in
  let given := Some databaseId in
  getDatabase this None = Returned db /\
  (forall w, getTables this None w = getTables this given w) /\
  (forall t w, getTableColumns this t None w = getTableColumns this t given w) /\
  (forall t l o w, getTableData this t l o None w = getTableData this t l o given w) /\
  (forall q w, executeQuery this q None w = executeQuery this q given w) /\
  (forall t vs w, insertRow this t vs None w = insertRow this t vs given w) /\
  (forall t i vs w, updateRow this t i vs None w = updateRow this t i vs given w) /\
  (forall t i w, deleteRow this t i None w = deleteRow this t i given w).
Proof.
  intros Hentry Hdb Hset this given. subst this given.
  destruct (selected_resolves s s' databaseId entry db Hentry Hdb Hset)
    as (Hnone & Hgiven & Hinfo & Hinfo').
  split; [exact Hnone | ].
  repeat split; intros;
    unfold getTables, getTableColumns, getTableData, executeQuery, insertRow, updateRow,
      deleteRow;
    now rewrite ?Hnone, ?Hgiven, ?Hinfo, ?Hinfo'.
Qed.

(** X18: the selection survives a reload.  When local storage is available
    and a database with a non-empty id has been selected, a later session
    with the same databases loaded and the same local storage has that
    database selected again by [restoreLastSelectedDatabase]; when local
    storage is not available, restoring changes nothing. *)
Theorem selection_is_restored (s s' : Session) (databaseId : string) (entry : DbEntry) :
  Map_get (databases (manager s)) databaseId = Some entry ->
  setCurrentDatabase s databaseId = Returned s' ->
  (ls_available (localStorage s) = true -> databaseId <> "" ->
   forall later,
     databases (manager later) = databases (manager s') ->
     localStorage later = localStorage s' ->
     currentDatabase (manager (restoreLastSelectedDatabase later)) = entry_db entry /\
     currentDatabaseInfo (manager (restoreLastSelectedDatabase later))
     = Some (entry_info entry)) /\
  (forall later, ls_available (localStorage later) = false ->
                 restoreLastSelectedDatabase later = later).
Proof.
  intros Hentry Hset.
  destruct (selected_database s s' databaseId entry Hentry Hset) as (Hm & _ & Hls).
  split.
  - intros Havailable Hid later Hsame Hstorage.
    apply String.eqb_neq in Hid.
    assert (Hstored : localStorage later
                      = {| ls_available := true;
                           ls_lastSelectedDatabase := Some databaseId |}).
    { rewrite Hstorage, Hls. unfold saveLastSelectedDatabase, givenId.
      now rewrite Havailable, Hid. }
    assert (Hloaded : Map_get (databases (manager later)) databaseId = Some entry).
    { rewrite Hsame, Hm. exact Hentry. }
    unfold restoreLastSelectedDatabase. rewrite Hstored.
    cbn [ls_available ls_lastSelectedDatabase]. unfold givenId. rewrite Hid.
    unfold Map_has, setCurrentDatabase. rewrite Hloaded.
    cbn [manager select currentDatabase currentDatabaseInfo]. now split.
  - intros later Hnone. unfold restoreLastSelectedDatabase. now rewrite Hnone.
Qed.

End SelectionProperties.

Section RemoveDatabase.

Context {E : Engine} {B : BlobStore}.
Variable db_close : DB -> DB.
Variable idb_delete : string -> IDB -> option string * IDB.

(** The world after the database is closed and its stored image deleted. *)
Lemma removeDatabase_known (s : Session) (databaseId : string) (entry : DbEntry) (w : World) :
  Map_get (databases (manager s)) databaseId = Some entry ->
  exists s' w',
    removeDatabase db_close idb_delete s databaseId w = (Returned s', w') /\
    w_info w' = w_info w /\
    w_calls w' = w_calls w /\
    w_idb w' = snd (idb_delete databaseId (w_idb w)) /\
    databases (manager s') = Map_delete (databases (manager s)) databaseId /\
    (match currentDatabaseInfo (manager s) with
     | Some info =>
         if String.eqb (id (w_info w info)) databaseId
         then currentDatabase (manager s') = None /\
              currentDatabaseInfo (manager s') = None /\
              lastSelectedDatabaseId s' = None /\
              localStorage s' = saveLastSelectedDatabase (localStorage s) None
         else currentDatabase (manager s') = currentDatabase (manager s) /\
              currentDatabaseInfo (manager s') = Some info /\
              lastSelectedDatabaseId s' = lastSelectedDatabaseId s /\
              localStorage s' = localStorage s
     | None =>
         currentDatabase (manager s') = currentDatabase (manager s) /\
         currentDatabaseInfo (manager s') = None /\
         lastSelectedDatabaseId s' = lastSelectedDatabaseId s /\
         localStorage s' = localStorage s
     end).
Proof.
  intros Hentry. unfold removeDatabase. rewrite Hentry.
  unfold andThen, tryCatch, closeDatabase, deleteStored, ret.
  destruct (entry_db entry) as [ref | ];
    cbn [fst snd w_db w_info w_idb w_calls setDb setIdb];
    destruct (fst (idb_delete databaseId (w_idb w)));
    cbn [fst snd w_db w_info w_idb w_calls setDb setIdb forget currentDatabaseInfo];
    (destruct (currentDatabaseInfo (manager s)) as [info | ] eqn:Hcurrent;
     [destruct (String.eqb (id (w_info w info)) databaseId) | ]);
    do 2 eexists; (split; [reflexivity | ]);
    cbn [w_info w_calls w_idb manager lastSelectedDatabaseId localStorage databases
         currentDatabase currentDatabaseInfo select forget];
    repeat split; exact Hcurrent.
Qed.

(** X19: [removeDatabase] of an id that is not loaded does nothing.  For a
    loaded database it never raises, even when the stored image cannot be
    deleted; afterwards the id is unknown to [getDatabase] while every other
    loaded database is still found, and the selection is cleared, in the
    manager and in local storage, exactly when the removed database was the
    selected one. *)
Theorem removeDatabase_forgets (s : Session) (databaseId : string) (w : World) :
  (Map_get (databases (manager s)) databaseId = None ->
   removeDatabase db_close idb_delete s databaseId w = (Returned s, w)) /\
  (forall entry,
     Map_get (databases (manager s)) databaseId = Some entry ->
     exists s' w',
       removeDatabase db_close idb_delete s databaseId w = (Returned s', w') /\
       w_calls w' = w_calls w /\
       (databaseId <> "" ->
        getDatabase (manager s') (Some databaseId)
        = Thrown ("Database with ID " ++ databaseId ++ " not found")) /\
       (forall k, k <> databaseId ->
          Map_get (databases (manager s')) k = Map_get (databases (manager s)) k) /\
       (forall info,
          currentDatabaseInfo (manager s) = Some info ->
          id (w_info w info) = databaseId ->
          getDatabase (manager s') None = Thrown "No database selected" /\
          getDatabaseInfo (manager s') None = Thrown "No database selected" /\
          localStorage s' = saveLastSelectedDatabase (localStorage s) None) /\
       (forall info,
          currentDatabaseInfo (manager s) = Some info ->
          id (w_info w info) <> databaseId ->
          getDatabase (manager s') None = getDatabase (manager s) None /\
          getDatabaseInfo (manager s') None = getDatabaseInfo (manager s) None /\
          localStorage s' = localStorage s)).
Proof.
  split.
  - intros Hnone. unfold removeDatabase. now rewrite Hnone.
  - intros entry Hentry.
    destruct (removeDatabase_known s databaseId entry w Hentry)
      as (s' & w' & Hrun & _ & Hcalls & _ & Hdbs & Hselection).
    exists s', w'. split; [exact Hrun | split; [exact Hcalls | ]].
    assert (Hother : forall k, k <> databaseId ->
                Map_get (databases (manager s')) k = Map_get (databases (manager s)) k).
    { intros k Hk. rewrite Hdbs, Map_get_delete.
      apply String.eqb_neq in Hk. now rewrite Hk. }
    split; [ | split; [exact Hother | split]].
    + intros Hid. unfold getDatabase, givenId. apply String.eqb_neq in Hid. rewrite Hid.
      rewrite Hdbs, Map_get_delete, String.eqb_refl. reflexivity.
    + intros info Hinfo Hsame. rewrite Hinfo in Hselection.
      apply String.eqb_eq in Hsame. rewrite Hsame in Hselection.
      destruct Hselection as (Hdb & Hi & _ & Hls).
      unfold getDatabase, getDatabaseInfo. cbn [givenId]. now rewrite Hdb, Hi.
    + intros info Hinfo Hdiff. rewrite Hinfo in Hselection.
      apply String.eqb_neq in Hdiff. rewrite Hdiff in Hselection.
      destruct Hselection as (Hdb & Hi & _ & Hls).
      unfold getDatabase, getDatabaseInfo. cbn [givenId]. now rewrite Hdb, Hi, Hinfo.
Qed.

(** X20: the table of loaded databases stays consistent.  If every entry is
    kept under the id of its database info and the selection, when there is
    one, is an entry of the table, then this still holds after
    [setCurrentDatabase], after [removeDatabase] and after
    [restoreLastSelectedDatabase]. *)
Theorem selection_stays_loaded (s : Session) (w : World) :
  keyed w (manager s) ->
  selectionLoaded (manager s) ->
  (forall databaseId s',
     setCurrentDatabase s databaseId = Returned s' ->
     keyed w (manager s') /\ selectionLoaded (manager s')) /\
  (forall databaseId s' w',
     removeDatabase db_close idb_delete s databaseId w = (Returned s', w') ->
     keyed w' (manager s') /\ selectionLoaded (manager s')) /\
  (keyed w (manager (restoreLastSelectedDatabase s)) /\
   selectionLoaded (manager (restoreLastSelectedDatabase s))).
Proof.
  intros Hkeyed Hloaded.
  assert (Hset : forall databaseId s',
             setCurrentDatabase s databaseId = Returned s' ->
             keyed w (manager s') /\ selectionLoaded (manager s')).
  { intros databaseId s'. unfold setCurrentDatabase.
    destruct (Map_get (databases (manager s)) databaseId) as [entry | ] eqn:Hentry;
      [ | discriminate].
    intros [= <-]. cbn [manager]. split.
    - exact Hkeyed.
    - intros info. cbn [select currentDatabaseInfo currentDatabase databases].
      intros [= <-]. now exists databaseId, entry. }
  split; [exact Hset | split].
  - intros databaseId s' w'.
    destruct (Map_get (databases (manager s)) databaseId) as [entry | ] eqn:Hentry.
    + destruct (removeDatabase_known s databaseId entry w Hentry)
        as (s1 & w1 & Hrun & Hinfo & _ & _ & Hdbs & Hselection).
      rewrite Hrun. intros [= <- <-].
      assert (Hkeyed' : keyed w1 (manager s1)).
      { intros k e. rewrite Hdbs, Map_get_delete, Hinfo.
        destruct (String.eqb k databaseId); [discriminate | apply Hkeyed]. }
      split; [exact Hkeyed' | ].
      intros info Hcurrent.
      destruct (currentDatabaseInfo (manager s)) as [info0 | ] eqn:Hinfo0.
      * destruct (String.eqb_spec (id (w_info w info0)) databaseId) as [Heq | Hneq].
        -- destruct Hselection as (_ & Hnone & _). rewrite Hnone in Hcurrent. discriminate.
        -- destruct Hselection as (Hdb & Hi & _). rewrite Hi in Hcurrent.
           injection Hcurrent as <-.
           destruct (Hloaded info0 Hinfo0) as (k & e & Hk & He & Hcur).
           exists k, e. rewrite Hdbs, Map_get_delete, Hdb.
           assert (Hkid : k <> databaseId).
           { intros ->. apply Hneq. rewrite <- He. now apply Hkeyed. }
           apply String.eqb_neq in Hkid. rewrite Hkid. now repeat split.
      * destruct Hselection as (_ & Hnone & _). rewrite Hnone in Hcurrent. discriminate.
    + unfold removeDatabase. rewrite Hentry. intros [= <- <-]. now split.
  - unfold restoreLastSelectedDatabase.
    destruct (ls_available (localStorage s)); [ | now split].
    destruct (givenId _) as [lastSelected | ]; [ | now split].
    destruct (Map_has _ _); [ | now split].
    destruct (setCurrentDatabase s lastSelected) as [s' | e] eqn:Hs; [ | now split].
    now apply (Hset lastSelected).
Qed.

End RemoveDatabase.

(** * The further properties on the sample engine *)

Lemma quoting_is_injective_witness :
  quoteIdentifier "my table" = quoteIdentifier "my table" /\
  escapeQuotes "o'b" = escapeQuotes "o'b" /\
  "my table" = "my table" /\ "o'b" = "o'b".
Proof.
  split; [reflexivity | split; [reflexivity | split]].
  - exact (proj1 (quoting_is_injective "my table" "my table") eq_refl).
  - exact (proj2 (quoting_is_injective "o'b" "o'b") eq_refl).
Defined.

Lemma mutation_commits_and_persists_witness :
  let w := Sample.world Sample.twoRows in
  let began := {| Sample.table := Sample.twoRows; Sample.snapshot := Some Sample.twoRows |} in
  let statement := updateStatement "t" Sample.firstRowId [("name", JString "z")] in
  let committed :=
    {| Sample.table := (Sample.twoRows ++ [[("id", JString "z"); ("name", JNumber 1)]])%list;
       Sample.snapshot := None |} in
  getDatabase Sample.manager None = Returned 0%nat /\
  getDatabaseInfo Sample.manager None = Returned 0%nat /\
  Sample.exec "BEGIN TRANSACTION;" (w_db w 0%nat) = (None, began) /\
  accepted (E := Sample.engine) began statement committed [] w 0%nat /\
  persisted (E := Sample.engine) (B := Sample.blobStore) 0%nat 0%nat statement committed [] w
    (updateRow Sample.manager "t" Sample.firstRowId [("name", JString "z")] None w).
Proof.
  intros w began statement committed.
  assert (Haccepted : accepted (E := Sample.engine) began statement committed [] w 0%nat).
  { eexists. repeat split; reflexivity. }
  split; [reflexivity | split; [reflexivity | split; [reflexivity | split]]];
    [exact Haccepted | ].
  refine (proj1 (proj2 (mutation_commits_and_persists (E := Sample.engine)
                          Sample.manager None 0%nat 0%nat w began
                          eq_refl eq_refl eq_refl))
            "t" Sample.firstRowId [("name", JString "z")] committed [] _ _ Haccepted);
    discriminate.
Defined.

Lemma failed_persistence_keeps_commit_witness :
  let w := Scenario.worldWithFullStore Sample.twoRows in
  let began := {| Sample.table := Sample.twoRows; Sample.snapshot := Some Sample.twoRows |} in
  let statement := deleteStatement "t" Sample.firstRowId in
  let committed :=
    {| Sample.table := (Sample.twoRows ++ [[("id", JNumber 1)]])%list;
       Sample.snapshot := None |} in
  let e := "Failed to store database: QuotaExceededError" in
  getDatabase Sample.manager None = Returned 0%nat /\
  getDatabaseInfo Sample.manager None = Returned 0%nat /\
  Sample.exec "BEGIN TRANSACTION;" (w_db w 0%nat) = (None, began) /\
  committedThenFailed (E := Sample.engine) (B := Scenario.fullStore)
    began statement committed e w 0%nat /\
  committedUnpersisted (E := Sample.engine) (B := Scenario.fullStore) 0%nat 0%nat statement e w
    (deleteRow Sample.manager "t" Sample.firstRowId None w) /\
  Sample.table (w_db (snd (deleteRow Sample.manager "t" Sample.firstRowId None w)) 0%nat)
  = Sample.table committed.
Proof.
  intros w began statement committed e.
  assert (Hfailed : committedThenFailed (E := Sample.engine) (B := Scenario.fullStore)
                      began statement committed e w 0%nat).
  { eexists. split; [reflexivity | split; [reflexivity | right]].
    exists [], "QuotaExceededError". repeat split; reflexivity. }
  split; [reflexivity | split; [reflexivity | split; [reflexivity | split]]];
    [exact Hfailed | ].
  assert (Hclause : clause (buildWhereClause Sample.firstRowId) <> "") by discriminate.
  destruct (proj2 (proj2 (failed_persistence_keeps_commit (E := Sample.engine)
                            (B := Scenario.fullStore)
                            Sample.table Sample.snapshot sample_transactional
                            Sample.manager None 0%nat 0%nat w began
                            eq_refl eq_refl eq_refl))
              "t" Sample.firstRowId committed e Hclause Hfailed) as [Hun Hkept].
  split; [exact Hun | exact (Hkept eq_refl)].
Defined.

Lemma refused_begin_sends_nothing_else_witness :
  let w := Scenario.worldInTransaction Sample.twoRows in
  let e := "cannot start a transaction within a transaction" in
  getDatabase Sample.manager None = Returned 0%nat /\
  getDatabaseInfo Sample.manager None = Returned 0%nat /\
  Sample.exec "BEGIN TRANSACTION;" (w_db w 0%nat) = (Some e, w_db w 0%nat) /\
  fst (insertRow Sample.manager "t" [("name", JString "c")] None w) = Thrown e /\
  w_calls (snd (insertRow Sample.manager "t" [("name", JString "c")] None w))
  = [(0%nat, CExec "BEGIN TRANSACTION;")].
Proof.
  intros w e.
  split; [reflexivity | split; [reflexivity | split; [reflexivity | ]]].
  rewrite (proj1 (refused_begin_sends_nothing_else (E := Sample.engine)
                    Sample.manager None 0%nat 0%nat w (w_db w 0%nat) e
                    eq_refl eq_refl eq_refl) "t" [("name", JString "c")]).
  split; reflexivity.
Defined.

Lemma executeQuery_never_exceeds_ceiling_witness :
  let this := setMaxQueryResultRows Sample.manager 100 in
  let w := Sample.world (Sample.manyRows 150) in
  Configured this /\
  useMemoryOptimizations this = true /\
  exists r,
    fst (executeQuery this "SELECT * FROM t" None w) = Returned r /\
    (Z.of_nat (List.length (rows r)) <= 100)%Z.
Proof.
  intros this w.
  assert (Hconf : Configured this) by (apply configured_maxRows; apply configured_new).
  split; [exact Hconf | split; [reflexivity | ]].
  destruct (executeQuery this "SELECT * FROM t" None w) as [[r | e] w'] eqn:Hrun;
    [ | vm_compute in Hrun; discriminate Hrun].
  exists r. split; [reflexivity | ].
  refine (proj2 (proj2 (proj2 (executeQuery_never_exceeds_ceiling this "SELECT * FROM t"
                                 None w r eq_refl _)) Hconf)).
  now rewrite Hrun.
Defined.

Lemma executeQuery_unlimited_witness :
  let this := setMemoryOptimizations (setMaxQueryResultRows Sample.manager 100) false in
  let w := Sample.world (Sample.manyRows 150) in
  getDatabase this None = Returned 0%nat /\
  yields (w_db w 0%nat) "SELECT * FROM t" [] (Sample.manyRows 150) /\
  useMemoryOptimizations this = false /\
  (Z.of_nat (List.length (Sample.manyRows 150)) < MAX_SAFE_INTEGER)%Z /\
  exists r,
    fst (executeQuery this "SELECT * FROM t" None w) = Returned r /\
    rows r = map Object_values (Sample.manyRows 150) /\
    totalCount r = Some (JNumber (Z.of_nat (List.length (Sample.manyRows 150)))).
Proof.
  intros this w.
  assert (Hyields : yields (w_db w 0%nat) "SELECT * FROM t" [] (Sample.manyRows 150))
    by (split; reflexivity).
  assert (Hshort : (Z.of_nat (List.length (Sample.manyRows 150)) < MAX_SAFE_INTEGER)%Z)
    by (vm_compute; reflexivity).
  split; [reflexivity | split; [exact Hyields | split; [reflexivity | split]]];
    [exact Hshort | ].
  exact (executeQuery_unlimited this "SELECT * FROM t" None 0%nat w (Sample.manyRows 150)
           eq_refl Hyields eq_refl Hshort).
Defined.

Lemma read_operations_errors_witness :
  getDatabase newManager None = Thrown "No database selected" /\
  executeQuery newManager "SELECT 1" None (Sample.world Sample.twoRows)
  = (Thrown "No database selected", Sample.world Sample.twoRows) /\
  getDatabase Sample.manager None = Returned 0%nat /\
  fst (getTableColumns Sample.manager "t" None Scenario.refusingWorld)
  = Thrown "Failed to retrieve columns for table t" /\
  fst (executeQuery Sample.manager "SELECT 1" None Scenario.refusingWorld)
  = Thrown "SQL Error: no such table: t" /\
  fst (executeQuery Sample.manager "" None Scenario.refusingWorld)
  = Thrown "SQL Error: Unknown error".
Proof.
  split; [reflexivity | split].
  - exact (proj2 (proj2 (proj2
             (proj1 (read_operations_errors newManager "t" "SELECT 1" None None None
                       (Sample.world Sample.twoRows))
                "No database selected" eq_refl)))).
  - split; [reflexivity | split; [reflexivity | split]].
    + exact (proj2 (proj2 (proj2 (proj2
               (proj2 (read_operations_errors Sample.manager "t" "SELECT 1" None None None
                         Scenario.refusingWorld)
                  0%nat "no such table: t" eq_refl)))) eq_refl).
    + exact (proj2 (proj2 (proj2 (proj2
               (proj2 (read_operations_errors Sample.manager "t" "" None None None
                         Scenario.refusingWorld)
                  0%nat "Nothing to prepare" eq_refl)))) eq_refl).
Defined.

Lemma getTableData_reports_the_total_witness :
  let this := setMemoryOptimizations Sample.manager false in
  let w := Sample.world Sample.twoRows in
  getDatabase this None = Returned 0%nat /\
  exists r,
    fst (getTableData this "t" (Some 1) None None w) = Returned r /\
    List.length (rows r) = 1%nat /\
    rowCount r = JNumber 2 /\
    totalCount r = Some (rowCount r).
Proof.
  intros this w. split; [reflexivity | ].
  destruct (getTableData this "t" (Some 1) None None w) as [[r | e] w'] eqn:Hrun;
    [ | vm_compute in Hrun; discriminate Hrun].
  exists r. split; [reflexivity | ].
  destruct (getTableData_reports_the_total this "t" (Some 1) None None 0%nat w r eq_refl)
    as (Htotal & _ & Hplain); [now rewrite Hrun | ].
  destruct (Hplain eq_refl) as [_ Hcount].
  split; [ | split; [exact Hcount | exact Htotal]].
  vm_compute in Hrun. now injection Hrun as <- _.
Defined.

Lemma schema_reads_list_every_row_witness :
  let w := Sample.world Sample.twoRows in
  getDatabase Sample.manager None = Returned 0%nat /\
  yields (w_db w 0%nat) (tableInfoQuery "t") []
    [Sample.columnRow 0 "id"; Sample.columnRow 1 "name"] /\
  fst (getTableColumns Sample.manager "t" None w)
  = Returned (map columnOfRow [Sample.columnRow 0 "id"; Sample.columnRow 1 "name"]).
Proof.
  intros w.
  assert (Hyields : yields (w_db w 0%nat) (tableInfoQuery "t") []
                      [Sample.columnRow 0 "id"; Sample.columnRow 1 "name"])
    by (split; reflexivity).
  split; [reflexivity | split; [exact Hyields | ]].
  now rewrite (proj1 (schema_reads_list_every_row Sample.manager "t" None 0%nat w eq_refl)
                 _ Hyields).
Defined.

Lemma filterCondition_empty_iff_witness :
  let emptyIn := {| columnName := "id"; operator := in_; values := [];
                    rangeStart := None; rangeEnd := None |} in
  (operator emptyIn = in_ /\ values emptyIn = []) /\
  filterCondition emptyIn = "" /\
  filterConditions [emptyIn; Scenario.nameIsA] = [filterCondition Scenario.nameIsA].
Proof.
  intros emptyIn.
  assert (Hempty : operator emptyIn = in_ /\ values emptyIn = []) by (split; reflexivity).
  split; [exact Hempty | ].
  pose proof (proj2 (filterCondition_empty_iff emptyIn) Hempty) as Hnone.
  split; [exact Hnone | ].
  unfold filterConditions. cbn [map filter]. rewrite Hnone. reflexivity.
Defined.

Lemma filters_stay_one_per_column_witness :
  let active := [Scenario.idBelowFive; Scenario.nameIsA] in
  NoDup (map columnName active) /\
  exists updated newFilter,
    applyFilter Scenario.parseDecimal Scenario.atLeastTen active = Applied updated /\
    updated = (withoutColumn active "id" ++ [newFilter])%list /\
    columnName newFilter = "id" /\
    NoDup (map columnName updated).
Proof.
  intros active.
  assert (Hnd : NoDup (map columnName active)).
  { cbn [map active columnName Scenario.idBelowFive Scenario.nameIsA].
    constructor; [intros [H | []]; discriminate H | ].
    constructor; [intros [] | constructor]. }
  split; [exact Hnd | ].
  destruct (applyFilter Scenario.parseDecimal Scenario.atLeastTen active)
    as [ | message | updated] eqn:Happly; try (vm_compute in Happly; discriminate Happly).
  destruct (proj1 (filters_stay_one_per_column Scenario.parseDecimal Scenario.atLeastTen
                     active Hnd) updated Happly)
    as (Hnd' & column & newFilter & Hcolumn & Hupdated & Hname & _).
  injection Hcolumn as <-.
  exists updated, newFilter. split; [reflexivity | split; [exact Hupdated | ]].
  split; [exact Hname | exact Hnd'].
Defined.

Lemma applied_filter_is_complete_witness :
  let active := [Scenario.idBelowFive; Scenario.nameIsA] in
  exists updated column newFilter,
    applyFilter Scenario.parseDecimal Scenario.atLeastTen active = Applied updated /\
    updated = (withoutColumn active column ++ [newFilter])%list /\
    filterCondition newFilter <> "".
Proof.
  intros active.
  destruct (applyFilter Scenario.parseDecimal Scenario.atLeastTen active)
    as [ | message | updated] eqn:Happly; try (vm_compute in Happly; discriminate Happly).
  destruct (applied_filter_is_complete Scenario.parseDecimal Scenario.atLeastTen
              active updated Happly)
    as (column & newFilter & Hupdated & Hcondition & _).
  exists updated, column, newFilter.
  split; [reflexivity | split; [exact Hupdated | exact Hcondition]].
Defined.

Lemma fetchTableData_never_raises_witness :
  getDatabase newManager None = Thrown "No database selected" /\
  fetchTableData Sample.numberOf newManager Sample.plainView "t" 1 "a" []
    (Sample.world Sample.twoRows)
  = (Returned None, Sample.world Sample.twoRows) /\
  getDatabase Sample.manager None = Returned 0%nat /\
  (forall sql, db_compile sql (w_db Scenario.refusingWorld 0%nat) <> None) /\
  fst (fetchTableData Sample.numberOf Sample.manager Sample.plainView "t" 1 "a" []
         Scenario.refusingWorld)
  = Returned None /\
  fst (fetchTableData Sample.numberOf Sample.manager Sample.plainView "t" 1 "" []
         Scenario.refusingWorld)
  = Returned None.
Proof.
  assert (Hrefuses : forall sql, db_compile sql (w_db Scenario.refusingWorld 0%nat) <> None).
  { intros sql. cbn [db_compile Scenario.refusingEngine].
    destruct (String.eqb sql ""); discriminate. }
  split; [reflexivity | split; [ | split; [reflexivity | split; [exact Hrefuses | split]]]].
  - exact (proj1 (proj2 (fetchTableData_never_raises Sample.numberOf newManager
                           Sample.plainView "t" 1 "a" [] (Sample.world Sample.twoRows)))
             "No database selected" eq_refl).
  - exact (proj1 (proj2 (proj2 (fetchTableData_never_raises Sample.numberOf Sample.manager
                                  Sample.plainView "t" 1 "a" [] Scenario.refusingWorld)))
             0%nat eq_refl Hrefuses).
  - exact (proj1 (proj2 (proj2 (fetchTableData_never_raises Sample.numberOf Sample.manager
                                  Sample.plainView "t" 1 "" [] Scenario.refusingWorld)))
             0%nat eq_refl Hrefuses).
Defined.

Lemma selection_is_the_default_witness :
  let entry := {| entry_db := Some 1%nat; entry_info := 1%nat |} in
  Map_get (databases (manager Scenario.session)) "2_other.db" = Some entry /\
  entry_db entry = Some 1%nat /\
  exists s',
    setCurrentDatabase Scenario.session "2_other.db" = Returned s' /\
    getDatabase (manager s') None = Returned 1%nat /\
    executeQuery (manager s') "SELECT * FROM t" None Scenario.twoDatabases
    = executeQuery (manager s') "SELECT * FROM t" (Some "2_other.db") Scenario.twoDatabases.
Proof.
  intros entry. split; [reflexivity | split; [reflexivity | ]].
  eexists. split; [reflexivity | ].
  pose proof (selection_is_the_default (E := Sample.engine) (B := Sample.blobStore)
                Scenario.session _ "2_other.db" entry 1%nat eq_refl eq_refl eq_refl)
    as (Hdb & _ & _ & _ & Hquery & _).
  split; [exact Hdb | apply Hquery].
Defined.

Lemma selection_is_restored_witness :
  let entry := {| entry_db := Some 1%nat; entry_info := 1%nat |} in
  Map_get (databases (manager Scenario.session)) "2_other.db" = Some entry /\
  ls_available (localStorage Scenario.session) = true /\
  "2_other.db" <> "" /\
  exists s',
    setCurrentDatabase Scenario.session "2_other.db" = Returned s' /\
    let later := {| manager := manager Scenario.session;
                    lastSelectedDatabaseId := None;
                    localStorage := localStorage s' |} in
    currentDatabase (manager (restoreLastSelectedDatabase later)) = Some 1%nat /\
    currentDatabaseInfo (manager (restoreLastSelectedDatabase later)) = Some 1%nat.
Proof.
  intros entry.
  assert (Hid : "2_other.db" <> "") by discriminate.
  split; [reflexivity | split; [reflexivity | split; [exact Hid | ]]].
  eexists. split; [reflexivity | ].
  intros later.
  exact (proj1 (selection_is_restored Scenario.session _ "2_other.db" entry
                  eq_refl eq_refl) eq_refl Hid later eq_refl eq_refl).
Defined.

Lemma scenario_keyed :
  keyed Scenario.twoDatabases (manager Scenario.session).
Proof.
  intros k entry. cbn [Scenario.session manager databases Map_get].
  destruct (String.eqb_spec "1_sample.db" k) as [<- | _]; [now intros [= <-] | ].
  destruct (String.eqb_spec "2_other.db" k) as [<- | _]; [now intros [= <-] | discriminate].
Qed.

Lemma removeDatabase_forgets_witness :
  let entry := {| entry_db := Some 0%nat; entry_info := 0%nat |} in
  Map_get (databases (manager Scenario.session)) "1_sample.db" = Some entry /\
  "1_sample.db" <> "" /\
  "2_other.db" <> "1_sample.db" /\
  exists s' w',
    removeDatabase (E := Sample.engine) (B := Sample.blobStore)
      Scenario.close Scenario.deleteImage Scenario.session "1_sample.db"
      Scenario.twoDatabases = (Returned s', w') /\
    getDatabase (manager s') (Some "1_sample.db")
    = Thrown "Database with ID 1_sample.db not found" /\
    Map_get (databases (manager s')) "2_other.db"
    = Some {| entry_db := Some 1%nat; entry_info := 1%nat |}.
Proof.
  intros entry.
  assert (Hid : "1_sample.db" <> "") by discriminate.
  assert (Hother : "2_other.db" <> "1_sample.db") by discriminate.
  split; [reflexivity | split; [exact Hid | split; [exact Hother | ]]].
  destruct (proj2 (removeDatabase_forgets (E := Sample.engine) (B := Sample.blobStore)
                     Scenario.close Scenario.deleteImage
                     Scenario.session "1_sample.db" Scenario.twoDatabases)
              entry eq_refl)
    as (s' & w' & Hrun & _ & Hgone & Hkept & _).
  exists s', w'. split; [exact Hrun | split; [exact (Hgone Hid) | ]].
  rewrite (Hkept "2_other.db" Hother). reflexivity.
Defined.

Lemma selection_stays_loaded_witness :
  keyed Scenario.twoDatabases (manager Scenario.session) /\
  selectionLoaded (manager Scenario.session) /\
  exists s',
    setCurrentDatabase Scenario.session "2_other.db" = Returned s' /\
    keyed Scenario.twoDatabases (manager s') /\
    selectionLoaded (manager s').
Proof.
  assert (Hloaded : selectionLoaded (manager Scenario.session))
    by (intros info H; discriminate H).
  split; [exact scenario_keyed | split; [exact Hloaded | ]].
  eexists. split; [reflexivity | ].
  exact (proj1 (selection_stays_loaded (E := Sample.engine) (B := Sample.blobStore)
                  Scenario.close Scenario.deleteImage
                  Scenario.session Scenario.twoDatabases scenario_keyed Hloaded)
           "2_other.db" _ eq_refl).
Defined.
